(** * Serverless data lake: ingest / index / query handlers

    A shallow embedding of the Lambda handlers of the repository
    ([ingest-data-lambda.py], [index-data-lambda.py], [query-data-lambda.py]
    and [lambda-function.py]) as functions over an explicit world made of the
    three managed services the handlers talk to: the blob store (S3), the
    metadata table (DynamoDB) and the search index (Elasticsearch /
    OpenSearch).  Python exceptions are modelled by a state-and-error monad:
    the world survives a raise, exactly as the services keep what was written
    before a handler fails. *)

From Stdlib Require Import ZArith Ascii String List Lia Permutation.
From stdpp Require Import base option list gmap strings fin_maps pretty.

Open Scope string_scope.
Open Scope Z_scope.

(** ** Python string methods used by the handlers

    Strings are byte strings; [lower] acts on the ASCII letters. *)

Module PyStr.

Definition ascii_lower (c : ascii) : ascii :=
  let n := nat_of_ascii c in
  if ((65 <=? n)%nat && (n <=? 90)%nat)%bool then ascii_of_nat (n + 32) else c.

(** [s.lower()] *)
Fixpoint lower (s : string) : string :=
  match s with
  | EmptyString => EmptyString
  | String c s' => String (ascii_lower c) (lower s')
  end.

(** [s.startswith(p)] *)
Definition startswith (p s : string) : bool := String.prefix p s.

(** [s[n:]] *)
Fixpoint slice_from (n : nat) (s : string) : string :=
  match n, s with
  | O, _ => s
  | S k, EmptyString => EmptyString
  | S k, String _ s' => slice_from k s'
  end.

(** [s[:n]] *)
Fixpoint slice_to (n : nat) (s : string) : string :=
  match n, s with
  | O, _ => EmptyString
  | S k, EmptyString => EmptyString
  | S k, String c s' => String c (slice_to k s')
  end.

(** [s.endswith(p)] *)
Definition endswith (p s : string) : bool :=
  (String.length p <=? String.length s)%nat &&
  String.eqb (slice_from (String.length s - String.length p) s) p.

(** [s.split(sep)] for a one-character separator: never the empty list. *)
Fixpoint split (sep : ascii) (s : string) : list string :=
  match s with
  | EmptyString => [EmptyString]
  | String c s' =>
      if Ascii.eqb c sep then EmptyString :: split sep s'
      else match split sep s' with
           | [] => [String c EmptyString]
           | hd :: tl => String c hd :: tl
           end
  end.

(** [s.split(sep, 1)]: cut at the first separator only. *)
Fixpoint split1 (sep : ascii) (s : string) : list string :=
  match s with
  | EmptyString => [EmptyString]
  | String c s' =>
      if Ascii.eqb c sep then [EmptyString; s']
      else match split1 sep s' with
           | hd :: tl => String c hd :: tl
           | [] => [String c EmptyString]
           end
  end.

(** [s.rfind(c)]: index of the last occurrence, [-1] when there is none. *)
Fixpoint rfind_from (c : ascii) (s : string) (i : Z) (acc : Z) : Z :=
  match s with
  | EmptyString => acc
  | String d s' => rfind_from c s' (i + 1) (if Ascii.eqb d c then i else acc)
  end.

Definition rfind (c : ascii) (s : string) : Z := rfind_from c s 0 (-1).

(** [s.replace(old, new)] for a non-empty [old]; [skip] counts the characters
    of a match still to be dropped. *)
Fixpoint replace_aux (old new : string) (skip : nat) (s : string) : string :=
  match s with
  | EmptyString => EmptyString
  | String c s' =>
      match skip with
      | S k => replace_aux old new k s'
      | O =>
          if String.prefix old s
          then new +:+ replace_aux old new (String.length old - 1) s'
          else String c (replace_aux old new 0 s')
      end
  end.

Definition replace (old new s : string) : string := replace_aux old new 0 s.

(** [any(ch != c for ch in s)] *)
Fixpoint has_other_than (c : ascii) (s : string) : bool :=
  match s with
  | EmptyString => false
  | String d s' => negb (Ascii.eqb d c) || has_other_than c s'
  end.

(** [c in s] for a character *)
Fixpoint contains_char (c : ascii) (s : string) : bool :=
  match s with
  | EmptyString => false
  | String d s' => Ascii.eqb d c || contains_char c s'
  end.

(** [needle in s] for strings *)
Fixpoint contains (needle s : string) : bool :=
  String.prefix needle s ||
  match s with
  | EmptyString => false
  | String _ s' => contains needle s'
  end.

(** [list(s)]: the one-character strings of [s], as a [for] loop over a
    string yields them. *)
Fixpoint chars (s : string) : list string :=
  match s with
  | EmptyString => []
  | String c s' => String c EmptyString :: chars s'
  end.

End PyStr.

(** ** [os.path] helpers (posixpath) *)

Module OsPath.

(** [os.path.basename(p)]: [p[p.rfind('/')+1:]] *)
Definition basename (p : string) : string :=
  PyStr.slice_from (Z.to_nat (PyStr.rfind "/" p + 1)) p.

(** [os.path.dirname(p)] for a relative key: [p[:p.rfind('/')+1]] with the
    trailing slashes stripped unless the head is all slashes. *)
Fixpoint rstrip_slash_rev (r : list ascii) : list ascii :=
  match r with
  | c :: r' => if Ascii.eqb c "/" then rstrip_slash_rev r' else r
  | [] => []
  end.

Definition dirname (p : string) : string :=
  let head := PyStr.slice_to (Z.to_nat (PyStr.rfind "/" p + 1)) p in
  if PyStr.has_other_than "/" head
  then string_of_list_ascii (rev (rstrip_slash_rev (rev (list_ascii_of_string head))))
  else head.

(** [os.path.splitext(p)[0]] (genericpath._splitext): the extension starts at
    the last dot after the last slash, leading dots of the file name apart. *)
Definition splitext_root (p : string) : string :=
  let sepIndex := PyStr.rfind "/" p in
  let dotIndex := PyStr.rfind "." p in
  if dotIndex >? sepIndex then
    let filename_head :=
      PyStr.slice_to (Z.to_nat (dotIndex - (sepIndex + 1)))
                     (PyStr.slice_from (Z.to_nat (sepIndex + 1)) p) in
    if PyStr.has_other_than "." filename_head
    then PyStr.slice_to (Z.to_nat dotIndex) p
    else p
  else p.

End OsPath.

(** ** Attribute values, items and the exception monad *)

(** The attribute values the handlers read and write: strings, numbers,
    booleans, null and lists of strings (the [tags]). *)
Inductive Value :=
  | VStr (s : string)
  | VNum (n : Z)
  | VBool (b : bool)
  | VNull
  | VList (l : list string).

#[global] Instance Value_eq_dec : EqDecision Value.
Proof. solve_decision. Defined.

(** A metadata item: a dict whose hash key [id] is always present (the
    table is keyed by it); [item_attrs] holds every other attribute. *)
Record Item := mkItem {
  item_id : string;
  item_attrs : gmap string Value
}.

#[global] Instance Item_eq_dec : EqDecision Item.
Proof. solve_decision. Defined.

Inductive Level := INFO | WARNING | ERROR.

Inductive Exn :=
  | KeyError (k : string)
  | IndexError
  | AttributeError
  | TypeError
  | ValueError (msg : string)
  | JSONDecodeError
  | ClientError (msg : string)
  | ParamValidationError (msg : string)
  | PlainException (msg : string).

(** [str(e)] *)
Definition exn_str (e : Exn) : string :=
  match e with
  | KeyError k => "'" +:+ k +:+ "'"
  | IndexError => "list index out of range"
  | AttributeError => "object has no attribute"
  | TypeError => "type error"
  | ValueError m => m
  | JSONDecodeError => "Expecting value"
  | ClientError m => m
  | ParamValidationError m => m
  | PlainException m => m
  end.

(** [isinstance(e, ClientError)] *)
Definition is_client_error (e : Exn) : bool :=
  match e with ClientError _ => true | _ => false end.

Inductive Res (A : Type) :=
  | Ok (a : A)
  | Raise (e : Exn).
Arguments Ok {A} a.
Arguments Raise {A} e.

(** Python truthiness of an optional string ([None] and [''] are falsy). *)
Definition truthy (o : option string) : bool :=
  match o with
  | Some s => negb (String.eqb s "")
  | None => false
  end.

(** Module-level configuration read from the environment at import. *)
Record Config := mkConfig {
  S3_BUCKET : option string;
  DYNAMODB_TABLE : option string;
  ES_ENDPOINT : option string;
  AWS_REGION : option string;
  ENVIRONMENT : option string
}.


(** An f-string field holding an optional string: [None] prints as "None". *)
Definition fmt_opt (o : option string) : string := default "None" o.

(** [f"data-lake-search-{ENVIRONMENT}"] *)
Definition OPENSEARCH_DOMAIN_NAME (cfg : Config) : string :=
  "data-lake-search-" +:+ fmt_opt (ENVIRONMENT cfg).

(** What the services answer, as far as the handlers can observe it: the
    HTTP status of a document write, whether a blob or table write goes
    through, the endpoint of a search domain, the handle of a submitted
    query, the clock and the random identifiers. *)
Record Oracles := mkOracles {
  es_put_status : string -> string -> Z;
  s3_put_ok : string -> string -> bool;
  ddb_write_ok : string -> bool;
  describe_domain : string -> option string;
  athena_execution_id : string -> string;
  clock : nat -> string;
  uuid4 : nat -> string
}.

(** ** The world: blob store, metadata table, search index, log *)

Section WorldModel.

Context {Json : Type}.

(** What is sent to the search index: the merged record, the bare metadata
    of a table-stream event, or one row of a tabular file. *)
Inductive Document :=
  | DataDoc (metadata : Item) (content : Json) (indexed_at : string)
  | MetaDoc (metadata : Item)
  | RowDoc (row : gmap string Value).

(** The writes a handler performs, in the order they reach the services. *)
Inductive Effect :=
  | PutObject (bucket key body : string)
  | PutItem (item : Item)
  | UpdateItem (data_id : string) (sets : list (string * Value))
  | CreateIndex (index_name : string)
  | PutDocument (index_name doc_id : string) (doc : Document).

Record World := mkWorld {
  s3_objects : gmap (string * string) string;
  table_items : gmap string (gmap string Value);
  es_indices : gset string;
  es_docs : list ((string * string) * Document);
  trace : list Effect;
  log : list (Level * string);
  ticks : nat
}.

(** [SET a1 = v1, a2 = v2, ...] applied to an attribute map. *)
Definition apply_sets (sets : list (string * Value)) (attrs : gmap string Value)
  : gmap string Value :=
  fold_left (fun m kv => <[kv.1 := kv.2]> m) sets attrs.

(** Create-or-replace of document [doc_id] in index [index_name]. *)
Definition es_upsert (index_name doc_id : string) (doc : Document)
    (docs : list ((string * string) * Document)) : list ((string * string) * Document) :=
  (filter (fun e => e.1 <> (index_name, doc_id)) docs ++ [((index_name, doc_id), doc)])%list.

(** What one write does to the services; it is also appended to the trace. *)
Definition apply_effect (e : Effect) (w : World) : World :=
  match e with
  | PutObject b k body =>
      mkWorld (<[(b, k) := body]> (s3_objects w)) (table_items w) (es_indices w)
              (es_docs w) (trace w ++ [e]) (log w) (ticks w)
  | PutItem item =>
      mkWorld (s3_objects w) (<[item_id item := item_attrs item]> (table_items w))
              (es_indices w) (es_docs w) (trace w ++ [e]) (log w) (ticks w)
  | UpdateItem data_id sets =>
      mkWorld (s3_objects w)
              (<[data_id := apply_sets sets (default ∅ (table_items w !! data_id))]>
                 (table_items w))
              (es_indices w) (es_docs w) (trace w ++ [e]) (log w) (ticks w)
  | CreateIndex index_name =>
      mkWorld (s3_objects w) (table_items w) ({[index_name]} ∪ es_indices w)
              (es_docs w) (trace w ++ [e]) (log w) (ticks w)
  | PutDocument index_name doc_id doc =>
      mkWorld (s3_objects w) (table_items w) ({[index_name]} ∪ es_indices w)
              (es_upsert index_name doc_id doc (es_docs w)) (trace w ++ [e])
              (log w) (ticks w)
  end.

Definition M (A : Type) : Type := World -> World * Res A.

Definition ret {A} (a : A) : M A := fun w => (w, Ok a).

Definition raise {A} (e : Exn) : M A := fun w => (w, Raise e).

Definition bind {A B} (m : M A) (k : A -> M B) : M B :=
  fun w =>
    match m w with
    | (w', Ok a) => k a w'
    | (w', Raise e) => (w', Raise e)
    end.

(** [try: m except Exception as e: h e] *)
Definition try_except {A} (m : M A) (h : Exn -> M A) : M A :=
  fun w =>
    match m w with
    | (w', Ok a) => (w', Ok a)
    | (w', Raise e) => h e w'
    end.

(** [for x in l: f x] *)
Fixpoint for_each {A} (l : list A) (f : A -> M unit) : M unit :=
  match l with
  | [] => ret tt
  | x :: l' => bind (f x) (fun _ => for_each l' f)
  end.

Definition perform (e : Effect) : M unit := fun w => (apply_effect e w, Ok tt).

Definition logger (lvl : Level) (msg : string) : M unit :=
  fun w =>
    (mkWorld (s3_objects w) (table_items w) (es_indices w) (es_docs w) (trace w)
             (log w ++ [(lvl, msg)]) (ticks w),
     Ok tt).

Definition tick (w : World) : World :=
  mkWorld (s3_objects w) (table_items w) (es_indices w) (es_docs w) (trace w)
          (log w) (S (ticks w)).

Variable orc : Oracles.

(** [datetime.datetime.now().isoformat()] *)
Definition now : M string := fun w => (tick w, Ok (clock orc (ticks w))).

(** [str(uuid.uuid4())] *)
Definition new_uuid : M string := fun w => (tick w, Ok (uuid4 orc (ticks w))).

(** [s3_client.get_object(Bucket=, Key=)['Body'].read().decode('utf-8')] *)
Definition s3_get_object (bucket key : string) : M string :=
  fun w =>
    match s3_objects w !! (bucket, key) with
    | Some body => (w, Ok body)
    | None => (w, Raise (ClientError "NoSuchKey"))
    end.

(** [s3_client.put_object(Bucket=, Key=, Body=)]; a missing bucket name is
    rejected by the client before any request is sent. *)
Definition s3_put_object (bucket : option string) (key body : string) : M unit :=
  match bucket with
  | None => raise (ParamValidationError "Invalid type for parameter Bucket")
  | Some b =>
      if s3_put_ok orc b key then perform (PutObject b key body)
      else raise (ClientError "PutObject failed")
  end.

(** [metadata_table.get_item(Key={'id': data_id})]: the ['Item'] entry. *)
Definition get_item (data_id : string) : M (option Item) :=
  fun w => (w, Ok (mkItem data_id <$> table_items w !! data_id)).

(** [metadata_table.put_item(Item=item)] *)
Definition put_item (item : Item) : M unit :=
  if ddb_write_ok orc (item_id item) then perform (PutItem item)
  else raise (ClientError "PutItem failed").

(** [metadata_table.update_item(Key={'id': data_id}, UpdateExpression="SET ...")]:
    an upsert, the item is created when the key is new. *)
Definition update_item (data_id : string) (sets : list (string * Value)) : M unit :=
  if ddb_write_ok orc data_id then perform (UpdateItem data_id sets)
  else raise (ClientError "UpdateItem failed").

(** The items of the table, each with its key. *)
Definition all_items (w : World) : list Item :=
  (fun kv => mkItem kv.1 kv.2) <$> map_to_list (table_items w).

(** [metadata_table.scan(FilterExpression=f)['Items']] *)
Definition scan (f : Item -> bool) : M (list Item) :=
  fun w => (w, Ok (List.filter f (all_items w))).

(** [metadata_table.scan(Limit=n)['Items']] *)
Definition scan_limit (n : nat) : M (list Item) :=
  fun w => (w, Ok (take n (all_items w))).

(** The status check every caller applies to a search-index answer. *)
Definition is_2xx (status : Z) : bool := (200 <=? status) && (status <? 300).

(** [requests.put(f"https://{ES_ENDPOINT}/{index_name}/_doc/{document_id}", json=document)]:
    the status code; the document is stored when the status is 2xx. *)
Definition requests_put (index_name doc_id : string) (doc : Document) : M Z :=
  let status := es_put_status orc index_name doc_id in
  if is_2xx status
  then bind (perform (PutDocument index_name doc_id doc)) (fun _ => ret status)
  else ret status.

End WorldModel.

Arguments Document : clear implicits.
Arguments Effect : clear implicits.
Arguments World : clear implicits.
Arguments M : clear implicits.

Declare Scope py_scope.
Delimit Scope py_scope with py.
Notation "x <- m ;; k" := (bind m (fun x => k))
  (at level 100, m at next level, right associativity) : py_scope.
Notation "m ;;; k" := (bind m (fun _ => k))
  (at level 100, right associativity) : py_scope.

Open Scope py_scope.

(** ** Handler responses *)

Inductive Body :=
  | BodyMsg (success : bool) (message : string)
  | BodyBulk (success : bool) (message : string) (totalItems indexedItems : nat)
  | BodyReindex (success : bool) (message : string) (totalItems indexedItems : nat)
                (dataTypes : list Value).

Record Response := mkResponse {
  statusCode : Z;
  body : Body
}.

Definition body_success (b : Body) : bool :=
  match b with
  | BodyMsg s _ | BodyBulk s _ _ _ | BodyReindex s _ _ _ _ => s
  end.

(** Python truthiness of a value. *)
Definition py_truthy (v : Value) : bool :=
  match v with
  | VStr s => negb (String.eqb s "")
  | VNum n => negb (n =? 0)
  | VBool b => b
  | VNull => false
  | VList l => match l with [] => false | _ => true end
  end.

(** Equality of dict keys: [True == 1] and [False == 0] in Python. *)
Definition py_key_eqb (a b : Value) : bool :=
  match a, b with
  | VNum n, VBool c | VBool c, VNum n => n =? (if c then 1 else 0)
  | _, _ => bool_decide (a = b)
  end.

(** A list is not hashable and cannot be a dict key. *)
Definition hashable (v : Value) : bool :=
  match v with VList _ => false | _ => true end.

(** [metadata.get(k, d)] *)
Definition item_get (metadata : Item) (k : string) (d : Value) : Value :=
  if String.eqb k "id" then VStr (item_id metadata)
  else default d (item_attrs metadata !! k).

(** The "Parse S3 location" block that index-by-id, bulk indexing, reindexing
    and content retrieval all carry: [metadata['s3Location']], removal of the
    [s3://] prefix, [split('/', 1)], [parts[0]] and [parts[1]]. *)
Definition parse_s3_location (metadata : Item) : Res (string * string) :=
  match item_attrs metadata !! "s3Location" with
  | None => Raise (KeyError "s3Location")
  | Some (VStr s3_location) =>
      let s3_location :=
        if PyStr.startswith "s3://" s3_location
        then PyStr.slice_from 5 s3_location else s3_location in
      match PyStr.split1 "/" s3_location with
      | bucket :: key :: _ => Ok (bucket, key)
      | _ => Raise IndexError
      end
  | Some _ => Raise AttributeError
  end.

(** A pure computation inside a handler. *)
Definition lift {Json A} (r : Res A) : M Json A := fun w => (w, r).

(** ** The record indexer ([index-data-lambda.py]) *)

Module Indexer.

Inductive EventRecord :=
  | S3Record (bucket key : string)
  | DynamoRecord (new_image : option Item)
  | OtherRecord.

(** The three shapes of event the handler tells apart: a batch of service
    records, an API call with a (decoded or undecodable) JSON body, and a
    direct invocation whose fields are the event's own keys. *)
Inductive Event :=
  | EvRecords (records : list EventRecord)
  | EvBody (decoded : option (gmap string Value))
  | EvDirect (fields : gmap string Value).

Section Handlers.

Context {Json : Type}.
Variable json_loads : string -> option Json.
Variable py_repr : Value -> string.
Variable cfg : Config.
Variable orc : Oracles.

#[local] Abbreviation M := (M Json).

(** A value inside an f-string: a string prints as itself, anything else as
    Python renders it. *)
Definition fmt (v : Value) : string :=
  match v with
  | VStr s => s
  | _ => py_repr v
  end.

(** [index_in_elasticsearch(index_name, document_id, document)] *)
Definition index_in_elasticsearch (index_name document_id : string)
    (document : Document Json) : M unit :=
  if negb (truthy (ES_ENDPOINT cfg)) then
    logger WARNING "ES_ENDPOINT environment variable not set, skipping indexing"
  else
    let index_name := PyStr.lower index_name in
    status <- requests_put orc index_name document_id document ;;
    if (200 <=? status) && (status <? 300) then
      logger INFO ("Successfully indexed document " +:+ document_id +:+ " in " +:+ index_name)
    else
      (logger ERROR "Error indexing document" ;;;
       raise (PlainException "Elasticsearch indexing failed")).

(** The two attributes written after a successful upsert. *)
Definition mark_indexed (data_id : string) : M unit :=
  t <- now orc ;;
  update_item orc data_id [("indexed", VBool true); ("indexedAt", VStr t)].

(** [index_s3_object(bucket, key)] *)
Definition index_s3_object (bucket key : string) : M unit :=
  logger INFO ("Indexing S3 object: " +:+ bucket +:+ "/" +:+ key) ;;;
  content <- s3_get_object bucket key ;;
  match json_loads content with
  | None =>
      logger WARNING ("Object is not JSON, skipping indexing: " +:+ bucket +:+ "/" +:+ key)
  | Some data =>
      let file_name := OsPath.basename key in
      let data_id := OsPath.splitext_root file_name in
      metadata_response <- get_item data_id ;;
      metadata <-
        match metadata_response with
        | None =>
            logger WARNING ("No metadata found for ID: " +:+ data_id) ;;;
            ret (mkItem data_id
                   {[ "s3Location" := VStr ("s3://" +:+ bucket +:+ "/" +:+ key) ]})
        | Some item => ret item
        end ;;
      t <- now orc ;;
      let index_data := DataDoc metadata data t in
      let data_type := item_get metadata "dataType" (VStr "unknown") in
      let index_name := "data-" +:+ fmt data_type in
      index_in_elasticsearch index_name data_id index_data ;;;
      mark_indexed data_id ;;;
      logger INFO ("Successfully indexed S3 object: " +:+ bucket +:+ "/" +:+ key)
  end.

(** [index_metadata(metadata)] *)
Definition index_metadata (metadata : Item) : M unit :=
  logger INFO ("Indexing metadata for ID: " +:+ item_id metadata) ;;;
  let data_type := item_get metadata "dataType" (VStr "unknown") in
  let index_name := "metadata-" +:+ fmt data_type in
  index_in_elasticsearch index_name (item_id metadata) (MetaDoc metadata) ;;;
  logger INFO ("Successfully indexed metadata for ID: " +:+ item_id metadata).

(** The fetch / merge / upsert / mark block that index-by-id, bulk and
    reindex repeat verbatim; [data_type] is where they differ. *)
Definition fetch_and_index (data_type : Value) (metadata : Item) : M unit :=
  loc <- lift (parse_s3_location metadata) ;;
  content <- s3_get_object loc.1 loc.2 ;;
  match json_loads content with
  | None => raise JSONDecodeError
  | Some data =>
      t <- now orc ;;
      let index_data := DataDoc metadata data t in
      let index_name := "data-" +:+ fmt data_type in
      index_in_elasticsearch index_name (item_id metadata) index_data ;;;
      mark_indexed (item_id metadata)
  end.

(** [index_by_id(data_id)] *)
Definition index_by_id (data_id : string) : M Response :=
  logger INFO ("Indexing data for ID: " +:+ data_id) ;;;
  response <- get_item data_id ;;
  match response with
  | None =>
      ret (mkResponse 404 (BodyMsg false ("No item found with ID: " +:+ data_id)))
  | Some metadata =>
      fetch_and_index (item_get metadata "dataType" (VStr "unknown")) metadata ;;;
      ret (mkResponse 200
             (BodyMsg true ("Successfully indexed data for ID: " +:+ data_id)))
  end.

(** The body of the batch loops: one record inside its [try], the count
    bumped on success, the error logged otherwise. *)
Definition index_one_counted (data_type : Value) (indexed_count : nat) (metadata : Item)
  : M nat :=
  try_except
    (fetch_and_index data_type metadata ;;; ret (S indexed_count))
    (fun e =>
       logger ERROR ("Error indexing item " +:+ item_id metadata +:+ ": " +:+ exn_str e) ;;;
       ret indexed_count).

(** [for metadata in items: try: ... indexed_count += 1 except ...] *)
Fixpoint index_loop (data_type : Value) (items : list Item) (indexed_count : nat) : M nat :=
  match items with
  | [] => ret indexed_count
  | metadata :: rest =>
      n <- index_one_counted data_type indexed_count metadata ;;
      index_loop data_type rest n
  end.

(** [bulk_index_by_type(data_type)] *)
Definition bulk_index_by_type (data_type : Value) : M Response :=
  logger INFO ("Bulk indexing data of type: " +:+ fmt data_type) ;;;
  items <- scan (fun it => bool_decide (item_attrs it !! "dataType" = Some data_type)) ;;
  indexed_count <- index_loop data_type items 0%nat ;;
  ret (mkResponse 200
         (BodyBulk true "Bulk indexing completed" (length items) indexed_count)).

(** [data_types[data_type].append(metadata)], creating the entry at the end
    of the dict when the key is new. *)
Fixpoint group_add (data_type : Value) (metadata : Item)
    (data_types : list (Value * list Item)) : list (Value * list Item) :=
  match data_types with
  | [] => [(data_type, [metadata])]
  | (k, l) :: rest =>
      if py_key_eqb k data_type then (k, (l ++ [metadata])%list) :: rest
      else (k, l) :: group_add data_type metadata rest
  end.

(** The grouping loop of [reindex_all]; an unhashable key raises. *)
Fixpoint group_items (items : list Item) (data_types : list (Value * list Item))
  : M (list (Value * list Item)) :=
  match items with
  | [] => ret data_types
  | metadata :: rest =>
      let data_type := item_get metadata "dataType" (VStr "unknown") in
      if hashable data_type
      then group_items rest (group_add data_type metadata data_types)
      else raise TypeError
  end.

(** [for data_type, type_items in data_types.items(): ...] *)
Fixpoint reindex_groups (data_types : list (Value * list Item)) (indexed_count : nat)
  : M nat :=
  match data_types with
  | [] => ret indexed_count
  | (data_type, type_items) :: rest =>
      logger INFO ("Reindexing " +:+ pretty (length type_items) +:+ " items of type: "
                   +:+ fmt data_type) ;;;
      n <- index_loop data_type type_items indexed_count ;;
      reindex_groups rest n
  end.

(** [reindex_all()] *)
Definition reindex_all : M Response :=
  logger INFO "Starting full reindexing of all data" ;;;
  items <- scan (fun _ => true) ;;
  data_types <- group_items items [] ;;
  indexed_count <- reindex_groups data_types 0%nat ;;
  ret (mkResponse 200
         (BodyReindex true "Full reindexing completed" (length items) indexed_count
            (data_types.*1))).

(** A request field used as the table key: only a string matches the key
    schema, anything else is refused by the table. *)
Definition index_by_id_value (v : Value) : M Response :=
  match v with
  | VStr data_id => index_by_id data_id
  | _ =>
      logger INFO ("Indexing data for ID: " +:+ fmt v) ;;;
      raise (ClientError "ValidationException")
  end.

(** One element of [event['Records']]. *)
Definition handle_record (record : EventRecord) : M unit :=
  match record with
  | S3Record bucket key => index_s3_object bucket key
  | DynamoRecord (Some item) => index_metadata item
  | DynamoRecord None => ret tt
  | OtherRecord => ret tt
  end.

Definition error_response (code : Z) (prefix : string) (e : Exn) : Response :=
  mkResponse code (BodyMsg false (prefix +:+ exn_str e)).

(** [lambda_handler(event, context)] *)
Definition lambda_handler (event : Event) : M Response :=
  try_except
    (logger INFO "Received event" ;;;
     match event with
     | EvRecords records =>
         for_each records handle_record ;;;
         ret (mkResponse 200 (BodyMsg true "Indexing completed successfully"))
     | EvBody decoded =>
         try_except
           (match decoded with
            | None => raise JSONDecodeError
            | Some body =>
                match body !! "id", body !! "dataType" with
                | Some v, _ => index_by_id_value v
                | None, Some dt => bulk_index_by_type dt
                | None, None => raise (ValueError "Request must include 'id' or 'dataType'")
                end
            end)
           (fun e =>
              logger ERROR ("Error processing API request: " +:+ exn_str e) ;;;
              ret (error_response 400 "Invalid request: " e))
     | EvDirect fields =>
         match fields !! "id", fields !! "dataType", fields !! "reindexAll" with
         | Some v, _, _ => index_by_id_value v
         | None, Some dt, _ => bulk_index_by_type dt
         | None, None, Some flag =>
             if py_truthy flag then reindex_all
             else raise (ValueError "Event must include 'id', 'dataType', or 'reindexAll'")
         | None, None, None =>
             raise (ValueError "Event must include 'id', 'dataType', or 'reindexAll'")
         end
     end)
    (fun e =>
       logger ERROR ("Error during indexing: " +:+ exn_str e) ;;;
       ret (error_response 500 "Indexing error: " e)).

End Handlers.

End Indexer.

(** ** The query service ([query-data-lambda.py]) *)

Module Query.

(** The filter expressions [search_metadata] builds with [Attr(...)]. *)
Inductive Cond :=
  | CEq (attr : string) (v : Value)
  | CBetween (attr : string) (lo hi : Value)
  | CContains (attr : string) (v : Value)
  | CAnd (a b : Cond).

(** An attribute of an item, the key included. *)
Definition item_lookup (it : Item) (k : string) : option Value :=
  if String.eqb k "id" then Some (VStr (item_id it)) else item_attrs it !! k.

(** [lo <= x <= hi] on two values of one ordered type. *)
Definition value_between (x lo hi : Value) : bool :=
  match x, lo, hi with
  | VStr x, VStr lo, VStr hi => String.leb lo x && String.leb x hi
  | VNum x, VNum lo, VNum hi => (lo <=? x) && (x <=? hi)
  | _, _, _ => false
  end.

(** The table's [contains]: a substring of a string, an element of a list. *)
Definition value_contains (x v : Value) : bool :=
  match x, v with
  | VStr s, VStr sub => PyStr.contains sub s
  | VList l, VStr e => bool_decide (e ∈ l)
  | _, _ => false
  end.

(** How the table evaluates a filter expression on an item: a comparison on
    a missing attribute is false. *)
Fixpoint eval_cond (c : Cond) (it : Item) : bool :=
  match c with
  | CEq attr v => bool_decide (item_lookup it attr = Some v)
  | CBetween attr lo hi =>
      match item_lookup it attr with
      | Some x => value_between x lo hi
      | None => false
      end
  | CContains attr v =>
      match item_lookup it attr with
      | Some x => value_contains x v
      | None => false
      end
  | CAnd a b => eval_cond a it && eval_cond b it
  end.

(** [e if filter_expression is None else filter_expression & e] *)
Definition and_with (filter_expression : option Cond) (e : Cond) : option Cond :=
  match filter_expression with
  | None => Some e
  | Some f => Some (CAnd f e)
  end.

(** What [for tag in params['tags']] yields: the elements of a list, the
    characters of a string; other values are not iterable. *)
Definition iterate (v : Value) : Res (list Value) :=
  match v with
  | VList l => Ok (VStr <$> l)
  | VStr s => Ok (VStr <$> PyStr.chars s)
  | _ => Raise TypeError
  end.

(** The expression-building part of [search_metadata]. *)
Definition build_filter (params : gmap string Value) : Res (option Cond) :=
  let filter_expression : option Cond := None in
  let filter_expression :=
    match params !! "dataType" with
    | Some v => Some (CEq "dataType" v)
    | None => filter_expression
    end in
  let filter_expression :=
    match params !! "owner" with
    | Some v => and_with filter_expression (CEq "owner" v)
    | None => filter_expression
    end in
  let filter_expression :=
    match params !! "source" with
    | Some v => and_with filter_expression (CEq "source" v)
    | None => filter_expression
    end in
  let filter_expression :=
    match params !! "fromDate", params !! "toDate" with
    | Some lo, Some hi => and_with filter_expression (CBetween "timestamp" lo hi)
    | _, _ => filter_expression
    end in
  match params !! "tags" with
  | Some tags =>
      match iterate tags with
      | Ok l => Ok (fold_left (fun fe tag => and_with fe (CContains "tags" tag)) l
                              filter_expression)
      | Raise e => Raise e
      end
  | None => Ok filter_expression
  end.

(** The dict a query function returns. *)
Inductive Result {Json : Type} :=
  | RFail (message : string)
  | RMetadata (metadata : Item)
  | RItems (count : nat) (items : list Item)
  | RContent (metadata : Item) (content : Json)
  | RSubmitted (queryExecutionId : string).
Arguments Result : clear implicits.

(** The ['success'] entry of a result. *)
Definition success {Json} (r : Result Json) : bool :=
  match r with RFail _ => false | _ => true end.

Record Response {Json : Type} := mkResponse {
  statusCode : Z;
  result : Result Json
}.
Arguments Response : clear implicits.
Arguments mkResponse {Json} statusCode result.

(** The request as the handler sees it: the query-string mapping, and the
    ['query'] entry of the JSON body when the body decodes. *)
Record Event := mkEvent {
  queryStringParameters : option (gmap string Value);
  body_query : option (gmap string Value)
}.

Section Handlers.

Context {Json : Type}.
Variable json_loads : string -> option Json.
Variable py_repr : Value -> string.
Variable cfg : Config.
Variable orc : Oracles.

#[local] Abbreviation M := (M Json).

(** [query_by_id(data_id)] *)
Definition query_by_id (data_id : option string) : M (Result Json) :=
  if negb (truthy data_id) then raise (ValueError "ID parameter is required")
  else
    let data_id := default "" data_id in
    response <- get_item data_id ;;
    match response with
    | None => ret (RFail ("No item found with ID: " +:+ data_id))
    | Some item => ret (RMetadata item)
    end.

(** [search_metadata(params)] *)
Definition search_metadata (params : gmap string Value) : M (Result Json) :=
  filter_expression <- lift (build_filter params) ;;
  items <-
    match filter_expression with
    | Some fe => scan (eval_cond fe)
    | None => scan_limit 20
    end ;;
  ret (RItems (length items) items).

(** [get_content(data_id)] *)
Definition get_content (data_id : option string) : M (Result Json) :=
  if negb (truthy data_id) then raise (ValueError "ID parameter is required")
  else
    let data_id := default "" data_id in
    response <- get_item data_id ;;
    match response with
    | None => ret (RFail ("No item found with ID: " +:+ data_id))
    | Some metadata =>
        loc <- lift (parse_s3_location metadata) ;;
        content <- s3_get_object loc.1 loc.2 ;;
        match json_loads content with
        | Some data => ret (RContent metadata data)
        | None => raise JSONDecodeError
        end
    end.

(** [execute_sql_query(sql_query)] *)
Definition execute_sql_query (sql_query : option string) : M (Result Json) :=
  if negb (truthy sql_query) then raise (ValueError "SQL query is required")
  else ret (RSubmitted (athena_execution_id orc (default "" sql_query))).

(** A request parameter used as a table key or as query text: absent and
    [None] are [None]; a string is itself; another falsy value is as good as
    absent, another truthy one is refused by the service. *)
Definition as_text (v : option Value) (k : option string -> M (Result Json))
  : M (Result Json) :=
  match v with
  | None | Some VNull => k None
  | Some (VStr s) => k (Some s)
  | Some v => if py_truthy v then raise (ClientError "ValidationException") else k None
  end.

(** The "Extract query parameters" block. *)
Definition query_params_of (event : Event) : gmap string Value :=
  match queryStringParameters event with
  | Some p => if bool_decide (p = ∅) then default ∅ (body_query event) else p
  | None => default ∅ (body_query event)
  end.

(** [lambda_handler(event, context)] *)
Definition lambda_handler (event : Event) : M (Response Json) :=
  try_except
    (logger INFO "Received event" ;;;
     let query_params := query_params_of event in
     let query_type := default (VStr "metadata") (query_params !! "type") in
     result <-
       (if bool_decide (query_type = VStr "id") then
          as_text (query_params !! "id") query_by_id
        else if bool_decide (query_type = VStr "metadata") then
          search_metadata query_params
        else if bool_decide (query_type = VStr "content") then
          as_text (query_params !! "id") get_content
        else if bool_decide (query_type = VStr "sql") then
          as_text (query_params !! "sql") execute_sql_query
        else raise (ValueError ("Unsupported query type: " +:+
                                match query_type with VStr s => s | v => py_repr v end))) ;;
     ret (mkResponse 200 result))
    (fun e =>
       if is_client_error e then
         logger ERROR ("AWS error: " +:+ exn_str e) ;;;
         ret (mkResponse 500 (RFail ("AWS error: " +:+ exn_str e)))
       else
         logger ERROR ("Error processing query: " +:+ exn_str e) ;;;
         ret (mkResponse 500 (RFail ("Error processing query: " +:+ exn_str e)))).

End Handlers.

End Query.

(** ** The record ingestor ([ingest-data-lambda.py]) *)

Module Ingest.

(** The request body once decoded: its scalar fields, and the payload under
    ['data'] when there is one. *)
Record Payload {Json : Type} := mkPayload {
  fields : gmap string Value;
  data : option Json
}.
Arguments Payload : clear implicits.
Arguments mkPayload {Json} fields data.

(** An API call carries a ['body'] that decodes to a mapping or stays a
    string; a direct invocation is its own body. *)
Inductive Event {Json : Type} :=
  | EvBody (decoded : option (Payload Json))
  | EvDirect (payload : Payload Json).
Arguments Event : clear implicits.

Record Response := mkResponse {
  statusCode : Z;
  success : bool;
  dataId : option string;
  s3Location : option string;
  message : string
}.

Section Handlers.

Context {Json : Type}.
Variable json_dumps : Json -> string.
Variable sample_json : Value -> nat -> Json.
Variable py_repr : Value -> string.
Variable cfg : Config.
Variable orc : Oracles.

#[local] Abbreviation M := (M Json).

Definition fmt (v : Value) : string :=
  match v with
  | VStr s => s
  | _ => py_repr v
  end.

(** [generate_sample_data(data_type)]: it reads the clock and draws an
    identifier. *)
Definition generate_sample_data (data_type : Value) : M Json :=
  fun w => (tick w, Ok (sample_json data_type (ticks w))).

(** [f"{data_type}/{timestamp[:10]}/{data_id}.json"] *)
Definition s3_key_of (data_type : Value) (timestamp data_id : string) : string :=
  fmt data_type +:+ "/" +:+ PyStr.slice_to 10 timestamp +:+ "/" +:+ data_id +:+ ".json".

(** [f"s3://{S3_BUCKET}/{s3_key}"] *)
Definition s3_location_of (s3_key : string) : string :=
  "s3://" +:+ fmt_opt (S3_BUCKET cfg) +:+ "/" +:+ s3_key.

(** [metadata_item], the optional entries included. *)
Definition metadata_item_of (body : gmap string Value) (data_id timestamp : string)
    (data_type source owner : Value) (s3_key data_content : string) : Item :=
  let attrs : gmap string Value :=
    <["timestamp" := VStr timestamp]>
    (<["dataType" := data_type]>
    (<["source" := source]>
    (<["owner" := owner]>
    (<["s3Location" := VStr (s3_location_of s3_key)]>
    (<["sizeBytes" := VNum (Z.of_nat (String.length data_content))]>
    (<["status" := VStr "ingested"]> ∅)))))) in
  let attrs :=
    match body !! "tags" with
    | Some v => <["tags" := v]> attrs
    | None => attrs
    end in
  let attrs :=
    match body !! "description" with
    | Some v => <["description" := v]> attrs
    | None => attrs
    end in
  mkItem data_id attrs.

(** The [try] block of the handler. *)
Definition ingest (event : Event Json) : M Response :=
  logger INFO "Received event" ;;;
  match event with
  | EvBody None =>
      (* body stays a string *)
      _ <- new_uuid orc ;;
      _ <- now orc ;;
      raise AttributeError
  | EvBody (Some body) | EvDirect body =>
      data_id <- new_uuid orc ;;
      timestamp <- now orc ;;
      let data_type := default (VStr "unknown") (fields body !! "dataType") in
      let source := default (VStr "api") (fields body !! "source") in
      let owner := default (VStr "system") (fields body !! "owner") in
      payload <-
        match data body with
        | None =>
            logger INFO "No data provided, generating sample data" ;;;
            generate_sample_data data_type
        | Some d => ret d
        end ;;
      let data_content := json_dumps payload in
      let s3_key := s3_key_of data_type timestamp data_id in
      s3_put_object orc (S3_BUCKET cfg) s3_key data_content ;;;
      let metadata_item :=
        metadata_item_of (fields body) data_id timestamp data_type source owner
                         s3_key data_content in
      put_item orc metadata_item ;;;
      logger INFO ("Successfully ingested data with ID: " +:+ data_id) ;;;
      ret (mkResponse 200 true (Some data_id) (Some (s3_location_of s3_key))
             "Data successfully ingested")
  end.

(** [lambda_handler(event, context)] *)
Definition lambda_handler (event : Event Json) : M Response :=
  try_except (ingest event)
    (fun e =>
       if is_client_error e then
         logger ERROR ("AWS error: " +:+ exn_str e) ;;;
         ret (mkResponse 500 false None None ("AWS error: " +:+ exn_str e))
       else
         logger ERROR ("Error processing data: " +:+ exn_str e) ;;;
         ret (mkResponse 500 false None None ("Error processing data: " +:+ exn_str e))).

End Handlers.

End Ingest.

(** ** The raw-file indexer ([lambda-function.py]) *)

Module RawIndexer.

Inductive FileType := csv | json | parquet | unknown.

(** [detect_file_type(key)] *)
Definition detect_file_type (key : string) : FileType :=
  if PyStr.endswith ".csv" key then csv
  else if PyStr.endswith ".json" key then json
  else if PyStr.endswith ".parquet" key then parquet
  else unknown.

(** A table of rows, each a mapping from column name to cell. *)
Definition DataFrame : Type := list (gmap string Value).

(** The tabular-data library, taken as given: its readers fail on input they
    cannot parse, its writers always produce text. *)
Record Pandas := mkPandas {
  read_csv : string -> option DataFrame;
  read_json : bool -> string -> option DataFrame;
  read_parquet : string -> option DataFrame;
  to_csv : DataFrame -> string;
  to_json : DataFrame -> string;
  to_parquet : DataFrame -> string
}.

(** One element of [event['Records']]. *)
Record EventRecord := mkRecord {
  eventSource : option string;
  eventName : option string;
  bucket_name : string;
  object_key : string
}.

(** What [process_file] returns when it has indexed a file. *)
Record Processed := mkProcessed {
  file : string;
  index : string;
  records_indexed : nat;
  processed_file : string
}.

Record Response := mkResponse {
  statusCode : Z;
  body : string
}.

(** [s.strip()] on the left end, which is all [startswith] looks at. *)
Definition is_space (c : ascii) : bool :=
  let n := nat_of_ascii c in
  ((9 <=? n)%nat && (n <=? 13)%nat) || ((28 <=? n)%nat && (n <=? 32)%nat).

Fixpoint lstrip (s : string) : string :=
  match s with
  | String c s' => if is_space c then lstrip s' else s
  | EmptyString => EmptyString
  end.

Section Handlers.

Context {Json : Type}.
Variable pd : Pandas.
Variable unquote_plus : string -> string.
Variable cfg : Config.
Variable orc : Oracles.

#[local] Abbreviation M := (M Json).

(** [try: m except Exception as e: logger.error(...); raise] *)
Definition logged {A} (prefix : string) (m : M A) : M A :=
  try_except m
    (fun e => logger ERROR (prefix +:+ exn_str e) ;;; raise e).

(** [get_opensearch_endpoint()] *)
Definition get_opensearch_endpoint : M string :=
  logged "Error getting OpenSearch endpoint: "
    (match describe_domain orc (OPENSEARCH_DOMAIN_NAME cfg) with
     | Some endpoint => ret ("https://" +:+ endpoint)
     | None => raise (ClientError "ResourceNotFoundException")
     end).

(** [read_file_content(bucket, key)] *)
Definition read_file_content (bucket key : string) : M (option DataFrame) :=
  let file_type := detect_file_type key in
  logged "Error reading file content: "
    (content <- s3_get_object bucket key ;;
     let parsed (r : option DataFrame) : M (option DataFrame) :=
       match r with
       | Some df => ret (Some df)
       | None => raise (ValueError "could not parse file")
       end in
     match file_type with
     | csv => parsed (read_csv pd content)
     | json =>
         if PyStr.startswith "[" (lstrip content)
         then parsed (read_json pd false content)
         else parsed (read_json pd true content)
     | parquet => parsed (read_parquet pd content)
     | unknown =>
         logger WARNING "Unsupported file type for indexing: unknown" ;;;
         ret None
     end).

(** [create_index_if_not_exists(client, index_name)] *)
Definition create_index_if_not_exists (index_name : string) : M unit :=
  logged "Error creating index: "
    (fun w =>
       if bool_decide (index_name ∈ es_indices w) then (w, Ok tt)
       else
         (logger INFO ("Creating index: " +:+ index_name) ;;;
          perform (CreateIndex index_name) ;;;
          logger INFO ("Index created: " +:+ index_name)) w).

(** [pd.isna(v)] *)
Definition isna (v : Value) : bool :=
  match v with VNull => true | _ => false end.

(** The [cleaned_record] of one row. *)
Definition clean (record : gmap string Value) : gmap string Value :=
  (fun v => if isna v then VNull else v) <$> record.

(** [client.bulk(body=bulk_body)]: the index operations in order, each stored
    when the index accepts it; the answer lists the status of every item. *)
Fixpoint bulk (index_name : string) (i : nat) (records : list (gmap string Value))
  : M (list Z) :=
  match records with
  | [] => ret []
  | record :: rest =>
      status <- requests_put orc index_name (pretty i) (RowDoc (clean record)) ;;
      statuses <- bulk index_name (S i) rest ;;
      ret (status :: statuses)
  end.

(** [index_data(client, index_name, df)]; the frame gains its
    [processed_timestamp] column in place, so it is returned with the count. *)
Definition index_data (index_name : string) (df : DataFrame) : M (DataFrame * nat) :=
  logged "Error indexing data: "
    (t <- now orc ;;
     let df := (fun row => <["processed_timestamp" := VStr t]> row) <$> df in
     let records := df in
     match records with
     | [] => ret (df, 0%nat)
     | _ =>
         items <- bulk index_name 0 records ;;
         for_each (List.filter (fun status => negb (is_2xx status)) items)
                  (fun _ => logger ERROR "Error indexing document") ;;;
         logger INFO ("Indexed " +:+ pretty (length records) +:+ " documents in " +:+ index_name) ;;;
         ret (df, length records)
     end).

(** The "Extract dataset name" block of [process_file]. *)
Definition dataset_name_of (key : string) (path_parts : list string) : string :=
  if (3 <=? length path_parts)%nat && bool_decide (path_parts !! 0%nat = Some "raw")
  then PyStr.lower (default "" (path_parts !! 1%nat))
  else PyStr.lower (OsPath.splitext_root (OsPath.basename key)).

(** [f"{dataset_name}_{ENVIRONMENT}".replace('-', '_')] *)
Definition index_name_of (dataset_name : string) : string :=
  PyStr.replace "-" "_" (dataset_name +:+ "_" +:+ fmt_opt (ENVIRONMENT cfg)).

(** The "Save processed file" block. *)
Definition save_processed (bucket processed_key : string) (df : DataFrame) : M unit :=
  if PyStr.endswith ".csv" processed_key then
    s3_put_object orc (Some bucket) processed_key (to_csv pd df)
  else if PyStr.endswith ".json" processed_key then
    s3_put_object orc (Some bucket) processed_key (to_json pd df)
  else if PyStr.endswith ".parquet" processed_key then
    s3_put_object orc (Some bucket) processed_key (to_parquet pd df)
  else ret tt.

(** [process_file(bucket, key)] *)
Definition process_file (bucket key : string) : M (option Processed) :=
  logged ("Error processing file " +:+ key +:+ ": ")
    (let path_parts := PyStr.split "/" key in
     if (length path_parts <? 2)%nat then
       logger WARNING ("Skipping file with insufficient path depth: " +:+ key) ;;;
       ret None
     else
       let dataset_name := dataset_name_of key path_parts in
       let index_name := index_name_of dataset_name in
       _ <- get_opensearch_endpoint ;;
       create_index_if_not_exists index_name ;;;
       df <- read_file_content bucket key ;;
       match df with
       | None => ret None
       | Some df =>
           r <- index_data index_name df ;;
           let df := r.1 in
           let num_indexed := r.2 in
           let processed_key := PyStr.replace "raw/" "processed/" key in
           let directory := OsPath.dirname processed_key in
           (if negb (String.eqb directory "") then
              try_except
                (s3_put_object orc (Some bucket) (directory +:+ "/") "")
                (fun e => logger WARNING ("Error creating directory: " +:+ exn_str e))
            else ret tt) ;;;
           save_processed bucket processed_key df ;;;
           logger INFO ("Processed file saved to " +:+ processed_key) ;;;
           ret (Some (mkProcessed key index_name num_indexed processed_key))
       end).

(** The body of the loop over [event['Records']]. *)
Definition handle_record (record : EventRecord) : M unit :=
  if bool_decide (eventSource record = Some "aws:s3") &&
     PyStr.startswith "ObjectCreated:" (default "" (eventName record))
  then
    let bucket := bucket_name record in
    let key := unquote_plus (object_key record) in
    logger INFO ("Processing file: s3://" +:+ bucket +:+ "/" +:+ key) ;;;
    if PyStr.endswith "/" key then
      logger INFO ("Skipping directory marker: " +:+ key)
    else
      result <- process_file bucket key ;;
      match result with
      | Some _ => logger INFO "Processing result"
      | None => ret tt
      end
  else ret tt.

(** [lambda_handler(event, context)] *)
Definition lambda_handler (records : list EventRecord) : M Response :=
  logger INFO "Received event" ;;;
  try_except
    (for_each records handle_record ;;;
     ret (mkResponse 200 "Processing completed successfully"))
    (fun e =>
       logger ERROR ("Error in lambda_handler: " +:+ exn_str e) ;;;
       ret (mkResponse 500 ("Error: " +:+ exn_str e))).

End Handlers.

End RawIndexer.

(** ** The index name as the specification words it

    "Lower-cased, non-alphanumeric collapsed to [_]": every maximal run of
    characters other than letters and digits becomes one underscore. *)




(** ** Worked configurations and worlds *)

Module Fixture.

(** A stand-in decoder: a text is taken for JSON when it opens with a brace,
    and decodes to itself. *)
Definition json_loads (s : string) : option string :=
  if PyStr.startswith "{" s then Some s else None.

Definition json_dumps (j : string) : string := j.

Definition sample_json (data_type : Value) (n : nat) : string := "{}".

Definition py_repr (v : Value) : string :=
  match v with
  | VStr s => s
  | VNum n => pretty n
  | VBool true => "True"
  | VBool false => "False"
  | VNull => "None"
  | VList _ => "[]"
  end.

Definition cfg : Config :=
  mkConfig (Some "lake") (Some "lake-metadata") (Some "search.example.com") None (Some "dev").

(** The same deployment with the search endpoint left unset. *)
Definition cfg_no_endpoint : Config :=
  mkConfig (Some "lake") (Some "lake-metadata") None None (Some "dev").

(** Services that accept every write. *)
Definition orc : Oracles :=
  mkOracles (fun _ _ => 200) (fun _ _ => true) (fun _ => true)
            (fun _ => Some "os.example.com") (fun _ => "q-1")
            (fun n => "2026-01-0" +:+ pretty (S n) +:+ "T00:00:00")
            (fun n => "uuid-" +:+ pretty n).

Definition empty_world : World string := mkWorld ∅ ∅ ∅ [] [] [] 0.

(** One ingested record [r1] of type [sales] with its blob in place. *)
Definition sales_item : Item :=
  mkItem "r1" (<["dataType" := VStr "sales"]>
              (<["s3Location" := VStr "s3://lake/sales/2026-01-01/r1.json"]> ∅)).

Definition sales_world : World string :=
  mkWorld {[ ("lake", "sales/2026-01-01/r1.json") := "{}" ]}
          {[ "r1" := item_attrs sales_item ]} ∅ [] [] [] 0.

(** The metadata of [r1] survives, its blob does not. *)
Definition lost_blob_world : World string :=
  mkWorld ∅ {[ "r1" := item_attrs sales_item ]} ∅ [] [] [] 0.

(** A JSON blob under a one-segment key, with no metadata entry. *)
Definition flat_key_world : World string :=
  mkWorld {[ ("lake", "abc.json") := "{}" ]} ∅ ∅ [] [] [] 0.

(** Two [sales] records: [r1] with its blob, [r2] whose blob is gone. *)
Definition mixed_world : World string :=
  mkWorld {[ ("lake", "sales/2026-01-01/r1.json") := "{}" ]}
          (<["r2" := <["dataType" := VStr "sales"]>
                     (<["s3Location" := VStr "s3://lake/sales/2026-01-01/r2.json"]> ∅)]>
             {[ "r1" := item_attrs sales_item ]})
          ∅ [] [] [] 0.

(** [r1] indexed by id once, and once more. *)
Definition indexed_once : World string :=
  (Indexer.index_by_id json_loads py_repr cfg orc "r1" sales_world).1.

Definition indexed_twice : World string :=
  (Indexer.index_by_id json_loads py_repr cfg orc "r1" indexed_once).1.

(** The same two calls with the search endpoint unset. *)
Definition flagged_once : World string :=
  (Indexer.index_by_id json_loads py_repr cfg_no_endpoint orc "r1" sales_world).1.

Definition flagged_twice : World string :=
  (Indexer.index_by_id json_loads py_repr cfg_no_endpoint orc "r1" flagged_once).1.

(** A request to ingest one [user] payload. *)
Definition user_event : Ingest.Event string :=
  Ingest.EvDirect (Ingest.mkPayload {[ "dataType" := VStr "user" ]} (Some "{name}")).

(** ... and the run of the ingestor on it, from the empty world. *)
Definition user_run : World string * Res Ingest.Response :=
  Ingest.lambda_handler json_dumps sample_json py_repr cfg orc user_event empty_world.

(** A table reader that takes any text for an empty table. *)
Definition pandas : RawIndexer.Pandas :=
  RawIndexer.mkPandas (fun _ => Some []) (fun _ _ => Some []) (fun _ => Some [])
                      (fun _ => "") (fun _ => "[]") (fun _ => "").

(** Keys that need no decoding. *)
Definition unquote_plus (s : string) : string := s.




(** Services whose search index refuses every document. *)
Definition orc_refusing : Oracles :=
  mkOracles (fun _ _ => 400) (fun _ _ => true) (fun _ => true)
            (fun _ => Some "os.example.com") (fun _ => "q-1")
            (fun n => "2026-01-0" +:+ pretty (S n) +:+ "T00:00:00")
            (fun n => "uuid-" +:+ pretty n).

(** Services with no search domain. *)
Definition orc_no_domain : Oracles :=
  mkOracles (fun _ _ => 200) (fun _ _ => true) (fun _ => true)
            (fun _ => None) (fun _ => "q-1")
            (fun n => "2026-01-0" +:+ pretty (S n) +:+ "T00:00:00")
            (fun n => "uuid-" +:+ pretty n).

(** One record whose [dataType] is a list. *)
Definition list_type_world : World string :=
  mkWorld ∅ {[ "r3" := <["dataType" := VList ["a"; "b"]]> ∅ ]} ∅ [] [] [] 0.

(** A table reader that finds one row in any text. *)
Definition one_row_pandas : RawIndexer.Pandas :=
  RawIndexer.mkPandas (fun _ => Some [{[ "a" := VNum 1 ]}])
                      (fun _ _ => Some [{[ "a" := VNum 1 ]}])
                      (fun _ => Some [{[ "a" := VNum 1 ]}])
                      (fun df => "rows:" +:+ pretty (length df)) (fun _ => "[]") (fun _ => "").

(** A text file and a CSV file outside [raw/]. *)
Definition inbox_world : World string :=
  mkWorld {[ ("lake", "inbox/notes.txt") := "hello"; ("lake", "inbox/a.csv") := "a" ]}
          ∅ ∅ [] [] [] 0.

(** An object-created event for a raw CSV file, with another one after it. *)
Definition raw_record : RawIndexer.EventRecord :=
  RawIndexer.mkRecord (Some "aws:s3") (Some "ObjectCreated:Put") "lake"
                      "raw/sales/sales_20260101_000000.csv".

End Fixture.

(** * Properties *)

(** ** What a handler may write: a small logic over the trace *)

Section TraceLogic.

Context {Json : Type}.

#[local] Abbreviation World := (World Json).
#[local] Abbreviation M := (M Json).
#[local] Abbreviation Effect := (Effect Json).

(** Every run of [m] moves the world along the relation [R]. *)
Definition respects {A} (R : relation World) (m : M A) : Prop :=
  forall w, R w (m w).1.

Section Respects.

Variable R : relation World.
Context `{!PreOrder R}.

Lemma respects_ret {A} (a : A) : respects R (ret a).
Proof. intros w. reflexivity. Qed.

Lemma respects_raise {A} e : respects R (raise (A := A) e).
Proof. intros w. reflexivity. Qed.

Lemma respects_lift {A} (r : Res A) : respects R (lift r).
Proof. intros w. reflexivity. Qed.

Lemma respects_bind {A B} (m : M A) (k : A -> M B) :
  respects R m -> (forall a, respects R (k a)) -> respects R (bind m k).
Proof.
  intros Hm Hk w. unfold bind. specialize (Hm w).
  destruct (m w) as [w1 [a | e]]; simpl in *; [| done].
  etrans; [exact Hm | apply Hk].
Qed.

Lemma respects_try_except {A} (m : M A) (h : Exn -> M A) :
  respects R m -> (forall e, respects R (h e)) -> respects R (try_except m h).
Proof.
  intros Hm Hh w. unfold try_except. specialize (Hm w).
  destruct (m w) as [w1 [a | e]]; simpl in *; [done |].
  etrans; [exact Hm | apply Hh].
Qed.

Lemma respects_for_each {A} (l : list A) (f : A -> M unit) :
  (forall x, respects R (f x)) -> respects R (for_each l f).
Proof.
  intros Hf. induction l as [| x l IH]; simpl.
  - apply respects_ret.
  - apply respects_bind; [apply Hf | intros _; exact IH].
Qed.

Lemma respects_get_item data_id : respects R (get_item data_id).
Proof. intros w. reflexivity. Qed.

Lemma respects_scan f : respects R (scan f).
Proof. intros w. reflexivity. Qed.

Lemma respects_scan_limit n : respects R (scan_limit n).
Proof. intros w. reflexivity. Qed.

Lemma respects_s3_get_object bucket key : respects R (s3_get_object bucket key).
Proof.
  intros w. unfold s3_get_object.
  destruct (s3_objects w !! (bucket, key)); reflexivity.
Qed.

End Respects.

(** [w'] continues [w] with writes that all satisfy [P]. *)
Definition extends (P : Effect -> Prop) (w w' : World) : Prop :=
  exists new, trace w' = (trace w ++ new)%list /\ Forall P new.

(** Every run of [m] only adds writes that satisfy [P]. *)
Definition emits {A} (P : Effect -> Prop) (m : M A) : Prop :=
  respects (extends P) m.

Lemma extends_refl P w : extends P w w.
Proof. exists []. split; [by rewrite app_nil_r | constructor]. Qed.

Lemma extends_same P w w' : trace w' = trace w -> extends P w w'.
Proof. intros H. exists []. split; [by rewrite app_nil_r | constructor]. Qed.

Lemma extends_trans P w1 w2 w3 :
  extends P w1 w2 -> extends P w2 w3 -> extends P w1 w3.
Proof.
  intros (n1 & E1 & F1) (n2 & E2 & F2). exists (n1 ++ n2)%list. split.
  - by rewrite E2, E1, app_assoc.
  - by apply Forall_app.
Qed.

#[global] Instance extends_preorder P : PreOrder (extends P).
Proof. split; [intros w; apply extends_refl | intros w1 w2 w3; apply extends_trans]. Qed.

Lemma extends_weaken (P Q : Effect -> Prop) w w' :
  (forall e, P e -> Q e) -> extends P w w' -> extends Q w w'.
Proof.
  intros HPQ (n & E & F). exists n. split; [done |].
  eapply Forall_impl; eauto.
Qed.

(** With no write allowed the trace stays as it is. *)
Lemma extends_nothing w w' : extends (fun _ => False) w w' -> trace w' = trace w.
Proof.
  intros (n & E & F). destruct n as [| e n].
  - by rewrite app_nil_r in E.
  - by inversion F.
Qed.

Lemma emits_ret {A} P (a : A) : emits P (ret a).
Proof. apply respects_ret, _. Qed.

Lemma emits_raise {A} P e : emits P (raise (A := A) e).
Proof. apply respects_raise, _. Qed.

Lemma emits_lift {A} P (r : Res A) : emits P (lift r).
Proof. apply respects_lift, _. Qed.

Lemma emits_bind {A B} P (m : M A) (k : A -> M B) :
  emits P m -> (forall a, emits P (k a)) -> emits P (bind m k).
Proof. apply respects_bind, _. Qed.



Lemma emits_logger P lvl msg : emits P (logger lvl msg).
Proof. intros w. by apply extends_same. Qed.

Lemma emits_now P orc : emits P (now orc).
Proof. intros w. by apply extends_same. Qed.

Lemma emits_new_uuid P orc : emits P (new_uuid orc).
Proof. intros w. by apply extends_same. Qed.

Lemma emits_get_item P data_id : emits P (get_item data_id).
Proof. intros w. apply extends_refl. Qed.

Lemma emits_scan P f : emits P (scan f).
Proof. intros w. apply extends_refl. Qed.

Lemma emits_scan_limit P n : emits P (scan_limit n).
Proof. intros w. apply extends_refl. Qed.

Lemma emits_s3_get_object P bucket key : emits P (s3_get_object bucket key).
Proof.
  intros w. unfold s3_get_object.
  destruct (s3_objects w !! (bucket, key)); apply extends_refl.
Qed.

Lemma emits_perform (P : Effect -> Prop) e : P e -> emits P (perform e).
Proof.
  intros HP w. exists [e]. split; [by destruct e | by repeat constructor].
Qed.



Lemma emits_update_item (P : Effect -> Prop) orc data_id sets :
  P (UpdateItem data_id sets) -> emits P (update_item orc data_id sets).
Proof.
  intros HP. unfold update_item.
  destruct (ddb_write_ok orc data_id); [by apply emits_perform | apply emits_raise].
Qed.

Lemma emits_requests_put (P : Effect -> Prop) orc index_name doc_id doc :
  P (PutDocument index_name doc_id doc) ->
  emits P (requests_put orc index_name doc_id doc).
Proof.
  intros HP. unfold requests_put.
  destruct (is_2xx _); [| apply emits_ret].
  apply emits_bind; [by apply emits_perform | intros _; apply emits_ret].
Qed.

End TraceLogic.

Create HintDb emits.

#[global] Hint Resolve emits_ret emits_raise emits_lift emits_logger emits_now
  emits_new_uuid emits_get_item emits_scan emits_scan_limit emits_s3_get_object : emits.


(** ** The record indexer: which index each entry point writes to *)

Section IndexNames.

Context {Json : Type}.
Variable json_loads : string -> option Json.
Variable py_repr : Value -> string.
Variable cfg : Config.
Variable orc : Oracles.

#[local] Abbreviation fmt := (Indexer.fmt py_repr).
#[local] Abbreviation index_in_elasticsearch := (Indexer.index_in_elasticsearch (Json := Json) cfg orc).
#[local] Abbreviation fetch_and_index := (Indexer.fetch_and_index json_loads py_repr cfg orc).
#[local] Abbreviation index_s3_object := (Indexer.index_s3_object json_loads py_repr cfg orc).
#[local] Abbreviation index_metadata := (Indexer.index_metadata (Json := Json) py_repr cfg orc).
#[local] Abbreviation index_by_id := (Indexer.index_by_id json_loads py_repr cfg orc).
#[local] Abbreviation bulk_index_by_type := (Indexer.bulk_index_by_type json_loads py_repr cfg orc).
#[local] Abbreviation reindex_all := (Indexer.reindex_all json_loads py_repr cfg orc).


(** The index of the merged documents of a data type. *)
Definition data_index (data_type : Value) : string :=
  PyStr.lower ("data-" +:+ fmt data_type).

(** The index of the bare metadata documents of a data type. *)
Definition metadata_index (data_type : Value) : string :=
  PyStr.lower ("metadata-" +:+ fmt data_type).

(** The data type the per-record entry points read for record [data_id]:
    the table's, or ['unknown']. *)
Definition data_type_of (w : World Json) (data_id : string) : Value :=
  item_get (mkItem data_id (default ∅ (table_items w !! data_id))) "dataType" (VStr "unknown").











End IndexNames.


(** ** The record indexer: what one record's indexing does *)

Section IndexerRuns.

Context {Json : Type}.
Variable json_loads : string -> option Json.
Variable py_repr : Value -> string.
Variable cfg : Config.
Variable orc : Oracles.

#[local] Abbreviation World := (World Json).
#[local] Abbreviation index_in_elasticsearch := (Indexer.index_in_elasticsearch (Json := Json) cfg orc).
#[local] Abbreviation fetch_and_index := (Indexer.fetch_and_index json_loads py_repr cfg orc).
#[local] Abbreviation index_one_counted := (Indexer.index_one_counted json_loads py_repr cfg orc).
#[local] Abbreviation index_loop := (Indexer.index_loop json_loads py_repr cfg orc).
#[local] Abbreviation index_by_id := (Indexer.index_by_id json_loads py_repr cfg orc).
#[local] Abbreviation bulk_index_by_type := (Indexer.bulk_index_by_type json_loads py_repr cfg orc).
#[local] Abbreviation reindex_all := (Indexer.reindex_all json_loads py_repr cfg orc).

(** The blob of a record can be located, read and decoded. *)
Definition blob_ok (s3 : gmap (string * string) string) (metadata : Item) : bool :=
  match parse_s3_location metadata with
  | Ok (bucket, key) =>
      match s3 !! (bucket, key) with
      | Some content => bool_decide (is_Some (json_loads content))
      | None => false
      end
  | Raise _ => false
  end.

(** The search index takes the document: the endpoint is unset (nothing is
    sent) or the answer is 2xx. *)
Definition index_accepts (index_name document_id : string) : bool :=
  negb (truthy (ES_ENDPOINT cfg)) ||
  is_2xx (es_put_status orc (PyStr.lower index_name) document_id).

(** Every step of the fetch / merge / upsert / mark block goes through. *)
Definition indexable (s3 : gmap (string * string) string) (data_type : Value)
    (metadata : Item) : bool :=
  blob_ok s3 metadata
  && index_accepts ("data-" +:+ Indexer.fmt py_repr data_type) (item_id metadata)
  && ddb_write_ok orc (item_id metadata).

(** The blob store is untouched and the log only grows. *)
Definition calm (w w' : World) : Prop :=
  s3_objects w' = s3_objects w /\ exists l, log w' = (log w ++ l)%list.

#[global] Instance calm_preorder : PreOrder calm.
Proof.
  split.
  - intros w. split; [done | exists []; by rewrite app_nil_r].
  - intros w1 w2 w3 [S1 [l1 L1]] [S2 [l2 L2]]. split; [congruence |].
    exists (l1 ++ l2)%list. by rewrite L2, L1, app_assoc.
Qed.

Lemma calm_logger lvl msg : respects calm (logger (Json := Json) lvl msg).
Proof. intros w. split; [done | by exists [(lvl, msg)]]. Qed.

Lemma calm_same (w w' : World) :
  s3_objects w' = s3_objects w -> log w' = log w -> calm w w'.
Proof. intros H1 H2. split; [done | exists []; by rewrite app_nil_r]. Qed.

Lemma calm_now : respects calm (now (Json := Json) orc).
Proof. intros w. by apply calm_same. Qed.

Lemma calm_update_item data_id sets : respects calm (update_item (Json := Json) orc data_id sets).
Proof.
  intros w. unfold update_item. destruct (ddb_write_ok orc data_id); by apply calm_same.
Qed.

Lemma calm_requests_put index_name doc_id (doc : Document Json) :
  respects calm (requests_put orc index_name doc_id doc).
Proof.
  intros w. unfold requests_put, bind. destruct (is_2xx _); by apply calm_same.
Qed.

Lemma calm_index_in_elasticsearch index_name document_id document :
  respects calm (index_in_elasticsearch index_name document_id document).
Proof.
  unfold Indexer.index_in_elasticsearch.
  destruct (negb _); [apply calm_logger |].
  apply respects_bind; [apply _ | apply calm_requests_put | intros status].
  destruct (_ && _); [apply calm_logger |].
  apply respects_bind; [apply _ | apply calm_logger | intros _; apply respects_raise, _].
Qed.

Lemma calm_mark_indexed data_id : respects calm (Indexer.mark_indexed (Json := Json) orc data_id).
Proof.
  unfold Indexer.mark_indexed.
  apply respects_bind; [apply _ | apply calm_now | intros t; apply calm_update_item].
Qed.

Lemma calm_fetch_and_index data_type metadata :
  respects calm (fetch_and_index data_type metadata).
Proof.
  unfold Indexer.fetch_and_index.
  apply respects_bind; [apply _ | apply respects_lift, _ | intros loc].
  apply respects_bind; [apply _ | apply respects_s3_get_object, _ | intros content].
  destruct (json_loads content); [| apply respects_raise, _].
  apply respects_bind; [apply _ | apply calm_now | intros t].
  apply respects_bind; [apply _ | apply calm_index_in_elasticsearch | intros _].
  apply calm_mark_indexed.
Qed.

(** Whether [index_in_elasticsearch] returns or raises. *)
Lemma index_in_elasticsearch_result index_name document_id document w :
  (index_in_elasticsearch index_name document_id document w).2 =
  if index_accepts index_name document_id then Ok tt
  else Raise (PlainException "Elasticsearch indexing failed").
Proof.
  unfold Indexer.index_in_elasticsearch, index_accepts.
  destruct (negb (truthy (ES_ENDPOINT cfg))); simpl; [done |].
  unfold bind, requests_put, is_2xx, bind, perform, ret, logger, raise.
  destruct (_ && _) eqn:E; simpl; rewrite E; done.
Qed.

(** Whether the block returns or raises is decided by [indexable]. *)
Lemma fetch_and_index_result data_type metadata w :
  if indexable (s3_objects w) data_type metadata
  then (fetch_and_index data_type metadata w).2 = Ok tt
  else exists e, (fetch_and_index data_type metadata w).2 = Raise e.
Proof.
  unfold indexable, blob_ok, Indexer.fetch_and_index, bind, lift, s3_get_object.
  destruct (parse_s3_location metadata) as [[bucket key] | e]; simpl; [| eauto].
  destruct (s3_objects w !! (bucket, key)) as [content |]; simpl; [| eauto].
  destruct (json_loads content) as [data |]; simpl; [| unfold raise; eauto].
  pose proof (index_in_elasticsearch_result
                ("data-" +:+ Indexer.fmt py_repr data_type) (item_id metadata)
                (DataDoc metadata data (clock orc (ticks w))) (tick w)) as Hes.
  destruct (index_in_elasticsearch _ _ _ _) as [w1 r1]. simpl in Hes. subst r1.
  destruct (index_accepts _ _); simpl; [| eauto].
  unfold Indexer.mark_indexed, bind, now, update_item, perform, raise. simpl.
  destruct (ddb_write_ok orc (item_id metadata)); simpl; eauto.
Qed.

(** The error line a failed record leaves in the log. *)
Definition error_logged (metadata : Item) (w : World) : Prop :=
  exists e, (ERROR, "Error indexing item " +:+ item_id metadata +:+ ": " +:+ exn_str e) ∈ log w.

Lemma error_logged_calm metadata w w' :
  calm w w' -> error_logged metadata w -> error_logged metadata w'.
Proof.
  intros [_ [l Hl]] [e He]. exists e. rewrite Hl. apply elem_of_app. by left.
Qed.

(** One turn of a batch loop never raises: the count goes up exactly when
    the record is indexable, and a failure is logged. *)
Lemma index_one_counted_run data_type n metadata w :
  exists w',
    index_one_counted data_type n metadata w =
      (w', Ok (if indexable (s3_objects w) data_type metadata then S n else n)) /\
    calm w w' /\
    (indexable (s3_objects w) data_type metadata = false -> error_logged metadata w').
Proof.
  pose proof (fetch_and_index_result data_type metadata w) as Hres.
  pose proof (calm_fetch_and_index data_type metadata w) as Hcalm.
  unfold Indexer.index_one_counted, try_except, bind.
  destruct (fetch_and_index data_type metadata w) as [w1 r]. simpl in *.
  destruct (indexable _ _ _).
  - subst r. exists w1. simpl. split; [done |]. split; [done | intros; discriminate].
  - destruct Hres as [e ->]. simpl. eexists. split; [reflexivity |]. split.
    + etrans; [exact Hcalm |]. apply calm_logger.
    + intros _. exists e. simpl. apply elem_of_app. right. by apply list_elem_of_singleton.
Qed.

(** The loop visits every record and returns the number of indexable ones
    on top of the count it started from. *)
Lemma index_loop_run data_type items n w :
  exists w',
    index_loop data_type items n w =
      (w', Ok (n + length (List.filter (indexable (s3_objects w) data_type) items))%nat) /\
    calm w w' /\
    (forall metadata, metadata ∈ items ->
       indexable (s3_objects w) data_type metadata = false -> error_logged metadata w').
Proof.
  revert n w. induction items as [| md items IH]; intros n w; simpl.
  - exists w. unfold ret. rewrite Nat.add_0_r. split; [done |]. split; [reflexivity |].
    intros md Hin. by apply elem_of_nil in Hin.
  - destruct (index_one_counted_run data_type n md w) as (w1 & E1 & C1 & L1).
    unfold bind at 1. rewrite E1.
    destruct (IH (if indexable (s3_objects w) data_type md then S n else n) w1)
      as (w2 & E2 & C2 & L2).
    destruct C1 as [S1 G1]. rewrite S1 in E2, L2.
    exists w2. split; [| split].
    + rewrite E2. f_equal. f_equal.
      destruct (indexable (s3_objects w) data_type md); simpl; lia.
    + etrans; [split; [exact S1 | exact G1] | exact C2].
    + intros md' Hin Hbad. apply elem_of_cons in Hin as [-> | Hin].
      * eapply error_logged_calm; [exact C2 | by apply L1].
      * by apply L2.
Qed.

(** The records a bulk run selects. *)
Definition selected (data_type : Value) (w : World) : list Item :=
  List.filter (fun it => bool_decide (item_attrs it !! "dataType" = Some data_type))
              (all_items w).

(** Bulk indexing always answers 200 with the number of selected records
    and the number of indexable ones. *)
Lemma bulk_index_by_type_run data_type w :
  exists w',
    bulk_index_by_type data_type w =
      (w', Ok (mkResponse 200
                 (BodyBulk true "Bulk indexing completed"
                    (length (selected data_type w))
                    (length (List.filter (indexable (s3_objects w) data_type)
                                         (selected data_type w)))))) /\
    calm w w' /\
    (forall metadata, metadata ∈ selected data_type w ->
       indexable (s3_objects w) data_type metadata = false -> error_logged metadata w').
Proof.
  unfold Indexer.bulk_index_by_type, bind at 1. simpl.
  set (w0 := mkWorld _ _ _ _ _ _ _).
  assert (C0 : calm w w0) by apply calm_logger.
  unfold bind at 1, scan. simpl.
  change (List.filter _ (all_items w0)) with (selected data_type w).
  destruct (index_loop_run data_type (selected data_type w) 0 w0) as (w1 & E1 & C1 & L1).
  change (s3_objects w0) with (s3_objects w) in E1, L1.
  unfold bind, ret. rewrite E1. simpl. exists w1. split; [done |]. split; [| done].
  etrans; [exact C0 | exact C1].
Qed.

(** Grouping keeps every record, whatever the order of the groups. *)
Lemma group_add_perm data_type metadata (data_types : list (Value * list Item)) :
  concat ((Indexer.group_add data_type metadata data_types).*2)
  ≡ₚ (concat (data_types.*2) ++ [metadata])%list.
Proof.
  induction data_types as [| [k l] rest IH]; simpl; [done |].
  destruct (py_key_eqb k data_type); simpl.
  - rewrite <- !app_assoc. apply Permutation_app_head. apply Permutation_app_comm.
  - rewrite IH. by rewrite app_assoc.
Qed.

Lemma group_items_run items data_types w :
  Forall (fun md => hashable (item_get md "dataType" (VStr "unknown")) = true) items ->
  exists data_types',
    Indexer.group_items (Json := Json) items data_types w = (w, Ok data_types') /\
    concat (data_types'.*2) ≡ₚ (concat (data_types.*2) ++ items)%list.
Proof.
  intros Hh. revert data_types. induction Hh as [| md items Hmd _ IH]; intros data_types; simpl.
  - exists data_types. split; [done |]. by rewrite app_nil_r.
  - rewrite Hmd. destruct (IH (Indexer.group_add
                                 (item_get md "dataType" (VStr "unknown")) md data_types))
      as (dts & E & P).
    exists dts. split; [done |]. rewrite P, group_add_perm. by rewrite <- app_assoc.
Qed.

(** The number of indexable records over all groups, each group under its
    own key. *)
Fixpoint indexable_in_groups (s3 : gmap (string * string) string)
    (data_types : list (Value * list Item)) : nat :=
  match data_types with
  | [] => 0
  | (data_type, type_items) :: rest =>
      (length (List.filter (indexable s3 data_type) type_items)
       + indexable_in_groups s3 rest)%nat
  end.

Lemma reindex_groups_run data_types n w :
  exists w',
    Indexer.reindex_groups json_loads py_repr cfg orc data_types n w =
      (w', Ok (n + indexable_in_groups (s3_objects w) data_types)%nat) /\
    calm w w' /\
    (forall data_type type_items metadata,
       (data_type, type_items) ∈ data_types -> metadata ∈ type_items ->
       indexable (s3_objects w) data_type metadata = false -> error_logged metadata w').
Proof.
  revert n w. induction data_types as [| [dt l] rest IH]; intros n w; simpl.
  - exists w. unfold ret. rewrite Nat.add_0_r. split; [done |]. split; [reflexivity |].
    intros ? ? ? Hin. by apply elem_of_nil in Hin.
  - unfold bind at 1. simpl. set (w0 := mkWorld _ _ _ _ _ _ _).
    assert (C0 : calm w w0) by apply calm_logger.
    destruct (index_loop_run dt l n w0) as (w1 & E1 & C1 & L1).
    change (s3_objects w0) with (s3_objects w) in E1, L1.
    unfold bind at 1. rewrite E1.
    destruct (IH (n + length (List.filter (indexable (s3_objects w) dt) l))%nat w1)
      as (w2 & E2 & C2 & L2).
    assert (S1 : s3_objects w1 = s3_objects w) by (destruct C1 as [-> _]; done).
    rewrite S1 in E2, L2.
    exists w2. split; [| split].
    + rewrite E2. f_equal. f_equal. lia.
    + etrans; [exact C0 |]. etrans; [exact C1 | exact C2].
    + intros dt' l' md Hin Hmd Hbad. apply elem_of_cons in Hin as [Heq | Hin].
      * inversion Heq; subst. eapply error_logged_calm; [exact C2 | by apply L1].
      * by eapply L2.
Qed.

(** When the services take every write, a record is indexable exactly when
    its blob is good, under any data type. *)
Lemma indexable_blob_ok s3 data_type metadata :
  (forall index_name document_id, index_accepts index_name document_id = true) ->
  (forall data_id, ddb_write_ok orc data_id = true) ->
  indexable s3 data_type metadata = blob_ok s3 metadata.
Proof.
  intros Hes Hddb. unfold indexable. rewrite Hes, Hddb. by rewrite !andb_true_r.
Qed.

Lemma filter_ext_length {A} (f g : A -> bool) l :
  (forall x, f x = g x) -> length (List.filter f l) = length (List.filter g l).
Proof.
  intros H. induction l as [| x l IH]; simpl; [done |].
  rewrite H. destruct (g x); simpl; by rewrite IH.
Qed.

Lemma filter_length_perm {A} (f : A -> bool) l1 l2 :
  l1 ≡ₚ l2 -> length (List.filter f l1) = length (List.filter f l2).
Proof.
  induction 1 as [| x l1 l2 _ IH | x y l | l1 l2 l3 _ IH1 _ IH2]; simpl.
  - done.
  - destruct (f x); simpl; by rewrite IH.
  - destruct (f x), (f y); done.
  - congruence.
Qed.

Lemma filter_length_concat {A} (f : A -> bool) (ls : list (list A)) :
  length (List.filter f (concat ls)) =
  foldr (fun l n => (length (List.filter f l) + n)%nat) 0%nat ls.
Proof.
  induction ls as [| l ls IH]; simpl; [done |].
  by rewrite List.filter_app, length_app, IH.
Qed.

Lemma filter_length_compl {A} (f : A -> bool) l :
  length (List.filter f l) = (length l - length (List.filter (fun x => negb (f x)) l))%nat.
Proof.
  induction l as [| x l IH]; simpl; [done |].
  destruct (f x); simpl; rewrite IH.
  - pose proof (List.filter_length_le (fun x => negb (f x)) l). lia.
  - pose proof (List.filter_length_le (fun x => negb (f x)) l). lia.
Qed.

Lemma filter_true {A} (l : list A) : List.filter (fun _ => true) l = l.
Proof. induction l as [| x l IH]; simpl; [done | by rewrite IH]. Qed.

Lemma indexable_in_groups_blob_ok s3 data_types :
  (forall index_name document_id, index_accepts index_name document_id = true) ->
  (forall data_id, ddb_write_ok orc data_id = true) ->
  indexable_in_groups s3 data_types = length (List.filter (blob_ok s3) (concat (data_types.*2))).
Proof.
  intros Hes Hddb. induction data_types as [| [dt l] rest IH]; simpl; [done |].
  rewrite List.filter_app, length_app, IH.
  f_equal. apply filter_ext_length. intros md. by apply indexable_blob_ok.
Qed.

(** The records whose blob cannot be read or decoded. *)
Definition bad_blobs (s3 : gmap (string * string) string) (items : list Item) : list Item :=
  List.filter (fun md => negb (blob_ok s3 md)) items.

(** C2: with N records selected, M of them with an unreadable or undecodable
    blob, and the search index and the table taking every write, bulk
    indexing answers 200 / success with [totalItems = N] and
    [indexedItems = N - M], and so does reindex-all over the whole table;
    neither stops at a failing record, and each failing record leaves its
    error line in the log. *)
Theorem batch_indexing_is_partial_failure_tolerant w :
  (forall index_name document_id, index_accepts index_name document_id = true) ->
  (forall data_id, ddb_write_ok orc data_id = true) ->
  (forall data_type,
     let items := selected data_type w in
     exists w',
       bulk_index_by_type data_type w =
         (w', Ok (mkResponse 200
                    (BodyBulk true "Bulk indexing completed" (length items)
                       (length items - length (bad_blobs (s3_objects w) items))))) /\
       forall metadata, metadata ∈ bad_blobs (s3_objects w) items -> error_logged metadata w') /\
  (Forall (fun md => hashable (item_get md "dataType" (VStr "unknown")) = true) (all_items w) ->
   let items := all_items w in
   exists w' dataTypes,
     reindex_all w =
       (w', Ok (mkResponse 200
                  (BodyReindex true "Full reindexing completed" (length items)
                     (length items - length (bad_blobs (s3_objects w) items))
                     dataTypes))) /\
     forall metadata, metadata ∈ bad_blobs (s3_objects w) items -> error_logged metadata w').
Proof.
  intros Hes Hddb. split.
  - intros dt items.
    destruct (bulk_index_by_type_run dt w) as (w' & E & _ & L).
    exists w'. split.
    + rewrite E. fold items. unfold bad_blobs.
      rewrite (filter_ext_length _ (blob_ok (s3_objects w)))
        by (intros md; by apply indexable_blob_ok).
      by rewrite <- filter_length_compl.
    + intros md Hin. apply list_elem_of_In, List.filter_In in Hin as [Hin Hbad].
      apply L; [by apply list_elem_of_In |].
      rewrite indexable_blob_ok by done. by destruct (blob_ok _ md).
  - intros Hh items.
    unfold Indexer.reindex_all, bind at 1. simpl. set (w0 := mkWorld _ _ _ _ _ _ _).
    unfold bind at 1, scan. simpl. rewrite filter_true.
    change (all_items w0) with items.
    destruct (group_items_run items [] w0 Hh) as (dts & Eg & Pg). simpl in Pg.
    unfold bind at 1. rewrite Eg.
    destruct (reindex_groups_run dts 0 w0) as (w1 & E1 & _ & L1).
    change (s3_objects w0) with (s3_objects w) in E1, L1.
    unfold bind, ret. rewrite E1. simpl. exists w1, (dts.*1). split.
    + rewrite indexable_in_groups_blob_ok by done.
      rewrite (filter_length_perm _ _ _ Pg). unfold bad_blobs.
      by rewrite <- filter_length_compl.
    + intros md Hin. apply list_elem_of_In, List.filter_In in Hin as [Hin Hbad].
      apply list_elem_of_In in Hin. rewrite <- Pg in Hin.
      apply list_elem_of_In, in_concat in Hin as (l & Hl & Hmd).
      apply list_elem_of_In in Hl, Hmd.
      apply list_elem_of_fmap in Hl as ([dt l'] & -> & Hl). simpl in Hmd.
      eapply L1; [exact Hl | exact Hmd |].
      rewrite indexable_blob_ok by done. by destruct (blob_ok _ md).
Qed.

(** What a successful run of the fetch / merge / upsert / mark block leaves
    behind. *)
Lemma fetch_and_index_inv data_type metadata w w' :
  fetch_and_index data_type metadata w = (w', Ok tt) ->
  exists bucket key content data t,
    parse_s3_location metadata = Ok (bucket, key) /\
    s3_objects w !! (bucket, key) = Some content /\
    json_loads content = Some data /\
    s3_objects w' = s3_objects w /\
    table_items w' =
      <[item_id metadata :=
          apply_sets [("indexed", VBool true); ("indexedAt", VStr t)]
                     (default ∅ (table_items w !! item_id metadata))]> (table_items w) /\
    es_docs w' =
      (if truthy (ES_ENDPOINT cfg)
       then es_upsert (data_index py_repr data_type) (item_id metadata)
                      (DataDoc metadata data (clock orc (ticks w))) (es_docs w)
       else es_docs w).
Proof.
  unfold Indexer.fetch_and_index, bind, lift, s3_get_object.
  destruct (parse_s3_location metadata) as [[bucket key] | e]; simpl; [| done].
  destruct (s3_objects w !! (bucket, key)) as [content |] eqn:Hblob; simpl; [| done].
  destruct (json_loads content) as [data |] eqn:Hjson; simpl; [| done].
  unfold Indexer.index_in_elasticsearch, Indexer.mark_indexed, requests_put, update_item,
    bind, perform, logger, now, ret, raise, is_2xx, data_index.
  intros E. exists bucket, key, content, data.
  destruct (truthy (ES_ENDPOINT cfg)); simpl in E.
  - destruct (_ && _) eqn:Hst; simpl in E; rewrite Hst in E; simpl in E; [| done].
    destruct (ddb_write_ok orc (item_id metadata)); simpl in E; [| done].
    inversion E; subst; clear E. eexists. by repeat split.
  - destruct (ddb_write_ok orc (item_id metadata)); simpl in E; [| done].
    inversion E; subst; clear E. eexists. by repeat split.
Qed.

(** What a successful index-by-id leaves behind. *)
Lemma index_by_id_inv data_id w w' r :
  index_by_id data_id w = (w', Ok r) -> statusCode r = 200 ->
  exists attrs bucket key content data t1 t2,
    table_items w !! data_id = Some attrs /\
    parse_s3_location (mkItem data_id attrs) = Ok (bucket, key) /\
    s3_objects w !! (bucket, key) = Some content /\
    json_loads content = Some data /\
    s3_objects w' = s3_objects w /\
    table_items w' =
      <[data_id := apply_sets [("indexed", VBool true); ("indexedAt", VStr t2)] attrs]>
        (table_items w) /\
    es_docs w' =
      (if truthy (ES_ENDPOINT cfg)
       then es_upsert (data_index py_repr (data_type_of w data_id)) data_id
                      (DataDoc (mkItem data_id attrs) data t1) (es_docs w)
       else es_docs w).
Proof.
  unfold Indexer.index_by_id, bind at 1. simpl.
  set (w0 := mkWorld _ _ _ _ _ _ _).
  unfold bind at 1, get_item. simpl. unfold data_type_of.
  change (table_items w0) with (table_items w).
  destruct (table_items w !! data_id) as [attrs |] eqn:Hlk; simpl.
  - unfold bind at 1.
    destruct (fetch_and_index _ _ w0) as [w1 [[] | e]] eqn:Hf; simpl; [| done].
    intros E _. inversion E; subst; clear E.
    apply fetch_and_index_inv in Hf
      as (bucket & key & content & data & t & Hp & Hb & Hj & Hs & Ht & He).
    simpl in *. change (table_items w0) with (table_items w) in Ht.
    rewrite Hlk in Ht. simpl in Ht.
    exists attrs, bucket, key, content, data. eexists. exists t.
    repeat split; first [done | exact He].
  - intros E Hc. inversion E; subst. done.
Qed.

(** The number of documents stored under one index name and document id. *)
Definition docs_for (index_name doc_id : string)
    (docs : list ((string * string) * Document Json)) : nat :=
  length (List.filter (fun e => bool_decide (e.1 = (index_name, doc_id))) docs).

(** The [indexed] flag of a record in the metadata table. *)
Definition indexed_flag (w : World) (data_id : string) : option Value :=
  table_items w !! data_id ≫= fun attrs => attrs !! "indexed".

Lemma docs_for_app index_name doc_id l1 l2 :
  docs_for index_name doc_id (l1 ++ l2) =
  (docs_for index_name doc_id l1 + docs_for index_name doc_id l2)%nat.
Proof. unfold docs_for. by rewrite List.filter_app, length_app. Qed.

Lemma docs_for_filter_out index_name doc_id (docs : list ((string * string) * Document Json)) :
  docs_for index_name doc_id (filter (fun e => e.1 <> (index_name, doc_id)) docs) = 0%nat.
Proof.
  unfold docs_for. induction docs as [| [k d] docs IH]; [done |].
  rewrite filter_cons. simpl. case_decide as Hk; simpl; [| exact IH].
  rewrite bool_decide_eq_false_2 by done. exact IH.
Qed.

Lemma docs_for_filter_other index_name doc_id k (docs : list ((string * string) * Document Json)) :
  k <> (index_name, doc_id) ->
  docs_for index_name doc_id (filter (fun e => e.1 <> k) docs) = docs_for index_name doc_id docs.
Proof.
  intros Hne. unfold docs_for. induction docs as [| [k' d] docs IH]; [done |].
  rewrite filter_cons. simpl. case_decide as Hk; simpl in *.
  - destruct (bool_decide (k' = (index_name, doc_id))); simpl; by rewrite IH.
  - subst k'. rewrite bool_decide_eq_false_2 by done. exact IH.
Qed.

(** After an upsert there is exactly one document under the key written. *)
Lemma docs_for_upsert_same index_name doc_id doc docs :
  docs_for index_name doc_id (es_upsert index_name doc_id doc docs) = 1%nat.
Proof.
  unfold es_upsert. rewrite docs_for_app, docs_for_filter_out.
  unfold docs_for. simpl. by rewrite bool_decide_eq_true_2.
Qed.

(** ... and every other key keeps the documents it had. *)
Lemma docs_for_upsert_other index_name doc_id i d doc docs :
  (i, d) <> (index_name, doc_id) ->
  docs_for index_name doc_id (es_upsert i d doc docs) = docs_for index_name doc_id docs.
Proof.
  intros Hne. unfold es_upsert. rewrite docs_for_app, docs_for_filter_other by done.
  unfold docs_for at 2. simpl. rewrite bool_decide_eq_false_2 by done. simpl. lia.
Qed.

(** Writing the same key again leaves the keys of the index as they were. *)
Lemma es_upsert_again_keys index_name doc_id (doc1 doc2 : Document Json) docs :
  (es_upsert index_name doc_id doc2 (es_upsert index_name doc_id doc1 docs)).*1 =
  (es_upsert index_name doc_id doc1 docs).*1.
Proof.
  unfold es_upsert. rewrite filter_app, !fmap_app. simpl.
  rewrite filter_cons, decide_False by (simpl; intros H; by apply H).
  rewrite filter_nil, app_nil_r. f_equal. f_equal.
  set (k := (index_name, doc_id)). clearbody k.
  induction docs as [| [k' d] docs IH]; [done |].
  rewrite filter_cons. simpl. case_decide as Hk; simpl in *; [| exact IH].
  rewrite filter_cons, decide_True by done. by rewrite IH.
Qed.

Lemma indexed_after_sets t attrs :
  apply_sets [("indexed", VBool true); ("indexedAt", VStr t)] attrs !! "indexed"
  = Some (VBool true).
Proof. unfold apply_sets. simpl. by rewrite lookup_insert_ne, lookup_insert_eq. Qed.

(** C7 (as the code has it): two successful index-by-id calls for the same
    record write the same document id in the same index, and the record's
    [indexed] flag is true after either call.  When the search endpoint is
    configured, exactly one document is stored under that index and id after
    the first and after the second call, and the second call creates no new
    document key.  When the endpoint is unset, neither call stores a
    document: the index is as it was, so the flag is set for a record that
    has no document of these calls. *)
Theorem indexing_twice_is_idempotent data_id w w1 w2 r1 r2 :
  index_by_id data_id w = (w1, Ok r1) -> statusCode r1 = 200 ->
  index_by_id data_id w1 = (w2, Ok r2) -> statusCode r2 = 200 ->
  let index_name := data_index py_repr (data_type_of w data_id) in
  data_index py_repr (data_type_of w1 data_id) = index_name /\
  (truthy (ES_ENDPOINT cfg) = true ->
   docs_for index_name data_id (es_docs w1) = 1%nat /\
   docs_for index_name data_id (es_docs w2) = 1%nat /\
   (es_docs w2).*1 = (es_docs w1).*1) /\
  (truthy (ES_ENDPOINT cfg) = false ->
   es_docs w1 = es_docs w /\ es_docs w2 = es_docs w) /\
  indexed_flag w1 data_id = Some (VBool true) /\
  indexed_flag w2 data_id = Some (VBool true).
Proof.
  intros E1 C1 E2 C2 index_name.
  apply index_by_id_inv in E1
    as (attrs & b & k & c & d & t1 & t2 & Hlk & _ & _ & _ & _ & Ht1 & Hd1); [| done].
  apply index_by_id_inv in E2
    as (attrs' & b' & k' & c' & d' & t1' & t2' & Hlk' & _ & _ & _ & _ & Ht2 & Hd2); [| done].
  assert (Hsame : data_index py_repr (data_type_of w1 data_id) = index_name).
  { unfold index_name, data_type_of, item_get. simpl.
    rewrite Ht1, lookup_insert_eq, Hlk. simpl. by rewrite !lookup_insert_ne. }
  rewrite Hsame in Hd2. fold index_name in Hd1.
  split; [exact Hsame |].
  split.
  { intros Hes. rewrite Hes in Hd1, Hd2.
    split; [rewrite Hd1; apply docs_for_upsert_same |].
    split; [rewrite Hd2; apply docs_for_upsert_same |].
    rewrite Hd2, Hd1. apply es_upsert_again_keys. }
  split.
  { intros Hes. rewrite Hes in Hd1, Hd2. split; [exact Hd1 | by rewrite Hd2, Hd1]. }
  unfold indexed_flag. rewrite Ht2, Ht1, !lookup_insert_eq. simpl.
  split; apply indexed_after_sets.
Qed.

(** The minimal metadata the blob-event path makes up for an unknown id. *)
Definition synthesized (bucket key : string) : Item :=
  mkItem (OsPath.splitext_root (OsPath.basename key))
         {[ "s3Location" := VStr ("s3://" +:+ bucket +:+ "/" +:+ key) ]}.

Lemma synthesized_data_type bucket key :
  item_get (synthesized bucket key) "dataType" (VStr "unknown") = VStr "unknown".
Proof. unfold item_get, synthesized. simpl. by rewrite lookup_singleton_ne. Qed.

#[local] Arguments PyStr.lower : simpl never.
#[local] Arguments item_get : simpl never.
#[local] Arguments String.append : simpl never.




End IndexerRuns.

(** ** The query service *)

Section SearchCriteria.

Context {Json : Type}.

#[local] Abbreviation World := (World Json).
#[local] Abbreviation search_metadata := (Query.search_metadata (Json := Json)).

(** An item passes an optional filter expression. *)
Definition holds (filter_expression : option Query.Cond) (it : Item) : Prop :=
  match filter_expression with
  | Some c => Query.eval_cond c it = true
  | None => True
  end.

Lemma holds_and_with filter_expression e it :
  holds (Query.and_with filter_expression e) it <->
  holds filter_expression it /\ Query.eval_cond e it = true.
Proof.
  destruct filter_expression as [c |]; simpl; [| tauto].
  by rewrite andb_true_iff.
Qed.

Lemma holds_fold_tags tags filter_expression it :
  holds (fold_left (fun fe tag => Query.and_with fe (Query.CContains "tags" tag)) tags
                   filter_expression) it <->
  holds filter_expression it /\
  forall tag, tag ∈ tags -> Query.eval_cond (Query.CContains "tags" tag) it = true.
Proof.
  revert filter_expression. induction tags as [| t tags IH]; intros fe; simpl.
  - split; [intros H; split; [done | intros tag Hin; by apply elem_of_nil in Hin] | tauto].
  - rewrite IH, holds_and_with. split.
    + intros [[H1 H2] H3]. split; [done |]. intros tag Hin.
      apply elem_of_cons in Hin as [-> | Hin]; [exact H2 | by apply H3].
    + intros [H1 H2]. repeat split; [done | | ].
      * apply H2. by left.
      * intros tag Hin. apply H2. by right.
Qed.

(** What the criteria of a request ask of a record. *)
Definition meets (params : gmap string Value) (it : Item) : Prop :=
  (forall v, params !! "dataType" = Some v -> Query.item_lookup it "dataType" = Some v) /\
  (forall v, params !! "owner" = Some v -> Query.item_lookup it "owner" = Some v) /\
  (forall v, params !! "source" = Some v -> Query.item_lookup it "source" = Some v) /\
  (forall lo hi, params !! "fromDate" = Some lo -> params !! "toDate" = Some hi ->
     exists ts, Query.item_lookup it "timestamp" = Some ts /\
                Query.value_between ts lo hi = true) /\
  (forall tags l, params !! "tags" = Some tags -> Query.iterate tags = Ok l ->
     forall tag, tag ∈ l ->
       exists have, Query.item_lookup it "tags" = Some have /\
                    Query.value_contains have tag = true).

Lemma eval_eq attr v it :
  Query.eval_cond (Query.CEq attr v) it = true -> Query.item_lookup it attr = Some v.
Proof. simpl. by intros H%bool_decide_eq_true. Qed.

Lemma eval_between attr lo hi it :
  Query.eval_cond (Query.CBetween attr lo hi) it = true ->
  exists ts, Query.item_lookup it attr = Some ts /\ Query.value_between ts lo hi = true.
Proof. simpl. destruct (Query.item_lookup it attr) as [ts |]; [eauto | done]. Qed.

Lemma eval_contains attr v it :
  Query.eval_cond (Query.CContains attr v) it = true ->
  exists have, Query.item_lookup it attr = Some have /\ Query.value_contains have v = true.
Proof. simpl. destruct (Query.item_lookup it attr) as [x |]; [eauto | done]. Qed.

Lemma eval_and a b it :
  Query.eval_cond (Query.CAnd a b) it = true <->
  Query.eval_cond a it = true /\ Query.eval_cond b it = true.
Proof. simpl. apply andb_true_iff. Qed.

(** The expression built from the criteria is as strong as the criteria. *)
Lemma build_filter_sound params filter_expression it :
  Query.build_filter params = Ok filter_expression ->
  holds filter_expression it -> meets params it.
Proof.
  unfold Query.build_filter, meets.
  destruct (params !! "dataType") as [dt |]; destruct (params !! "owner") as [ow |];
    destruct (params !! "source") as [so |]; destruct (params !! "fromDate") as [lo |];
    destruct (params !! "toDate") as [hi |]; destruct (params !! "tags") as [tags |];
    try (destruct (Query.iterate tags) as [l | e] eqn:Hit; [| done]);
    intros Hfe; inversion Hfe; subst filter_expression; clear Hfe;
    rewrite ?holds_fold_tags, ?holds_and_with;
    unfold holds; rewrite ?eval_and; intros Hh; repeat split; intros; simplify_eq;
    first [ apply eval_eq; tauto
          | apply eval_between; tauto
          | apply eval_contains; destruct_and?;
            match goal with
            | Ha : Query.iterate ?t = Ok ?l1, Hb : Query.iterate ?t = Ok ?l2 |- _ =>
                rewrite Ha in Hb; inversion Hb; subst
            end; solve [auto] ].
Qed.

(** C4: every record [search_metadata] returns meets every criterion given:
    equal [dataType], [owner] and [source]; a timestamp inside the inclusive
    range when both [fromDate] and [toDate] are given; every listed tag
    contained in the record's tags.  Criteria that are absent ask nothing. *)
Theorem search_metadata_respects_criteria params w w' count items :
  search_metadata params w = (w', Ok (Query.RItems count items)) ->
  w' = w /\ count = length items /\
  forall it, it ∈ items ->
    it ∈ all_items w /\
    meets params it /\
    (forall lo hi ts,
       params !! "fromDate" = Some (VStr lo) -> params !! "toDate" = Some (VStr hi) ->
       Query.item_lookup it "timestamp" = Some (VStr ts) ->
       String.leb lo ts = true /\ String.leb ts hi = true) /\
    (forall wanted have,
       params !! "tags" = Some (VList wanted) ->
       Query.item_lookup it "tags" = Some (VList have) ->
       forall tag, tag ∈ wanted -> tag ∈ have).
Proof.
  unfold Query.search_metadata, bind, lift, ret. simpl.
  destruct (Query.build_filter params) as [fe | e] eqn:Hfe; simpl; [| done].
  assert (Hitems : forall l : list Item,
            (forall it, it ∈ l -> it ∈ all_items w /\ holds fe it) ->
            forall it, it ∈ l ->
              it ∈ all_items w /\ meets params it /\
              (forall lo hi ts,
                 params !! "fromDate" = Some (VStr lo) -> params !! "toDate" = Some (VStr hi) ->
                 Query.item_lookup it "timestamp" = Some (VStr ts) ->
                 String.leb lo ts = true /\ String.leb ts hi = true) /\
              (forall wanted have,
                 params !! "tags" = Some (VList wanted) ->
                 Query.item_lookup it "tags" = Some (VList have) ->
                 forall tag, tag ∈ wanted -> tag ∈ have)).
  { intros l Hl it Hin. destruct (Hl it Hin) as [Hall Hh].
    pose proof (build_filter_sound params fe it Hfe Hh) as Hm.
    split; [done |]. split; [done |].
    destruct Hm as (_ & _ & _ & Hrange & Htags). split.
    - intros lo hi ts Hlo Hhi Hts.
      destruct (Hrange _ _ Hlo Hhi) as (ts' & Hts' & Hb).
      rewrite Hts in Hts'. inversion Hts'; subst. simpl in Hb.
      by apply andb_true_iff in Hb.
    - intros wanted have Hw Hhave tag Hin'.
      destruct (Htags (VList wanted) (VStr <$> wanted) Hw eq_refl (VStr tag))
        as (have' & Hhave' & Hc).
      { by apply list_elem_of_fmap_2. }
      rewrite Hhave in Hhave'. inversion Hhave'; subst. simpl in Hc.
      by apply bool_decide_eq_true in Hc. }
  destruct fe as [c |]; unfold scan, scan_limit; simpl; intros E; inversion E; subst; clear E.
  - split; [done |]. split; [done |]. apply Hitems.
    intros it Hin. apply list_elem_of_In, List.filter_In in Hin as [Hin Hc].
    split; [by apply list_elem_of_In | exact Hc].
  - split; [done |]. split; [done |]. apply Hitems.
    intros it Hin. split; [| done].
    eapply subseteq_take. exact Hin.
Qed.

End SearchCriteria.

Section Lookups.

Context {Json : Type}.
Variable json_loads : string -> option Json.
Variable py_repr : Value -> string.
Variable orc : Oracles.

#[local] Abbreviation World := (World Json).
#[local] Abbreviation query_by_id := (Query.query_by_id (Json := Json)).
#[local] Abbreviation get_content := (Query.get_content json_loads).
#[local] Abbreviation lambda_handler := (Query.lambda_handler json_loads py_repr orc).

(** C8 (as the code has it): for a non-empty id with no metadata entry,
    [query_by_id] and [get_content] return the ordinary [success = false]
    result and the handler answers 200; when the metadata is there but the
    blob is not, [get_content] raises, and the handler answers 500 with a
    [success = false] body. *)
Theorem lookup_not_found_results :
  (forall data_id w,
     data_id <> "" -> table_items w !! data_id = None ->
     query_by_id (Some data_id) w =
       (w, Ok (Query.RFail ("No item found with ID: " +:+ data_id))) /\
     get_content (Some data_id) w =
       (w, Ok (Query.RFail ("No item found with ID: " +:+ data_id)))) /\
  (forall data_id w attrs bucket key,
     data_id <> "" -> table_items w !! data_id = Some attrs ->
     parse_s3_location (mkItem data_id attrs) = Ok (bucket, key) ->
     s3_objects w !! (bucket, key) = None ->
     get_content (Some data_id) w = (w, Raise (ClientError "NoSuchKey")) /\
     forall event,
       Query.query_params_of event !! "type" = Some (VStr "content") ->
       Query.query_params_of event !! "id" = Some (VStr data_id) ->
       (lambda_handler event w).2 =
         Ok (Query.mkResponse 500 (Query.RFail "AWS error: NoSuchKey"))).
Proof.
  split.
  - intros data_id w Hne Hlk.
    assert (Ht : truthy (Some data_id) = true).
    { simpl. apply negb_true_iff. by apply String.eqb_neq. }
    unfold Query.query_by_id, Query.get_content, get_item, bind, ret.
    rewrite Ht. simpl. by rewrite Hlk.
  - intros data_id w attrs bucket key Hne Hlk Hloc Hblob.
    assert (Ht : truthy (Some data_id) = true).
    { simpl. apply negb_true_iff. by apply String.eqb_neq. }
    assert (Hg : forall w0 : World,
               table_items w0 = table_items w -> s3_objects w0 = s3_objects w ->
               get_content (Some data_id) w0 = (w0, Raise (ClientError "NoSuchKey"))).
    { intros w0 Htab Hs3.
      unfold Query.get_content, get_item, s3_get_object, bind, lift, ret.
      rewrite Ht. simpl. rewrite Htab, Hlk. simpl. rewrite Hloc. simpl.
      by rewrite Hs3, Hblob. }
    split; [by apply Hg |].
    intros event Htype Hid.
    unfold Query.lambda_handler, try_except, bind at 1. simpl.
    set (w0 := mkWorld _ _ _ _ _ _ _).
    rewrite Htype, Hid. simpl. unfold bind.
    rewrite (Hg w0) by done. done.
Qed.

End Lookups.

(** ** The record ingestor *)

(** Splitting [bucket/key] at the first slash gives the two back when the
    bucket name has no slash of its own. *)
Lemma split1_bucket_key bucket key :
  PyStr.contains_char "/" bucket = false ->
  PyStr.split1 "/" (bucket +:+ "/" +:+ key) = [bucket; key].
Proof.
  induction bucket as [| c bucket IH]; simpl; [done |].
  intros H. apply orb_false_iff in H as [Hc Hrest].
  rewrite Hc. by rewrite IH.
Qed.

Lemma startswith_s3 rest : PyStr.startswith "s3://" ("s3://" +:+ rest) = true.
Proof. unfold PyStr.startswith. simpl. by destruct rest. Qed.

(** The location string written at ingest reads back as the bucket and key
    it was built from. *)
Lemma parse_s3_location_roundtrip data_id attrs bucket key :
  attrs !! "s3Location" = Some (VStr ("s3://" +:+ bucket +:+ "/" +:+ key)) ->
  PyStr.contains_char "/" bucket = false ->
  parse_s3_location (mkItem data_id attrs) = Ok (bucket, key).
Proof.
  intros Hloc Hb. unfold parse_s3_location. cbn [item_attrs]. rewrite Hloc.
  rewrite startswith_s3.
  change (PyStr.slice_from 5 ("s3://" +:+ bucket +:+ "/" +:+ key))
    with (bucket +:+ "/" +:+ key).
  by rewrite split1_bucket_key.
Qed.

(** ** The record indexer moves the world along any relation its writes
    respect *)

Section IndexerRespects.

Context {Json : Type}.
Variable json_loads : string -> option Json.
Variable py_repr : Value -> string.
Variable cfg : Config.
Variable orc : Oracles.
Variable R : relation (World Json).
Context `{!PreOrder R}.

Hypothesis R_logger : forall lvl msg, respects R (logger lvl msg).
Hypothesis R_now : respects R (now orc).
Hypothesis R_requests_put :
  forall index_name doc_id doc, respects R (requests_put orc index_name doc_id doc).
Hypothesis R_mark :
  forall data_id t,
    respects R (update_item orc data_id [("indexed", VBool true); ("indexedAt", VStr t)]).

(** Peel one monadic layer of a handler. *)
Ltac respects_step :=
  first
    [ apply R_logger
    | apply R_now
    | apply R_requests_put
    | apply R_mark
    | apply respects_ret, _
    | apply respects_raise, _
    | apply respects_lift, _
    | apply respects_get_item, _
    | apply respects_scan, _
    | apply respects_s3_get_object, _
    | apply respects_bind; [apply _ | | intros ?]
    | apply respects_try_except; [apply _ | | intros ?]
    | apply respects_for_each; [apply _ | intros ?] ].

Lemma respects_index_in_elasticsearch index_name document_id document :
  respects R (Indexer.index_in_elasticsearch cfg orc index_name document_id document).
Proof.
  unfold Indexer.index_in_elasticsearch.
  destruct (negb _); [respects_step |].
  respects_step; [respects_step |].
  destruct (_ && _); repeat respects_step.
Qed.

Lemma respects_mark_indexed data_id : respects R (Indexer.mark_indexed orc data_id).
Proof. unfold Indexer.mark_indexed. repeat respects_step. Qed.

(** A bind whose first action is a primitive. *)
Ltac respects_next := respects_step; [solve [repeat respects_step] |].

Lemma respects_fetch_and_index data_type metadata :
  respects R (Indexer.fetch_and_index json_loads py_repr cfg orc data_type metadata).
Proof.
  unfold Indexer.fetch_and_index. do 2 respects_next.
  destruct (json_loads _); [| respects_step].
  respects_next.
  respects_step; [apply respects_index_in_elasticsearch | apply respects_mark_indexed].
Qed.

Lemma respects_index_s3_object bucket key :
  respects R (Indexer.index_s3_object json_loads py_repr cfg orc bucket key).
Proof.
  unfold Indexer.index_s3_object. do 2 respects_next.
  destruct (json_loads _); [| respects_step].
  respects_next.
  respects_step.
  { match goal with |- context [match ?o with _ => _ end] => destruct o end;
      repeat respects_step. }
  respects_next.
  respects_step; [apply respects_index_in_elasticsearch |].
  respects_step; [apply respects_mark_indexed | respects_step].
Qed.

Lemma respects_index_metadata metadata :
  respects R (Indexer.index_metadata py_repr cfg orc metadata).
Proof.
  unfold Indexer.index_metadata. respects_next.
  respects_step; [apply respects_index_in_elasticsearch | respects_step].
Qed.

Lemma respects_index_by_id data_id :
  respects R (Indexer.index_by_id json_loads py_repr cfg orc data_id).
Proof.
  unfold Indexer.index_by_id. do 2 respects_next.
  match goal with |- context [match ?o with _ => _ end] => destruct o end;
    [| respects_step].
  respects_step; [apply respects_fetch_and_index | respects_step].
Qed.

Lemma respects_index_loop data_type items n :
  respects R (Indexer.index_loop json_loads py_repr cfg orc data_type items n).
Proof.
  revert n. induction items as [| md items IH]; intros n; simpl; [respects_step |].
  respects_step; [| apply IH].
  unfold Indexer.index_one_counted. respects_step.
  - respects_step; [apply respects_fetch_and_index | respects_step].
  - repeat respects_step.
Qed.

Lemma respects_bulk_index_by_type data_type :
  respects R (Indexer.bulk_index_by_type json_loads py_repr cfg orc data_type).
Proof.
  unfold Indexer.bulk_index_by_type. do 2 respects_next.
  respects_step; [apply respects_index_loop | respects_step].
Qed.

Lemma respects_group_items items data_types :
  respects R (Indexer.group_items (Json := Json) items data_types).
Proof.
  revert data_types. induction items as [| md items IH]; intros data_types; simpl;
    [respects_step |].
  destruct (hashable _); [apply IH | respects_step].
Qed.

Lemma respects_reindex_groups data_types n :
  respects R (Indexer.reindex_groups json_loads py_repr cfg orc data_types n).
Proof.
  revert n. induction data_types as [| [dt l] rest IH]; intros n; simpl; [respects_step |].
  respects_next. respects_step; [apply respects_index_loop | apply IH].
Qed.

Lemma respects_reindex_all :
  respects R (Indexer.reindex_all json_loads py_repr cfg orc).
Proof.
  unfold Indexer.reindex_all. do 2 respects_next.
  respects_step; [apply respects_group_items |].
  respects_step; [apply respects_reindex_groups | respects_step].
Qed.

(** Every run of the indexer's handler, whatever the event. *)
Lemma respects_indexer_lambda_handler event :
  respects R (Indexer.lambda_handler json_loads py_repr cfg orc event).
Proof.
  unfold Indexer.lambda_handler.
  assert (Hid : forall v, respects R (Indexer.index_by_id_value json_loads py_repr cfg orc v)).
  { intros v. unfold Indexer.index_by_id_value.
    destruct v; try (solve [repeat respects_step]). apply respects_index_by_id. }
  respects_step; [| solve [repeat respects_step]].
  respects_next.
  destruct event as [records | decoded | fields].
  - respects_step; [| respects_step].
    respects_step. unfold Indexer.handle_record.
    match goal with |- context [match ?r with _ => _ end] => destruct r as [b k | [item |] |] end;
      first [ apply respects_index_s3_object | apply respects_index_metadata | respects_step ].
  - respects_step; [| solve [repeat respects_step]].
    destruct decoded as [body |]; [| respects_step].
    destruct (body !! "id"); [apply Hid |].
    destruct (body !! "dataType"); [apply respects_bulk_index_by_type | respects_step].
  - destruct (fields !! "id"); [apply Hid |].
    destruct (fields !! "dataType"); [apply respects_bulk_index_by_type |].
    destruct (fields !! "reindexAll") as [flag |]; [| respects_step].
    destruct (py_truthy flag); [apply respects_reindex_all | respects_step].
Qed.

End IndexerRespects.

Section IngestProperties.

Context {Json : Type}.
Variable json_loads : string -> option Json.
Variable json_dumps : Json -> string.
Variable sample_json : Value -> nat -> Json.
Variable py_repr : Value -> string.
Variable cfg : Config.
Variable orc : Oracles.

#[local] Abbreviation World := (World Json).
#[local] Abbreviation Effect := (Effect Json).
#[local] Abbreviation lambda_handler := (Ingest.lambda_handler json_dumps sample_json py_repr cfg orc).

(** The world after a sequence of writes. *)
Definition replay (effects : list Effect) (w : World) : World :=
  fold_left (fun w e => apply_effect e w) effects w.

(** Every location recorded in the metadata table names a blob that is in
    the blob store. *)
Definition dangling_free (w : World) : Prop :=
  forall data_id attrs loc,
    table_items w !! data_id = Some attrs ->
    attrs !! "s3Location" = Some (VStr loc) ->
    exists bucket key,
      loc = "s3://" +:+ bucket +:+ "/" +:+ key /\ is_Some (s3_objects w !! (bucket, key)).

(** The writes of one ingest: nothing, the blob alone, or the blob and then
    the metadata entry that points at it. *)
Inductive blob_first : list Effect -> Prop :=
  | nothing_written : blob_first []
  | blob_only bucket key content : blob_first [PutObject bucket key content]
  | blob_then_metadata bucket key content item :
      item_attrs item !! "s3Location" = Some (VStr ("s3://" +:+ bucket +:+ "/" +:+ key)) ->
      blob_first [PutObject bucket key content; PutItem item].

(** The worlds a deployment can be in: a table that starts empty, then
    invocations of the ingestor and of the record indexer, the two writers
    of the metadata table, one after the other. *)
Inductive reachable : World -> Prop :=
  | reachable_init w : table_items w = ∅ -> reachable w
  | reachable_ingest w event : reachable w -> reachable (lambda_handler event w).1
  | reachable_index w event :
      reachable w ->
      reachable (Indexer.lambda_handler json_loads py_repr cfg orc event w).1.

Lemma metadata_item_location body data_id timestamp data_type source owner s3_key data_content :
  item_attrs (Ingest.metadata_item_of cfg body data_id timestamp data_type source owner
                s3_key data_content) !! "s3Location"
  = Some (VStr (Ingest.s3_location_of cfg s3_key)).
Proof.
  unfold Ingest.metadata_item_of. simpl.
  destruct (body !! "tags"), (body !! "description");
    repeat (rewrite lookup_insert_ne by done); by rewrite lookup_insert_eq.
Qed.

(** The ways one ingest invocation can end: before any write, with the blob
    written and the metadata write refused, or with both written. *)
Inductive ingest_outcome (w w' : World) : option Ingest.Response -> Prop :=
  | ingest_failed_early :
      trace w' = trace w -> s3_objects w' = s3_objects w -> table_items w' = table_items w ->
      ingest_outcome w w' None
  | ingest_orphaned_blob bucket key content :
      S3_BUCKET cfg = Some bucket ->
      trace w' = (trace w ++ [PutObject bucket key content])%list ->
      s3_objects w' = <[(bucket, key) := content]> (s3_objects w) ->
      table_items w' = table_items w ->
      ingest_outcome w w' None
  | ingest_done bucket key content item :
      S3_BUCKET cfg = Some bucket ->
      item_attrs item !! "s3Location" = Some (VStr ("s3://" +:+ bucket +:+ "/" +:+ key)) ->
      trace w' = (trace w ++ [PutObject bucket key content; PutItem item])%list ->
      s3_objects w' = <[(bucket, key) := content]> (s3_objects w) ->
      table_items w' = <[item_id item := item_attrs item]> (table_items w) ->
      ingest_outcome w w'
        (Some (Ingest.mkResponse 200 true (Some (item_id item))
                 (Some ("s3://" +:+ bucket +:+ "/" +:+ key)) "Data successfully ingested")).

(** The answer of a run, when it returned one. *)
Definition returned {A} (r : Res A) : option A :=
  match r with Ok a => Some a | Raise _ => None end.

Lemma ingest_done_eq w w' bucket key content item resp :
  S3_BUCKET cfg = Some bucket ->
  trace w' = (trace w ++ [PutObject bucket key content; PutItem item])%list ->
  item_attrs item !! "s3Location" = Some (VStr ("s3://" +:+ bucket +:+ "/" +:+ key)) ->
  s3_objects w' = <[(bucket, key) := content]> (s3_objects w) ->
  table_items w' = <[item_id item := item_attrs item]> (table_items w) ->
  resp = Ingest.mkResponse 200 true (Some (item_id item))
           (Some ("s3://" +:+ bucket +:+ "/" +:+ key)) "Data successfully ingested" ->
  ingest_outcome w w' (Some resp).
Proof. intros ? ? ? ? ? ->. by eapply ingest_done. Qed.

#[local] Arguments Ingest.metadata_item_of : simpl never.
#[local] Arguments Ingest.s3_key_of : simpl never.
#[local] Arguments String.append : simpl never.

Lemma ingest_run event w :
  ingest_outcome w (Ingest.ingest json_dumps sample_json py_repr cfg orc event w).1
    (returned (Ingest.ingest json_dumps sample_json py_repr cfg orc event w).2).
Proof.
  unfold Ingest.ingest, bind, logger, new_uuid, now, tick, s3_put_object, put_item,
    perform, ret, raise, Ingest.generate_sample_data.
  destruct event as [[body |] | body]; simpl;
    try (by apply ingest_failed_early);
    (destruct (Ingest.data body); simpl;
     destruct (S3_BUCKET cfg) as [bucket |] eqn:Hbucket; simpl;
     try (by apply ingest_failed_early);
     destruct (s3_put_ok _ _ _); simpl; try (by apply ingest_failed_early);
     (destruct (ddb_write_ok _ _);
     [ simpl; eapply (ingest_done_eq _ _ bucket);
       [ exact Hbucket
       | simpl; rewrite <- app_assoc; reflexivity
       | rewrite metadata_item_location; unfold Ingest.s3_location_of;
         by rewrite Hbucket
       | reflexivity
       | reflexivity
       | unfold Ingest.s3_location_of; by rewrite Hbucket ]
     | simpl; by eapply ingest_orphaned_blob ])).
Qed.

(** The handler answers 500 where the body raised and adds nothing but a
    log line. *)
Lemma lambda_handler_run event w :
  exists resp,
    (lambda_handler event w).2 = Ok resp /\
    (Ingest.statusCode resp = 200 \/ Ingest.statusCode resp = 500) /\
    ingest_outcome w (lambda_handler event w).1
      (if Ingest.statusCode resp =? 200 then Some resp else None).
Proof.
  pose proof (ingest_run event w) as Hrun.
  unfold Ingest.lambda_handler, try_except.
  destruct (Ingest.ingest _ _ _ _ _ event w) as [w1 [resp | e]]; simpl in *.
  - exists resp. split; [done |]. inversion Hrun; subst. simpl. by split; [left |].
  - destruct (is_client_error e); simpl; eexists; (split; [reflexivity |]); simpl;
      (split; [by right |]); inversion Hrun; subst;
      [ by apply ingest_failed_early | by eapply ingest_orphaned_blob
      | by apply ingest_failed_early | by eapply ingest_orphaned_blob ].
Qed.

Lemma dangling_free_ext w w' :
  s3_objects w' = s3_objects w -> table_items w' = table_items w ->
  dangling_free w -> dangling_free w'.
Proof.
  intros Hs Ht Hd data_id attrs loc. rewrite Hs, Ht. apply Hd.
Qed.

(** Writing a blob leaves no reference dangling. *)
Lemma dangling_free_blob w w' bucket key content :
  s3_objects w' = <[(bucket, key) := content]> (s3_objects w) ->
  table_items w' = table_items w ->
  dangling_free w -> dangling_free w'.
Proof.
  intros Hs Ht Hd data_id attrs loc Hlk Hloc. rewrite Ht in Hlk.
  destruct (Hd data_id attrs loc Hlk Hloc) as (b & k & -> & Hsome).
  exists b, k. split; [done |]. rewrite Hs.
  destruct (decide ((bucket, key) = (b, k))) as [<- | Hne].
  - rewrite lookup_insert_eq. eauto.
  - by rewrite lookup_insert_ne.
Qed.

(** Writing a metadata entry whose blob is in place leaves no reference
    dangling. *)
Lemma dangling_free_metadata w w' bucket key item :
  item_attrs item !! "s3Location" = Some (VStr ("s3://" +:+ bucket +:+ "/" +:+ key)) ->
  is_Some (s3_objects w !! (bucket, key)) ->
  s3_objects w' = s3_objects w ->
  table_items w' = <[item_id item := item_attrs item]> (table_items w) ->
  dangling_free w -> dangling_free w'.
Proof.
  intros Hitem Hblob Hs Ht Hd data_id attrs loc Hlk Hloc. rewrite Ht in Hlk. rewrite Hs.
  destruct (decide (item_id item = data_id)) as [<- | Hne].
  - rewrite lookup_insert_eq in Hlk. inversion Hlk; subst attrs.
    rewrite Hitem in Hloc. inversion Hloc; subst loc. eauto.
  - rewrite lookup_insert_ne in Hlk by done. by eapply Hd.
Qed.

(** The step relation of the invariant. *)
Definition keeps_references (w w' : World) : Prop :=
  dangling_free w -> dangling_free w'.

#[global] Instance keeps_references_preorder : PreOrder keeps_references.
Proof.
  split.
  - intros w H. exact H.
  - intros w1 w2 w3 H12 H23 H. apply H23, H12, H.
Qed.

(** Marking a record as indexed leaves its location as it was, and gives a
    record created on the spot no location at all. *)
Lemma keeps_references_mark data_id t :
  respects keeps_references
    (update_item (Json := Json) orc data_id
       [("indexed", VBool true); ("indexedAt", VStr t)]).
Proof.
  intros w Hd. unfold update_item. destruct (ddb_write_ok orc data_id); [| exact Hd].
  intros data_id' attrs loc Hlk Hloc. simpl in *.
  destruct (decide (data_id = data_id')) as [<- | Hne].
  - rewrite lookup_insert_eq in Hlk. inversion Hlk; subst attrs. clear Hlk.
    unfold apply_sets in Hloc. simpl in Hloc.
    rewrite !lookup_insert_ne in Hloc by done.
    destruct (table_items w !! data_id) as [attrs |] eqn:Hold; simpl in Hloc.
    + by eapply Hd.
    + by rewrite lookup_empty in Hloc.
  - rewrite lookup_insert_ne in Hlk by done. by eapply Hd.
Qed.

Lemma indexer_dangling_free event w :
  dangling_free w ->
  dangling_free (Indexer.lambda_handler json_loads py_repr cfg orc event w).1.
Proof.
  apply (respects_indexer_lambda_handler json_loads py_repr cfg orc keeps_references).
  - intros lvl msg w0 Hd. exact Hd.
  - intros w0 Hd. exact Hd.
  - intros index_name doc_id doc w0 Hd. unfold requests_put, bind.
    destruct (is_2xx _); exact Hd.
  - apply keeps_references_mark.
Qed.

Lemma lambda_handler_dangling_free event w :
  dangling_free w -> dangling_free (lambda_handler event w).1.
Proof.
  intros Hd. destruct (lambda_handler_run event w) as (resp & _ & _ & Hout).
  inversion Hout as [Ht Hs Hm | b k c Hb Ht Hs Hm | b k c item Hb Hloc Ht Hs Hm].
  - by eapply dangling_free_ext.
  - by eapply dangling_free_blob.
  - eapply (dangling_free_metadata (apply_effect (PutObject b k c) w) _ b k item).
    + exact Hloc.
    + simpl. rewrite lookup_insert_eq. eauto.
    + by rewrite Hs.
    + by rewrite Hm.
    + by eapply dangling_free_blob.
Qed.

Lemma reachable_dangling_free w : reachable w -> dangling_free w.
Proof.
  induction 1 as [w Hempty | w event _ IH | w event _ IH].
  - intros data_id attrs loc Hlk. by rewrite Hempty, lookup_empty in Hlk.
  - by apply lambda_handler_dangling_free.
  - by apply indexer_dangling_free.
Qed.

(** C5: in every world reachable by ingest and index invocations, an ingest
    invocation writes the blob first and the metadata entry, if at all,
    after it; the entry points at that blob, and no state the invocation
    passes through (the world after any prefix of its writes) holds a
    metadata entry whose blob is missing. *)
Theorem blob_is_written_before_metadata w event :
  reachable w ->
  exists new,
    trace (lambda_handler event w).1 = (trace w ++ new)%list /\
    blob_first new /\
    s3_objects (lambda_handler event w).1 = s3_objects (replay new w) /\
    table_items (lambda_handler event w).1 = table_items (replay new w) /\
    forall passed, passed `prefix_of` new -> dangling_free (replay passed w).
Proof.
  intros Hreach. pose proof (reachable_dangling_free w Hreach) as Hd.
  destruct (lambda_handler_run event w) as (resp & _ & _ & Hout).
  inversion Hout as [Ht Hs Hm | b k c Hb Ht Hs Hm | b k c item Hb Hloc Ht Hs Hm].
  - exists []. rewrite app_nil_r. repeat split; try done; [constructor |].
    intros passed [rest Hp]. symmetry in Hp. apply app_eq_nil in Hp as [-> _]. exact Hd.
  - exists [PutObject b k c]. repeat split; try done; [constructor |].
    intros passed [rest Hp]. destruct passed as [| e passed]; [exact Hd |].
    inversion Hp as [[He Hrest]]. symmetry in Hrest.
    apply app_eq_nil in Hrest as [-> _]. simpl.
    by eapply dangling_free_blob.
  - exists [PutObject b k c; PutItem item].
    assert (Hd1 : dangling_free (apply_effect (PutObject b k c) w))
      by (by eapply dangling_free_blob).
    assert (Hd2 : dangling_free
                    (apply_effect (PutItem item) (apply_effect (PutObject b k c) w))).
    { eapply (dangling_free_metadata (apply_effect (PutObject b k c) w) _ b k item);
        [exact Hloc | simpl; rewrite lookup_insert_eq; eauto | done | done | exact Hd1]. }
    repeat split; try done; [by constructor |].
    intros passed [rest Hp]. destruct passed as [| e1 passed]; [exact Hd |].
    inversion Hp as [[He1 Hrest]]. destruct passed as [| e2 passed]; [exact Hd1 |].
    inversion Hrest as [[He2 Hrest']]. symmetry in Hrest'.
    apply app_eq_nil in Hrest' as [-> _]. exact Hd2.
Qed.

(** C10: after a successful ingest into a bucket whose name has no slash,
    the [s3Location] stored in the metadata entry parses back (prefix
    removed, split at the first slash) to the bucket and key the payload was
    written to, the blob under them is the payload written, and content
    retrieval for the new id returns it. *)
Theorem ingested_location_reads_back event w resp bucket :
  (lambda_handler event w).2 = Ok resp ->
  Ingest.statusCode resp = 200 ->
  S3_BUCKET cfg = Some bucket ->
  PyStr.contains_char "/" bucket = false ->
  let w' := (lambda_handler event w).1 in
  exists data_id key content attrs,
    Ingest.dataId resp = Some data_id /\
    Ingest.s3Location resp = Some ("s3://" +:+ bucket +:+ "/" +:+ key) /\
    trace w' =
      (trace w ++ [PutObject bucket key content; PutItem (mkItem data_id attrs)])%list /\
    table_items w' !! data_id = Some attrs /\
    attrs !! "s3Location" = Some (VStr ("s3://" +:+ bucket +:+ "/" +:+ key)) /\
    parse_s3_location (mkItem data_id attrs) = Ok (bucket, key) /\
    s3_objects w' !! (bucket, key) = Some content /\
    (forall data,
       data_id <> "" -> json_loads content = Some data ->
       Query.get_content json_loads (Some data_id) w' =
         (w', Ok (Query.RContent (mkItem data_id attrs) data))).
Proof.
  intros Hres Hcode Hbucket Hslash w'.
  destruct (lambda_handler_run event w) as (resp' & Hres' & _ & Hout).
  rewrite Hres in Hres'. inversion Hres'; subst resp'. clear Hres'.
  rewrite Hcode in Hout. simpl in Hout. fold w' in Hout.
  inversion Hout as [| | b k c item Hb Hloc Ht Hs Hm Hresp].
  rewrite Hbucket in Hb. inversion Hb; subst b. clear Hb.
  destruct item as [data_id attrs]. simpl in *.
  assert (Hparse : parse_s3_location (mkItem data_id attrs) = Ok (bucket, k))
    by (by apply parse_s3_location_roundtrip).
  assert (Hlk : table_items w' !! data_id = Some attrs)
    by (by rewrite Hm, lookup_insert_eq).
  assert (Hblob : s3_objects w' !! (bucket, k) = Some c)
    by (by rewrite Hs, lookup_insert_eq).
  exists data_id, k, c, attrs. repeat split; try done.
  intros data Hne Hjson.
  unfold Query.get_content, get_item, s3_get_object, bind, lift, ret.
  assert (Htruthy : truthy (Some data_id) = true).
  { simpl. apply negb_true_iff. by apply String.eqb_neq. }
  rewrite Htruthy. simpl. rewrite Hlk. simpl. rewrite Hparse. simpl.
  by rewrite Hblob, Hjson.
Qed.

End IngestProperties.

(** ** The blob-event entry points: which keys are skipped *)

Section BlobEvents.

Context {Json : Type}.
Variable json_loads : string -> option Json.
Variable py_repr : Value -> string.
Variable pd : RawIndexer.Pandas.
Variable unquote_plus : string -> string.
Variable cfg : Config.
Variable orc : Oracles.

#[local] Abbreviation World := (World Json).


(** Nothing is written to any service and nothing is logged as an error. *)
Definition quiet (w w' : World) : Prop :=
  trace w' = trace w /\ s3_objects w' = s3_objects w /\
  table_items w' = table_items w /\ es_docs w' = es_docs w /\
  es_indices w' = es_indices w /\
  exists l, log w' = (log w ++ l)%list /\ Forall (fun entry => entry.1 <> ERROR) l.

#[global] Instance quiet_preorder : PreOrder quiet.
Proof.
  split.
  - intros w. repeat split; try done. exists []. by rewrite app_nil_r.
  - intros w1 w2 w3 (T1 & S1 & M1 & D1 & I1 & l1 & L1 & F1)
                    (T2 & S2 & M2 & D2 & I2 & l2 & L2 & F2).
    repeat split; try congruence. exists (l1 ++ l2)%list. split.
    + by rewrite L2, L1, app_assoc.
    + by apply Forall_app.
Qed.





End BlobEvents.

(** ** Missing configuration *)

Section Configuration.

Context {Json : Type}.
Variable json_loads : string -> option Json.
Variable json_dumps : Json -> string.
Variable sample_json : Value -> nat -> Json.
Variable py_repr : Value -> string.
Variable cfg : Config.
Variable orc : Oracles.


End Configuration.

(** * Further properties of the handlers *)

(** ** Runs of the monad *)

Section Runs.

Context {Json : Type}.

#[local] Abbreviation M := (M Json).

Lemma bind_ok_inv {A B} (m : M A) (k : A -> M B) w w' b :
  bind m k w = (w', Ok b) ->
  exists w1 a, m w = (w1, Ok a) /\ k a w1 = (w', Ok b).
Proof.
  unfold bind. destruct (m w) as [w1 [a | e]]; [eauto | discriminate].
Qed.

Lemma bind_run {A B} (m : M A) (k : A -> M B) w w1 a :
  m w = (w1, Ok a) -> bind m k w = k a w1.
Proof. intros E. unfold bind. by rewrite E. Qed.

Lemma bind_raise {A B} (m : M A) (k : A -> M B) w w1 e :
  m w = (w1, Raise e) -> bind m k w = (w1, Raise e).
Proof. intros E. unfold bind. by rewrite E. Qed.

(** The services hold what they held; only the log and the clock moved. *)
Definition untouched (w w' : World Json) : Prop :=
  trace w' = trace w /\ s3_objects w' = s3_objects w /\
  table_items w' = table_items w /\ es_docs w' = es_docs w /\
  es_indices w' = es_indices w.

#[global] Instance untouched_preorder : PreOrder untouched.
Proof.
  split.
  - intros w. by repeat split.
  - intros w1 w2 w3 (T1 & S1 & M1 & D1 & I1) (T2 & S2 & M2 & D2 & I2).
    repeat split; congruence.
Qed.

Lemma untouched_logger lvl msg : respects untouched (logger (Json := Json) lvl msg).
Proof. intros w. by repeat split. Qed.

Lemma untouched_now orc : respects untouched (now (Json := Json) orc).
Proof. intros w. by repeat split. Qed.

Lemma untouched_new_uuid orc : respects untouched (new_uuid (Json := Json) orc).
Proof. intros w. by repeat split. Qed.

End Runs.

(** ** The query service: a handler that always answers and keeps the stores *)

Section QueryHandler.

Context {Json : Type}.
Variable json_loads : string -> option Json.
Variable py_repr : Value -> string.
Variable orc : Oracles.

#[local] Abbreviation World := (World Json).
#[local] Abbreviation lambda_handler := (Query.lambda_handler json_loads py_repr orc).

(** Peel one monadic layer of a read-only function. *)
Ltac untouched_step :=
  first
    [ apply untouched_logger
    | apply respects_ret, _
    | apply respects_raise, _
    | apply respects_lift, _
    | apply respects_get_item, _
    | apply respects_scan, _
    | apply respects_scan_limit, _
    | apply respects_s3_get_object, _
    | apply respects_bind; [apply _ | | intros ?]
    | apply respects_try_except; [apply _ | | intros ?] ].

Lemma untouched_query_by_id data_id :
  respects untouched (Query.query_by_id (Json := Json) data_id).
Proof.
  unfold Query.query_by_id. destruct (negb _); [untouched_step |].
  untouched_step; [untouched_step |].
  match goal with |- context [match ?o with _ => _ end] => destruct o end; untouched_step.
Qed.

Lemma untouched_search_metadata params :
  respects untouched (Query.search_metadata (Json := Json) params).
Proof.
  unfold Query.search_metadata. untouched_step; [untouched_step |].
  untouched_step; [| untouched_step].
  match goal with |- context [match ?o with _ => _ end] => destruct o end; untouched_step.
Qed.

Lemma untouched_get_content data_id :
  respects untouched (Query.get_content json_loads data_id).
Proof.
  unfold Query.get_content. destruct (negb _); [untouched_step |].
  untouched_step; [untouched_step |].
  match goal with |- context [match ?o with _ => _ end] => destruct o end;
    [| untouched_step].
  untouched_step; [untouched_step |].
  untouched_step; [untouched_step |].
  destruct (json_loads _); untouched_step.
Qed.

Lemma untouched_execute_sql_query sql_query :
  respects untouched (Query.execute_sql_query (Json := Json) orc sql_query).
Proof. unfold Query.execute_sql_query. destruct (negb _); untouched_step. Qed.

Lemma untouched_as_text v k :
  (forall o, respects untouched (k o)) ->
  respects untouched (Query.as_text (Json := Json) v k).
Proof.
  intros Hk. unfold Query.as_text.
  destruct v as [[s | n | b | | l] |]; try apply Hk;
    match goal with
    | |- context [if ?c then _ else _] => destruct c
    end; first [untouched_step | apply Hk].
Qed.

(** The dispatch on the query type. *)
Lemma untouched_lambda_handler event : respects untouched (lambda_handler event).
Proof.
  unfold Query.lambda_handler.
  untouched_step.
  - untouched_step; [untouched_step |].
    untouched_step; [| untouched_step].
    repeat case_bool_decide.
    + apply untouched_as_text, untouched_query_by_id.
    + apply untouched_search_metadata.
    + apply untouched_as_text, untouched_get_content.
    + apply untouched_as_text, untouched_execute_sql_query.
    + untouched_step.
  - destruct (is_client_error _); repeat untouched_step.
Qed.

(** X1: whatever the request, the query handler returns a response and
    raises nothing: status 200 with the result of the query, or status 500
    with a [success = false] body; and the handler itself writes nothing to
    the blob store, the metadata table or the search index (an [sql]
    request is only handed to the query service). *)
Theorem query_handler_answers_and_keeps_stores event w :
  exists resp,
    (lambda_handler event w).2 = Ok resp /\
    (Query.statusCode resp = 200 \/
     (Query.statusCode resp = 500 /\ Query.success (Query.result resp) = false)) /\
    untouched w (lambda_handler event w).1.
Proof.
  pose proof (untouched_lambda_handler event w) as Hu.
  unfold Query.lambda_handler, try_except in *.
  match goal with
  | |- context [?m w] =>
      match m with
      | bind _ _ => destruct (m w) as [w1 [resp | e]] eqn:Hrun
      end
  end.
  - exists resp. split; [done |]. split; [| exact Hu]. left.
    apply bind_ok_inv in Hrun as (w2 & [] & _ & Hrun).
    apply bind_ok_inv in Hrun as (w3 & r & _ & Hrun).
    by inversion Hrun.
  - destruct (is_client_error e); simpl in *;
      (eexists; split; [reflexivity |]; split; [right; by split | exact Hu]).
Qed.

(** X2: a search that names no criterion (no [dataType], [owner], [source]
    or [tags], and not both [fromDate] and [toDate]) is the bounded page:
    the first items of the table, at most 20, with [count] their number. *)
Theorem search_without_criteria_is_bounded params (w : World) :
  params !! "dataType" = None -> params !! "owner" = None ->
  params !! "source" = None -> params !! "tags" = None ->
  (params !! "fromDate" = None \/ params !! "toDate" = None) ->
  exists items,
    Query.search_metadata params w = (w, Ok (Query.RItems (length items) items)) /\
    items = take 20 (all_items w) /\ (length items <= 20)%nat.
Proof.
  intros Hdt Hown Hsrc Htags Hdates.
  assert (Hfe : Query.build_filter params = Ok None).
  { unfold Query.build_filter. rewrite Hdt, Hown, Hsrc, Htags.
    destruct Hdates as [-> | ->]; [done |]. by destruct (params !! "fromDate"). }
  exists (take 20 (all_items w)).
  unfold Query.search_metadata, bind, lift, scan_limit, ret. rewrite Hfe.
  split; [done |]. split; [done |]. rewrite length_take. lia.
Qed.

(** X3: a request that lacks what its query type needs is answered 500 with
    the reason: no [id] for the types [id] and [content], no [sql] for the
    type [sql], and a type that is none of the four known ones. *)
Theorem query_missing_parameter_is_500 event (w : World) :
  let params := Query.query_params_of event in
  (params !! "type" = Some (VStr "id") \/ params !! "type" = Some (VStr "content") ->
   params !! "id" = None ->
   (lambda_handler event w).2 =
     Ok (Query.mkResponse 500
           (Query.RFail "Error processing query: ID parameter is required"))) /\
  (params !! "type" = Some (VStr "sql") -> params !! "sql" = None ->
   (lambda_handler event w).2 =
     Ok (Query.mkResponse 500
           (Query.RFail "Error processing query: SQL query is required"))) /\
  (forall t, params !! "type" = Some (VStr t) ->
     t <> "id" -> t <> "metadata" -> t <> "content" -> t <> "sql" ->
     (lambda_handler event w).2 =
       Ok (Query.mkResponse 500
             (Query.RFail ("Error processing query: Unsupported query type: " +:+ t)))).
Proof.
  intros params. unfold Query.lambda_handler, try_except, bind, logger. simpl.
  fold params. split; [| split].
  - intros [Ht | Ht] Hid; rewrite Ht, Hid; reflexivity.
  - intros Ht Hsql. rewrite Ht, Hsql. reflexivity.
  - intros t Ht H1 H2 H3 H4. rewrite Ht. simpl.
    rewrite !bool_decide_eq_false_2 by congruence. reflexivity.
Qed.

End QueryHandler.

(** ** The record indexer: what its handler answers and what it writes *)

Section IndexerHandler.

Context {Json : Type}.
Variable json_loads : string -> option Json.
Variable py_repr : Value -> string.
Variable cfg : Config.
Variable orc : Oracles.

#[local] Abbreviation World := (World Json).
#[local] Abbreviation M := (M Json).
#[local] Abbreviation lambda_handler := (Indexer.lambda_handler json_loads py_repr cfg orc).
#[local] Abbreviation index_by_id := (Indexer.index_by_id json_loads py_repr cfg orc).
#[local] Abbreviation bulk_index_by_type := (Indexer.bulk_index_by_type json_loads py_repr cfg orc).
#[local] Abbreviation reindex_all := (Indexer.reindex_all json_loads py_repr cfg orc).

(** Every response [m] returns has a status in [S]. *)
Definition answers (S : Z -> Prop) (m : M Response) : Prop :=
  forall w w' resp, m w = (w', Ok resp) -> S (statusCode resp).

Lemma answers_index_by_id data_id :
  answers (fun c => c = 200 \/ c = 404) (index_by_id data_id).
Proof.
  intros w w' resp E. unfold Indexer.index_by_id in E.
  apply bind_ok_inv in E as (w1 & [] & _ & E).
  apply bind_ok_inv in E as (w2 & o & _ & E).
  destruct o as [metadata |].
  - apply bind_ok_inv in E as (w3 & [] & _ & E). inversion E. by left.
  - inversion E. by right.
Qed.

Lemma answers_index_by_id_value v :
  answers (fun c => c = 200 \/ c = 404)
          (Indexer.index_by_id_value json_loads py_repr cfg orc v).
Proof.
  destruct v; simpl; try apply answers_index_by_id;
    intros w w' resp E; apply bind_ok_inv in E as (w1 & [] & _ & E); inversion E.
Qed.

Lemma answers_bulk_index_by_type data_type :
  answers (fun c => c = 200) (bulk_index_by_type data_type).
Proof.
  intros w w' resp E. unfold Indexer.bulk_index_by_type in E.
  apply bind_ok_inv in E as (w1 & [] & _ & E).
  apply bind_ok_inv in E as (w2 & items & _ & E).
  apply bind_ok_inv in E as (w3 & n & _ & E). by inversion E.
Qed.

Lemma answers_reindex_all : answers (fun c => c = 200) reindex_all.
Proof.
  intros w w' resp E. unfold Indexer.reindex_all in E.
  apply bind_ok_inv in E as (w1 & [] & _ & E).
  apply bind_ok_inv in E as (w2 & items & _ & E).
  apply bind_ok_inv in E as (w3 & dts & _ & E).
  apply bind_ok_inv in E as (w4 & n & _ & E). by inversion E.
Qed.

(** X4: the indexer's handler always returns a response.  A batch of
    service records is answered 200 or 500; an API call 200, 404 or 400 and
    never 500, whatever fails underneath; a direct invocation 200, 404 or
    500. *)
Theorem indexer_handler_always_answers event w :
  exists resp,
    (lambda_handler event w).2 = Ok resp /\
    match event with
    | Indexer.EvRecords _ => statusCode resp = 200 \/ statusCode resp = 500
    | Indexer.EvBody _ =>
        statusCode resp = 200 \/ statusCode resp = 404 \/ statusCode resp = 400
    | Indexer.EvDirect _ =>
        statusCode resp = 200 \/ statusCode resp = 404 \/ statusCode resp = 500
    end.
Proof.
  unfold Indexer.lambda_handler, try_except, bind at 1. simpl.
  set (w0 := mkWorld _ _ _ _ _ _ _). clearbody w0.
  destruct event as [records | decoded | fields].
  - destruct (bind _ _ w0) as [w1 [resp | e]] eqn:E; simpl.
    + exists resp. split; [done |].
      apply bind_ok_inv in E as (w2 & [] & _ & E). inversion E. by left.
    + eexists. split; [reflexivity |]. by right.
  - unfold try_except.
    match goal with
    | |- context [match ?m w0 with _ => _ end] =>
        destruct (m w0) as [w1 [resp | e]] eqn:E
    end; simpl.
    + exists resp. split; [done |].
      destruct decoded as [body |]; [| discriminate].
      destruct (body !! "id") as [v |].
      { apply answers_index_by_id_value in E. tauto. }
      destruct (body !! "dataType") as [dt |]; [| discriminate].
      apply answers_bulk_index_by_type in E. tauto.
    + eexists. split; [reflexivity |]. simpl. tauto.
  - match goal with
    | |- context [match ?m w0 with _ => _ end] =>
        destruct (m w0) as [w1 [resp | e]] eqn:E
    end; simpl.
    + exists resp. split; [done |].
      destruct (fields !! "id") as [v |].
      { apply answers_index_by_id_value in E. tauto. }
      destruct (fields !! "dataType") as [dt |].
      { apply answers_bulk_index_by_type in E. tauto. }
      destruct (fields !! "reindexAll") as [flag |]; [| discriminate].
      destruct (py_truthy flag); [| discriminate].
      apply answers_reindex_all in E. tauto.
    + eexists. split; [reflexivity |]. simpl. tauto.
Qed.

(** The only writes of the indexer: a document, or the two attributes that
    mark a record as indexed. *)
Definition indexer_write (e : Effect Json) : Prop :=
  match e with
  | PutDocument _ _ _ => True
  | UpdateItem _ sets => sets.*1 = ["indexed"; "indexedAt"]
  | _ => False
  end.

(** Only such writes, and the blob store as it was. *)
Definition indexes_only (w w' : World) : Prop :=
  extends indexer_write w w' /\ s3_objects w' = s3_objects w.

#[global] Instance indexes_only_preorder : PreOrder indexes_only.
Proof.
  split.
  - intros w. split; [apply extends_refl | done].
  - intros w1 w2 w3 [E1 S1] [E2 S2]. split; [by eapply extends_trans | congruence].
Qed.

(** X5: whatever the event, the indexer writes nothing but documents to the
    search index and the [indexed] / [indexedAt] attributes to the metadata
    table; it never writes a blob and never replaces a metadata entry. *)
Theorem indexer_writes_only_index_and_flags event w :
  extends indexer_write w (lambda_handler event w).1 /\
  s3_objects (lambda_handler event w).1 = s3_objects w.
Proof.
  apply (respects_indexer_lambda_handler json_loads py_repr cfg orc indexes_only).
  - intros lvl msg w0. split; [by apply extends_same | done].
  - intros w0. split; [by apply extends_same | done].
  - intros index_name doc_id doc w0. split.
    + by apply emits_requests_put.
    + unfold requests_put, bind. by destruct (is_2xx _).
  - intros data_id t w0. split.
    + by apply emits_update_item.
    + unfold update_item. by destruct (ddb_write_ok _ _).
Qed.

End IndexerHandler.

(** ** The record indexer: failures of single records *)

Section IndexerFailures.

Context {Json : Type}.
Variable json_loads : string -> option Json.
Variable py_repr : Value -> string.
Variable cfg : Config.
Variable orc : Oracles.

#[local] Abbreviation World := (World Json).
#[local] Abbreviation lambda_handler := (Indexer.lambda_handler json_loads py_repr cfg orc).
#[local] Abbreviation index_by_id := (Indexer.index_by_id json_loads py_repr cfg orc).
#[local] Abbreviation index_metadata := (Indexer.index_metadata (Json := Json) py_repr cfg orc).
#[local] Abbreviation bulk_index_by_type := (Indexer.bulk_index_by_type json_loads py_repr cfg orc).
#[local] Abbreviation reindex_all := (Indexer.reindex_all json_loads py_repr cfg orc).

(** X6: unlike the batch operations, a batch of service records stops at the
    first record that fails: when the blob of the first record is missing,
    the handler answers 500 and the records after it are never looked at. *)
Theorem records_stop_at_first_failure bucket key rest (w : World) :
  s3_objects w !! (bucket, key) = None ->
  exists w',
    lambda_handler (Indexer.EvRecords (Indexer.S3Record bucket key :: rest)) w =
      (w', Ok (Indexer.error_response 500 "Indexing error: " (ClientError "NoSuchKey"))) /\
    untouched w w'.
Proof.
  intros Hblob.
  unfold Indexer.lambda_handler, try_except, bind at 1. simpl.
  set (w0 := mkWorld _ _ _ _ _ _ _).
  assert (Hrec : exists w1,
             Indexer.index_s3_object json_loads py_repr cfg orc bucket key w0 =
               (w1, Raise (ClientError "NoSuchKey")) /\ untouched w w1).
  { unfold Indexer.index_s3_object, bind at 1. simpl.
    unfold bind at 1, s3_get_object. simpl. rewrite Hblob.
    eexists. split; [reflexivity |]. by repeat split. }
  destruct Hrec as (w1 & E & Hu).
  unfold bind at 1. simpl. unfold bind at 1. rewrite E. simpl.
  eexists. split; [reflexivity |].
  destruct Hu as (T & S & Mt & D & I). by repeat split.
Qed.

(** Index-by-id over a record whose blob is missing raises the blob store's
    error. *)
Lemma index_by_id_missing_blob data_id attrs bucket key (w : World) :
  table_items w !! data_id = Some attrs ->
  parse_s3_location (mkItem data_id attrs) = Ok (bucket, key) ->
  s3_objects w !! (bucket, key) = None ->
  exists w', index_by_id data_id w = (w', Raise (ClientError "NoSuchKey")) /\ untouched w w'.
Proof.
  intros Hlk Hloc Hblob.
  unfold Indexer.index_by_id, Indexer.fetch_and_index, get_item, s3_get_object, bind, lift,
    logger.
  simpl. rewrite Hlk. simpl. rewrite Hloc. simpl. rewrite Hblob.
  eexists. split; [reflexivity |]. by repeat split.
Qed.

(** X7: the same failure is reported differently by the two on-demand forms
    of the request: a missing blob during index-by-id is answered 400
    "Invalid request" to an API call and 500 "Indexing error" to a direct
    invocation. *)
Theorem missing_blob_is_400_or_500 data_id attrs bucket key (w : World) :
  table_items w !! data_id = Some attrs ->
  parse_s3_location (mkItem data_id attrs) = Ok (bucket, key) ->
  s3_objects w !! (bucket, key) = None ->
  (forall body, body !! "id" = Some (VStr data_id) ->
     (lambda_handler (Indexer.EvBody (Some body)) w).2 =
       Ok (Indexer.error_response 400 "Invalid request: " (ClientError "NoSuchKey"))) /\
  (forall fields, fields !! "id" = Some (VStr data_id) ->
     (lambda_handler (Indexer.EvDirect fields) w).2 =
       Ok (Indexer.error_response 500 "Indexing error: " (ClientError "NoSuchKey"))).
Proof.
  intros Hlk Hloc Hblob.
  assert (Hrun : forall w0 : World,
             table_items w0 = table_items w -> s3_objects w0 = s3_objects w ->
             (index_by_id data_id w0).2 = Raise (ClientError "NoSuchKey")).
  { intros w0 Ht Hs.
    destruct (index_by_id_missing_blob data_id attrs bucket key w0) as (w' & E & _);
      [by rewrite Ht | done | by rewrite Hs |].
    by rewrite E. }
  split.
  - intros body Hid.
    unfold Indexer.lambda_handler, try_except, bind at 1. simpl.
    set (w0 := mkWorld _ _ _ _ _ _ _).
    rewrite Hid. simpl.
    pose proof (Hrun w0 eq_refl eq_refl) as Hr.
    destruct (Indexer.index_by_id _ _ _ _ data_id w0) as [w1 r]. simpl in Hr. subst r.
    reflexivity.
  - intros fields Hid.
    unfold Indexer.lambda_handler, try_except, bind at 1. simpl.
    set (w0 := mkWorld _ _ _ _ _ _ _).
    rewrite Hid. simpl.
    pose proof (Hrun w0 eq_refl eq_refl) as Hr.
    destruct (Indexer.index_by_id _ _ _ _ data_id w0) as [w1 r]. simpl in Hr. subst r.
    reflexivity.
Qed.

(** X8: indexing the metadata of a table-stream event writes at most one
    document, the bare metadata under the [metadata-] index of its data
    type, and never touches the metadata table: the record is not marked as
    indexed by it. *)
Theorem index_metadata_never_marks metadata (w : World) :
  let w' := (index_metadata metadata w).1 in
  let index_name :=
    metadata_index py_repr (item_get metadata "dataType" (VStr "unknown")) in
  table_items w' = table_items w /\ s3_objects w' = s3_objects w /\
  trace w' =
    (trace w ++
     if truthy (ES_ENDPOINT cfg) && is_2xx (es_put_status orc index_name (item_id metadata))
     then [PutDocument index_name (item_id metadata) (MetaDoc metadata)] else [])%list.
Proof.
  unfold Indexer.index_metadata, Indexer.index_in_elasticsearch, requests_put, bind,
    perform, logger, ret, raise, metadata_index.
  destruct (truthy (ES_ENDPOINT cfg)); simpl.
  - unfold is_2xx. destruct (_ && _) eqn:Hst; simpl; rewrite Hst; simpl;
      repeat split; by rewrite ?app_nil_r.
  - repeat split; by rewrite ?app_nil_r.
Qed.

(** X9: bulk indexing never raises and never counts more records than it
    selected: it answers 200 with [totalItems] the number of records whose
    [dataType] equals the requested one and [indexedItems] at most that, and
    leaves the blob store as it was. *)
Theorem bulk_counts_are_bounded data_type (w : World) :
  exists w' indexed,
    bulk_index_by_type data_type w =
      (w', Ok (mkResponse 200
                 (BodyBulk true "Bulk indexing completed"
                    (length (selected data_type w)) indexed))) /\
    (indexed <= length (selected data_type w))%nat /\
    (forall metadata, metadata ∈ selected data_type w ->
       metadata ∈ all_items w /\ item_attrs metadata !! "dataType" = Some data_type) /\
    s3_objects w' = s3_objects w.
Proof.
  destruct (bulk_index_by_type_run json_loads py_repr cfg orc data_type w)
    as (w' & E & [Hs3 _] & _).
  exists w', (length (List.filter (indexable json_loads py_repr cfg orc (s3_objects w) data_type)
                                  (selected data_type w))).
  split; [exact E |]. split; [apply List.filter_length_le |]. split; [| exact Hs3].
  intros md Hin. apply list_elem_of_In, List.filter_In in Hin as [Hin Hdt].
  split; [by apply list_elem_of_In | by apply bool_decide_eq_true in Hdt].
Qed.

Lemma group_items_unhashable items data_types (w : World) :
  Exists (fun md => hashable (item_get md "dataType" (VStr "unknown")) = false) items ->
  Indexer.group_items items data_types w = (w, Raise TypeError).
Proof.
  revert data_types. induction items as [| md items IH]; intros data_types Hex.
  - by inversion Hex.
  - simpl. destruct (hashable (item_get md "dataType" (VStr "unknown"))) eqn:Hh; [| done].
    apply IH. inversion Hex; [congruence | done].
Qed.

(** X10: the grouping loop of reindex-all sits outside the per-record [try]:
    one record whose [dataType] is a list, which cannot be a dict key, makes
    the whole run raise before any record is indexed, and a direct
    [reindexAll] invocation is answered 500. *)
Theorem reindex_all_aborts_on_unhashable_type (w : World) :
  Exists (fun md => hashable (item_get md "dataType" (VStr "unknown")) = false)
         (all_items w) ->
  (exists w', reindex_all w = (w', Raise TypeError) /\ untouched w w') /\
  (forall fields flag,
     fields !! "id" = None -> fields !! "dataType" = None ->
     fields !! "reindexAll" = Some flag -> py_truthy flag = true ->
     exists w',
       lambda_handler (Indexer.EvDirect fields) w =
         (w', Ok (Indexer.error_response 500 "Indexing error: " TypeError)) /\
       untouched w w').
Proof.
  intros Hex.
  assert (Hrun : forall w0 : World,
             table_items w0 = table_items w ->
             exists w', reindex_all w0 = (w', Raise TypeError) /\ untouched w0 w').
  { intros w0 Ht. unfold Indexer.reindex_all, bind at 1. simpl.
    set (w1 := mkWorld _ _ _ _ _ _ _).
    unfold bind at 1, scan. simpl. rewrite filter_true.
    assert (Hall : all_items w1 = all_items w) by (unfold all_items; simpl; by rewrite Ht).
    rewrite Hall. unfold bind at 1. rewrite (group_items_unhashable _ _ _ Hex).
    eexists. split; [reflexivity |]. by repeat split. }
  split; [by apply Hrun |].
  intros fields flag Hid Hdt Hflag Htruthy.
  unfold Indexer.lambda_handler, try_except, bind at 1. simpl.
  set (w0 := mkWorld _ _ _ _ _ _ _).
  rewrite Hid, Hdt, Hflag, Htruthy.
  destruct (Hrun w0 eq_refl) as (w1 & E & Hu). rewrite E. simpl.
  eexists. split; [reflexivity |].
  destruct Hu as (T & S & Mt & D & I). by repeat split.
Qed.

End IndexerFailures.

(** ** The record indexer: what it leaves in the table and the index *)

Section IndexerState.

Context {Json : Type}.
Variable json_loads : string -> option Json.
Variable py_repr : Value -> string.
Variable cfg : Config.
Variable orc : Oracles.

#[local] Abbreviation World := (World Json).
#[local] Abbreviation lambda_handler := (Indexer.lambda_handler json_loads py_repr cfg orc).
#[local] Abbreviation fetch_and_index := (Indexer.fetch_and_index json_loads py_repr cfg orc).
#[local] Abbreviation index_loop := (Indexer.index_loop json_loads py_repr cfg orc).
#[local] Abbreviation bulk_index_by_type := (Indexer.bulk_index_by_type json_loads py_repr cfg orc).
#[local] Abbreviation can_index := (indexable json_loads py_repr cfg orc).

(** Every record is still there, with every attribute but the two indexing
    marks as it was, and a record marked as indexed stays so. *)
Definition keeps_records (w w' : World) : Prop :=
  forall data_id attrs,
    table_items w !! data_id = Some attrs ->
    exists attrs',
      table_items w' !! data_id = Some attrs' /\
      (forall k, k <> "indexed" -> k <> "indexedAt" -> attrs' !! k = attrs !! k) /\
      (attrs !! "indexed" = Some (VBool true) -> attrs' !! "indexed" = Some (VBool true)).

#[global] Instance keeps_records_preorder : PreOrder keeps_records.
Proof.
  split.
  - intros w data_id attrs Hlk. by exists attrs.
  - intros w1 w2 w3 H12 H23 data_id attrs Hlk.
    destruct (H12 _ _ Hlk) as (attrs2 & Hlk2 & Hk2 & Hf2).
    destruct (H23 _ _ Hlk2) as (attrs3 & Hlk3 & Hk3 & Hf3).
    exists attrs3. split; [done |]. split.
    + intros k H1 H2. by rewrite Hk3, Hk2.
    + auto.
Qed.

Lemma keeps_records_same (w w' : World) :
  table_items w' = table_items w -> keeps_records w w'.
Proof. intros E data_id attrs Hlk. exists attrs. by rewrite E. Qed.

Lemma keeps_records_requests_put index_name doc_id (doc : Document Json) :
  respects keeps_records (requests_put orc index_name doc_id doc).
Proof.
  intros w. apply keeps_records_same. unfold requests_put.
  by destruct (is_2xx _).
Qed.

Lemma keeps_records_mark data_id t :
  respects keeps_records
    (update_item (Json := Json) orc data_id [("indexed", VBool true); ("indexedAt", VStr t)]).
Proof.
  intros w. unfold update_item.
  destruct (ddb_write_ok orc data_id); [| by apply keeps_records_same].
  intros id attrs Hlk. simpl.
  destruct (decide (id = data_id)) as [-> | Hne].
  - rewrite lookup_insert_eq, Hlk. simpl. eexists. split; [reflexivity |]. split.
    + intros k H1 H2. by rewrite !lookup_insert_ne.
    + intros _. rewrite lookup_insert_ne by done. by rewrite lookup_insert_eq.
  - rewrite lookup_insert_ne by done. by exists attrs.
Qed.

(** X11: whatever the event, the record indexer deletes no metadata entry
    and changes no attribute of one other than [indexed] and [indexedAt];
    an entry marked as indexed stays marked. *)
Theorem indexer_keeps_records event (w : World) data_id attrs :
  table_items w !! data_id = Some attrs ->
  exists attrs',
    table_items (lambda_handler event w).1 !! data_id = Some attrs' /\
    (forall k, k <> "indexed" -> k <> "indexedAt" -> attrs' !! k = attrs !! k) /\
    (attrs !! "indexed" = Some (VBool true) -> attrs' !! "indexed" = Some (VBool true)).
Proof.
  revert data_id attrs.
  change (keeps_records w (lambda_handler event w).1).
  apply (respects_indexer_lambda_handler json_loads py_repr cfg orc keeps_records).
  - intros lvl msg w0. by apply keeps_records_same.
  - intros w0. by apply keeps_records_same.
  - apply keeps_records_requests_put.
  - apply keeps_records_mark.
Qed.

(** The record [data_id] is marked and has its one document in
    [index_name]. *)
Definition settled (index_name data_id : string) (w : World) : Prop :=
  indexed_flag w data_id = Some (VBool true) /\
  docs_for index_name data_id (es_docs w) = 1%nat.

(** A settled record stays settled. *)
Definition stays_settled (index_name data_id : string) (w w' : World) : Prop :=
  settled index_name data_id w -> settled index_name data_id w'.

#[global] Instance stays_settled_preorder index_name data_id :
  PreOrder (stays_settled index_name data_id).
Proof.
  split.
  - by intros w H.
  - intros w1 w2 w3 H12 H23 H. by apply H23, H12.
Qed.

Lemma stays_settled_same index_name data_id (w w' : World) :
  table_items w' = table_items w -> es_docs w' = es_docs w ->
  stays_settled index_name data_id w w'.
Proof. intros Ht Hd [Hf Hn]. unfold settled, indexed_flag. by rewrite Ht, Hd. Qed.

Lemma stays_settled_requests_put index_name data_id i d (doc : Document Json) :
  respects (stays_settled index_name data_id) (requests_put orc i d doc).
Proof.
  intros w. unfold requests_put.
  destruct (is_2xx _); [| by apply stays_settled_same].
  intros [Hf Hn]. split; [exact Hf |]. simpl.
  destruct (decide ((i, d) = (index_name, data_id))) as [E | Hne].
  - inversion E; subst. apply docs_for_upsert_same.
  - by rewrite docs_for_upsert_other.
Qed.

Lemma stays_settled_mark index_name data_id id t :
  respects (stays_settled index_name data_id)
    (update_item (Json := Json) orc id [("indexed", VBool true); ("indexedAt", VStr t)]).
Proof.
  intros w. unfold update_item.
  destruct (ddb_write_ok orc id); [| by apply stays_settled_same].
  intros [Hf Hn]. split; [| exact Hn]. unfold indexed_flag in *. simpl.
  destruct (decide (data_id = id)) as [-> | Hne].
  - rewrite lookup_insert_eq. simpl. apply indexed_after_sets.
  - by rewrite lookup_insert_ne.
Qed.

Lemma stays_settled_index_loop index_name data_id data_type items n :
  respects (stays_settled index_name data_id) (index_loop data_type items n).
Proof.
  apply respects_index_loop; try apply _.
  - intros lvl msg w0. by apply stays_settled_same.
  - intros w0. by apply stays_settled_same.
  - apply stays_settled_requests_put.
  - apply stays_settled_mark.
Qed.

(** One indexable record, once through the block, is settled. *)
Lemma fetch_and_index_settles data_type metadata (w w' : World) :
  truthy (ES_ENDPOINT cfg) = true ->
  fetch_and_index data_type metadata w = (w', Ok tt) ->
  settled (data_index py_repr data_type) (item_id metadata) w'.
Proof.
  intros Hes Hrun.
  apply fetch_and_index_inv in Hrun
    as (bucket & key & content & data & t & _ & _ & _ & _ & Ht & Hd).
  rewrite Hes in Hd. split.
  - unfold indexed_flag. rewrite Ht, lookup_insert_eq. simpl. apply indexed_after_sets.
  - rewrite Hd. apply docs_for_upsert_same.
Qed.

Lemma index_loop_settles data_type items n (w : World) metadata :
  truthy (ES_ENDPOINT cfg) = true ->
  metadata ∈ items ->
  can_index (s3_objects w) data_type metadata = true ->
  settled (data_index py_repr data_type) (item_id metadata)
          (index_loop data_type items n w).1.
Proof.
  intros Hes. revert n w. induction items as [| md items IH]; intros n w Hin Hok.
  - by apply elem_of_nil in Hin.
  - simpl. unfold bind at 1.
    destruct (index_one_counted_run json_loads py_repr cfg orc data_type n md w)
      as (w1 & E1 & [S1 _] & _).
    rewrite E1.
    apply elem_of_cons in Hin as [-> | Hin].
    + pose proof (stays_settled_index_loop (data_index py_repr data_type) (item_id md)
                    data_type items
                    (if can_index (s3_objects w) data_type md then S n else n) w1) as Hkeep.
      apply Hkeep. clear Hkeep.
      pose proof (fetch_and_index_result json_loads py_repr cfg orc data_type md w) as Hres.
      rewrite Hok in Hres.
      unfold Indexer.index_one_counted, try_except, bind in E1.
      destruct (fetch_and_index data_type md w) as [w0 r] eqn:Hf. simpl in Hres. subst r.
      unfold ret in E1. inversion E1; subst.
      by eapply fetch_and_index_settles.
    + apply IH; [done | by rewrite S1].
Qed.

(** X12: with the search endpoint configured, after a bulk run every
    selected record that could be indexed is marked [indexed = true] in the
    table and has exactly one document under its id in the data index of the
    requested type, however many records came after it in the run. *)
Theorem bulk_indexing_settles_records data_type (w : World) metadata :
  truthy (ES_ENDPOINT cfg) = true ->
  metadata ∈ selected data_type w ->
  can_index (s3_objects w) data_type metadata = true ->
  let w' := (bulk_index_by_type data_type w).1 in
  indexed_flag w' (item_id metadata) = Some (VBool true) /\
  docs_for (data_index py_repr data_type) (item_id metadata) (es_docs w') = 1%nat.
Proof.
  intros Hes Hin Hok w'. subst w'.
  change (settled (data_index py_repr data_type) (item_id metadata)
                  (bulk_index_by_type data_type w).1).
  unfold Indexer.bulk_index_by_type, bind at 1. simpl.
  set (w0 := mkWorld _ _ _ _ _ _ _).
  unfold bind at 1, scan. simpl.
  change (List.filter _ (all_items w0)) with (selected data_type w).
  pose proof (index_loop_settles data_type (selected data_type w) 0 w0 metadata
                Hes Hin Hok) as Hset.
  unfold bind, ret.
  destruct (index_loop data_type (selected data_type w) 0 w0) as [w1 [n | e]];
    simpl in *; exact Hset.
Qed.

End IndexerState.

(** ** The record indexer: the entry a blob event leaves for an unknown id *)

Section StubRecords.

Context {Json : Type}.
Variable json_loads : string -> option Json.
Variable py_repr : Value -> string.
Variable cfg : Config.
Variable orc : Oracles.

#[local] Abbreviation World := (World Json).
#[local] Abbreviation index_s3_object := (Indexer.index_s3_object json_loads py_repr cfg orc).
#[local] Abbreviation index_by_id := (Indexer.index_by_id json_loads py_repr cfg orc).
#[local] Abbreviation get_content := (Query.get_content json_loads).

(** A record with no [s3Location] cannot be indexed by id ... *)
Lemma index_by_id_no_location data_id attrs (w : World) :
  table_items w !! data_id = Some attrs ->
  attrs !! "s3Location" = None ->
  (index_by_id data_id w).2 = Raise (KeyError "s3Location").
Proof.
  intros Hlk Hloc.
  unfold Indexer.index_by_id, Indexer.fetch_and_index, get_item, bind, lift, logger,
    parse_s3_location.
  simpl. rewrite Hlk. simpl. by rewrite Hloc.
Qed.

(** ... and its content cannot be retrieved. *)
Lemma get_content_no_location data_id attrs (w : World) :
  data_id <> "" ->
  table_items w !! data_id = Some attrs ->
  attrs !! "s3Location" = None ->
  (get_content (Some data_id) w).2 = Raise (KeyError "s3Location").
Proof.
  intros Hne Hlk Hloc.
  unfold Query.get_content, get_item, bind, lift, parse_s3_location, truthy.
  apply String.eqb_neq in Hne. rewrite Hne. simpl. rewrite Hlk. simpl. by rewrite Hloc.
Qed.

#[local] Arguments PyStr.lower : simpl never.
#[local] Arguments item_get : simpl never.
#[local] Arguments String.append : simpl never.

(** The table after a blob event for an id with no metadata entry. *)
Lemma index_s3_object_stub bucket key (w : World) content data :
  let data_id := OsPath.splitext_root (OsPath.basename key) in
  table_items w !! data_id = None ->
  s3_objects w !! (bucket, key) = Some content ->
  json_loads content = Some data ->
  index_accepts cfg orc "data-unknown" data_id = true ->
  ddb_write_ok orc data_id = true ->
  exists t,
    table_items (index_s3_object bucket key w).1 =
      <[data_id := <["indexedAt" := VStr t]> (<["indexed" := VBool true]> ∅)]>
        (table_items w).
Proof.
  intros data_id Hlk Hblob Hjson Hacc Hddb.
  unfold Indexer.index_s3_object, Indexer.index_in_elasticsearch, Indexer.mark_indexed,
    requests_put, update_item, get_item, s3_get_object, bind, perform, logger, now,
    ret, raise.
  simpl. rewrite Hblob. simpl. rewrite Hjson. simpl. fold data_id. rewrite Hlk. simpl.
  change (mkItem data_id {[ "s3Location" := VStr ("s3://" +:+ bucket +:+ "/" +:+ key) ]})
    with (synthesized bucket key).
  rewrite synthesized_data_type.
  change (PyStr.lower ("data-" +:+ Indexer.fmt py_repr (VStr "unknown")))
    with "data-unknown".
  unfold index_accepts in Hacc.
  change (PyStr.lower "data-unknown") with "data-unknown" in Hacc.
  destruct (truthy (ES_ENDPOINT cfg)); simpl in *.
  - unfold is_2xx in *. rewrite Hacc. simpl. rewrite Hacc. simpl. rewrite Hddb. simpl.
    rewrite Hlk. by eexists.
  - rewrite Hddb. simpl. rewrite Hlk. by eexists.
Qed.

(** X13: a blob event for an id with no metadata entry creates one in the
    table, holding the two indexing marks and nothing else (the update is an
    upsert).  The id is then found by lookups, but it has no [s3Location]:
    index-by-id and content retrieval for it raise [KeyError]. *)
Theorem blob_event_leaves_a_stub_record bucket key (w : World) content data :
  let data_id := OsPath.splitext_root (OsPath.basename key) in
  data_id <> "" ->
  table_items w !! data_id = None ->
  s3_objects w !! (bucket, key) = Some content ->
  json_loads content = Some data ->
  index_accepts cfg orc "data-unknown" data_id = true ->
  ddb_write_ok orc data_id = true ->
  let w' := (index_s3_object bucket key w).1 in
  (exists t,
     table_items w' !! data_id =
       Some (<["indexedAt" := VStr t]> (<["indexed" := VBool true]> ∅))) /\
  (index_by_id data_id w').2 = Raise (KeyError "s3Location") /\
  (get_content (Some data_id) w').2 = Raise (KeyError "s3Location").
Proof.
  intros data_id Hne Hlk Hblob Hjson Hacc Hddb w'.
  destruct (index_s3_object_stub bucket key w content data Hlk Hblob Hjson Hacc Hddb)
    as [t Ht].
  fold w' in Ht.
  assert (Hstub : table_items w' !! data_id =
                    Some (<["indexedAt" := VStr t]> (<["indexed" := VBool true]> ∅)))
    by (by rewrite Ht, lookup_insert_eq).
  assert (Hloc : (<["indexedAt" := VStr t]> (<["indexed" := VBool true]> ∅)
                    : gmap string Value) !! "s3Location" = None)
    by (by rewrite !lookup_insert_ne).
  split; [eauto |]. split.
  - by eapply index_by_id_no_location.
  - by eapply get_content_no_location.
Qed.

End StubRecords.

(** ** Keys and file names *)

Lemma append_nil (b : string) : "" +:+ b = b.
Proof. reflexivity. Qed.

Lemma append_cons x (a b : string) : String x a +:+ b = String x (a +:+ b).
Proof. reflexivity. Qed.

Lemma append_assoc (a b c : string) : (a +:+ b) +:+ c = a +:+ (b +:+ c).
Proof. induction a as [| x a IH]; rewrite ?append_nil, ?append_cons; [done | by f_equal]. Qed.

Lemma length_append (a b : string) :
  String.length (a +:+ b) = (String.length a + String.length b)%nat.
Proof.
  induction a as [| x a IH]; rewrite ?append_nil, ?append_cons; [done |].
  cbn [String.length]. by rewrite IH.
Qed.

Lemma contains_char_append c (a b : string) :
  PyStr.contains_char c (a +:+ b) = PyStr.contains_char c a || PyStr.contains_char c b.
Proof.
  induction a as [| x a IH]; rewrite ?append_nil, ?append_cons; [done |].
  cbn [PyStr.contains_char]. by rewrite IH, orb_assoc.
Qed.

Lemma rfind_from_absent c s i acc :
  PyStr.contains_char c s = false -> PyStr.rfind_from c s i acc = acc.
Proof.
  revert i acc. induction s as [| d s IH]; intros i acc; simpl; [done |].
  intros H. apply orb_false_iff in H as [Hd Hs]. rewrite Hd. by apply IH.
Qed.

Lemma rfind_from_last c (x y : string) i acc :
  PyStr.contains_char c y = false ->
  PyStr.rfind_from c (x +:+ String c y) i acc = i + Z.of_nat (String.length x).
Proof.
  intros Hy. revert i acc. induction x as [| d x IH]; intros i acc.
  - rewrite append_nil. cbn [PyStr.rfind_from String.length].
    rewrite Ascii.eqb_refl, rfind_from_absent by done. lia.
  - rewrite append_cons. cbn [PyStr.rfind_from]. rewrite IH. cbn [String.length]. lia.
Qed.

(** The last occurrence of [c] is where the last piece without [c] starts. *)
Lemma rfind_last c (x y : string) :
  PyStr.contains_char c y = false ->
  PyStr.rfind c (x +:+ String c y) = Z.of_nat (String.length x).
Proof. intros Hy. unfold PyStr.rfind. by rewrite rfind_from_last. Qed.

Lemma slice_from_append (x y : string) : PyStr.slice_from (String.length x) (x +:+ y) = y.
Proof.
  induction x as [| d x IH]; rewrite ?append_nil, ?append_cons; [by destruct y | done].
Qed.

Lemma slice_to_append (x y : string) : PyStr.slice_to (String.length x) (x +:+ y) = x.
Proof.
  induction x as [| d x IH]; rewrite ?append_nil, ?append_cons;
    cbn [String.length PyStr.slice_to]; [by destruct y | by rewrite IH].
Qed.

(** [os.path.basename(dir + "/" + name) == name] for a [name] without a
    slash. *)
Lemma basename_join (dir name : string) :
  PyStr.contains_char "/" name = false ->
  OsPath.basename (dir +:+ "/" +:+ name) = name.
Proof.
  intros Hname. unfold OsPath.basename.
  change ("/" +:+ name) with (String "/" name).
  rewrite rfind_last by done.
  replace (Z.to_nat (Z.of_nat (String.length dir) + 1)) with (S (String.length dir)) by lia.
  change (String "/" name) with ("/" +:+ name). rewrite <- append_assoc.
  replace (S (String.length dir)) with (String.length (dir +:+ "/"))
    by (rewrite length_append; cbn [String.length]; lia).
  apply slice_from_append.
Qed.

(** [os.path.splitext(stem + "." + ext)[0] == stem] for a file name without
    a slash, an extension without a dot and a stem that is not all dots. *)
Lemma splitext_root_join (stem ext : string) :
  PyStr.contains_char "/" stem = false ->
  PyStr.contains_char "/" ext = false ->
  PyStr.contains_char "." ext = false ->
  PyStr.has_other_than "." stem = true ->
  OsPath.splitext_root (stem +:+ "." +:+ ext) = stem.
Proof.
  intros Hs He Hd Hstem. unfold OsPath.splitext_root.
  change ("." +:+ ext) with (String "." ext).
  assert (Hsep : PyStr.rfind "/" (stem +:+ String "." ext) = -1).
  { unfold PyStr.rfind. apply rfind_from_absent.
    rewrite contains_char_append. cbn [PyStr.contains_char]. by rewrite Hs, He. }
  rewrite Hsep, rfind_last by done.
  replace (Z.of_nat (String.length stem) >? -1) with true by (symmetry; apply Z.gtb_lt; lia).
  replace (Z.to_nat (Z.of_nat (String.length stem) - (-1 + 1))) with (String.length stem)
    by lia.
  change (Z.to_nat (-1 + 1)) with 0%nat. cbn [PyStr.slice_from].
  rewrite Nat2Z.id.
  assert (Hslice : PyStr.slice_to (String.length stem) (stem +:+ String "." ext) = stem)
    by apply slice_to_append.
  replace (PyStr.slice_from 0 (stem +:+ String "." ext)) with (stem +:+ String "." ext)
    by (by destruct (stem +:+ String "." ext)).
  by rewrite Hslice, Hstem.
Qed.

(** The file name of the key an ingested payload is stored under. *)
Lemma s3_key_basename py_repr data_type timestamp data_id :
  PyStr.contains_char "/" data_id = false ->
  OsPath.basename (Ingest.s3_key_of py_repr data_type timestamp data_id)
  = data_id +:+ ".json".
Proof.
  intros Hslash. unfold Ingest.s3_key_of.
  rewrite <- (append_assoc (Ingest.fmt py_repr data_type) "/" _).
  rewrite <- (append_assoc (Ingest.fmt py_repr data_type +:+ "/") (PyStr.slice_to 10 timestamp) _).
  apply basename_join.
  rewrite contains_char_append, Hslash. reflexivity.
Qed.

(** X14: the key the ingestor stores a payload under names its record: the
    file name without its extension, which is what the blob-event indexer
    takes for the record id, is the id the ingestor drew, provided the id has
    no slash and is not made of dots alone. *)
Theorem ingested_key_names_its_record py_repr data_type timestamp data_id :
  PyStr.contains_char "/" data_id = false ->
  PyStr.has_other_than "." data_id = true ->
  OsPath.splitext_root (OsPath.basename (Ingest.s3_key_of py_repr data_type timestamp data_id))
  = data_id.
Proof.
  intros Hslash Hdots.
  rewrite s3_key_basename by done.
  by apply splitext_root_join.
Qed.

(** ** The record ingestor: what a successful call stores *)

Section IngestRuns.

Context {Json : Type}.
Variable json_loads : string -> option Json.
Variable json_dumps : Json -> string.
Variable sample_json : Value -> nat -> Json.
Variable py_repr : Value -> string.
Variable cfg : Config.
Variable orc : Oracles.

#[local] Abbreviation World := (World Json).
#[local] Abbreviation lambda_handler := (Ingest.lambda_handler json_dumps sample_json py_repr cfg orc).

(** The request body of an event, when it decodes to a mapping. *)
Definition payload_of (event : Ingest.Event Json) : option (Ingest.Payload Json) :=
  match event with
  | Ingest.EvBody decoded => decoded
  | Ingest.EvDirect payload => Some payload
  end.

#[local] Arguments Ingest.metadata_item_of : simpl never.
#[local] Arguments Ingest.s3_key_of : simpl never.

(** A successful call, spelled out: the id and the time stamp it drew, the
    payload it serialized, and the two entries it stored. *)
Lemma ingest_success_shape event (w : World) resp :
  (lambda_handler event w).2 = Ok resp ->
  Ingest.statusCode resp = 200 ->
  exists body bucket n timestamp payload,
    payload_of event = Some body /\
    S3_BUCKET cfg = Some bucket /\
    (forall d, Ingest.data body = Some d -> payload = d) /\
    let data_id := uuid4 orc n in
    let data_type := default (VStr "unknown") (Ingest.fields body !! "dataType") in
    let source := default (VStr "api") (Ingest.fields body !! "source") in
    let owner := default (VStr "system") (Ingest.fields body !! "owner") in
    let s3_key := Ingest.s3_key_of py_repr data_type timestamp data_id in
    let data_content := json_dumps payload in
    let item :=
      Ingest.metadata_item_of cfg (Ingest.fields body) data_id timestamp data_type source
        owner s3_key data_content in
    resp = Ingest.mkResponse 200 true (Some data_id)
             (Some ("s3://" +:+ bucket +:+ "/" +:+ s3_key)) "Data successfully ingested" /\
    s3_objects (lambda_handler event w).1 = <[(bucket, s3_key) := data_content]> (s3_objects w) /\
    table_items (lambda_handler event w).1 = <[data_id := item_attrs item]> (table_items w) /\
    es_docs (lambda_handler event w).1 = es_docs w.
Proof.
  unfold Ingest.lambda_handler, try_except, Ingest.ingest, bind, logger, new_uuid, now, tick,
    s3_put_object, put_item, perform, ret, raise, Ingest.generate_sample_data,
    Ingest.s3_location_of.
  destruct event as [[body |] | body]; simpl;
    try (intros E Hc; inversion E; subst; discriminate);
    (destruct (Ingest.data body) as [d |] eqn:Hdata; simpl;
     destruct (S3_BUCKET cfg) as [bucket |] eqn:Hbucket; simpl;
     try (intros E Hc; inversion E; subst; discriminate);
     destruct (s3_put_ok _ _ _); simpl;
     try (intros E Hc; inversion E; subst; discriminate);
     destruct (ddb_write_ok _ _); simpl;
     try (intros E Hc; inversion E; subst; discriminate);
     intros E _; inversion E; subst; clear E;
     exists body, bucket; do 2 eexists;
     first [ exists d | eexists ];
     (split; [reflexivity |]); (split; [reflexivity |]);
     (split; [intros ? ?; congruence |]);
     repeat split; reflexivity).
Qed.

Lemma metadata_item_attrs body data_id timestamp data_type source owner s3_key data_content :
  let attrs :=
    item_attrs (Ingest.metadata_item_of cfg body data_id timestamp data_type source owner
                  s3_key data_content) in
  attrs !! "timestamp" = Some (VStr timestamp) /\
  attrs !! "dataType" = Some data_type /\
  attrs !! "source" = Some source /\
  attrs !! "owner" = Some owner /\
  attrs !! "sizeBytes" = Some (VNum (Z.of_nat (String.length data_content))) /\
  attrs !! "status" = Some (VStr "ingested") /\
  attrs !! "tags" = body !! "tags" /\
  attrs !! "description" = body !! "description" /\
  attrs !! "indexed" = None.
Proof.
  unfold Ingest.metadata_item_of. cbn [item_attrs].
  destruct (body !! "tags") as [tags |], (body !! "description") as [description |];
    repeat split;
    repeat (first [ rewrite lookup_insert_eq | rewrite lookup_insert_ne by done ]);
    done.
Qed.

(** X15: the metadata entry of a successful ingest describes the request and
    the blob: [dataType], [source] and [owner] are the request's, or
    [unknown], [api] and [system]; [sizeBytes] is the length of the blob
    stored under the returned location; [status] is [ingested]; [tags] and
    [description] are there exactly when the request had them; the blob is
    the serialized payload of the request; and the new entry is not marked
    as indexed. *)
Theorem ingest_metadata_describes_the_blob event (w : World) resp :
  (lambda_handler event w).2 = Ok resp ->
  Ingest.statusCode resp = 200 ->
  let w' := (lambda_handler event w).1 in
  exists body bucket key data_id attrs content,
    payload_of event = Some body /\
    S3_BUCKET cfg = Some bucket /\
    Ingest.dataId resp = Some data_id /\
    Ingest.s3Location resp = Some ("s3://" +:+ bucket +:+ "/" +:+ key) /\
    table_items w' !! data_id = Some attrs /\
    s3_objects w' !! (bucket, key) = Some content /\
    (forall d, Ingest.data body = Some d -> content = json_dumps d) /\
    attrs !! "dataType" = Some (default (VStr "unknown") (Ingest.fields body !! "dataType")) /\
    attrs !! "source" = Some (default (VStr "api") (Ingest.fields body !! "source")) /\
    attrs !! "owner" = Some (default (VStr "system") (Ingest.fields body !! "owner")) /\
    attrs !! "sizeBytes" = Some (VNum (Z.of_nat (String.length content))) /\
    attrs !! "status" = Some (VStr "ingested") /\
    attrs !! "tags" = Ingest.fields body !! "tags" /\
    attrs !! "description" = Ingest.fields body !! "description" /\
    attrs !! "indexed" = None.
Proof.
  intros Hres Hcode w'.
  destruct (ingest_success_shape event w resp Hres Hcode)
    as (body & bucket & n & timestamp & payload & Hbody & Hbucket & Hpayload & Hshape).
  cbv zeta in Hshape. destruct Hshape as (-> & Hs3 & Htable & _).
  fold w' in Hs3, Htable.
  match type of Htable with
  | _ = <[_ := item_attrs (Ingest.metadata_item_of _ ?b ?i ?t ?dt ?s ?o ?k ?c)]> _ =>
      pose proof (metadata_item_attrs b i t dt s o k c) as Hattrs
  end.
  cbv zeta in Hattrs.
  destruct Hattrs as (_ & Hdt & Hsrc & Hown & Hsize & Hstatus & Htags & Hdesc & Hidx).
  do 6 eexists.
  split; [exact Hbody |]. split; [exact Hbucket |].
  split; [reflexivity |]. split; [reflexivity |].
  split; [by rewrite Htable, lookup_insert_eq |].
  split; [by rewrite Hs3, lookup_insert_eq |].
  split; [intros d Hd; by rewrite (Hpayload d Hd) |].
  by repeat split.
Qed.

(** X16: the ingestor always answers, and a failed call stores no metadata
    entry: the answer is 200, or it is 500 with [success = false] and no id
    or location, the table is as it was, and the blob store is as it was
    too unless the blob had been written and the table then refused the
    entry, in which case that one blob is left behind. *)
Theorem failed_ingest_stores_no_record event (w : World) :
  let w' := (lambda_handler event w).1 in
  exists resp,
    (lambda_handler event w).2 = Ok resp /\
    (Ingest.statusCode resp = 200 \/
     (Ingest.statusCode resp = 500 /\ Ingest.success resp = false /\
      Ingest.dataId resp = None /\ Ingest.s3Location resp = None /\
      table_items w' = table_items w /\ es_docs w' = es_docs w /\
      (s3_objects w' = s3_objects w \/
       exists bucket key content n,
         S3_BUCKET cfg = Some bucket /\
         ddb_write_ok orc (uuid4 orc n) = false /\
         s3_objects w' = <[(bucket, key) := content]> (s3_objects w)))).
Proof.
  unfold Ingest.lambda_handler, try_except, Ingest.ingest, bind, logger, new_uuid, now, tick,
    s3_put_object, put_item, perform, ret, raise, Ingest.generate_sample_data.
  destruct event as [[body |] | body]; simpl;
    try (eexists; split; [reflexivity |]; right; repeat split; by left);
    (destruct (Ingest.data body) as [d |]; simpl;
     destruct (S3_BUCKET cfg) as [bucket |] eqn:Hbucket; simpl;
     try (eexists; split; [reflexivity |]; right; repeat split; by left);
     destruct (s3_put_ok _ _ _); simpl;
     try (eexists; split; [reflexivity |]; right; repeat split; by left);
     (destruct (ddb_write_ok _ _) eqn:Hddb; simpl;
      [ eexists; split; [reflexivity |]; by left
      | eexists; split; [reflexivity |]; right; repeat split;
        right; do 3 eexists; exists (ticks w); split; [reflexivity |]; split;
        [exact Hddb | reflexivity] ])).
Qed.

End IngestRuns.

(** ** From ingest to the index: the two ways a stored record gets indexed *)

Section IngestThenIndex.

Context {Json : Type}.
Variable json_loads : string -> option Json.
Variable json_dumps : Json -> string.
Variable sample_json : Value -> nat -> Json.
Variable py_repr : Value -> string.
Variable cfg : Config.
Variable orc : Oracles.

#[local] Abbreviation World := (World Json).
#[local] Abbreviation ingest_handler := (Ingest.lambda_handler json_dumps sample_json py_repr cfg orc).
#[local] Abbreviation index_s3_object := (Indexer.index_s3_object json_loads py_repr cfg orc).
#[local] Abbreviation index_by_id := (Indexer.index_by_id json_loads py_repr cfg orc).
#[local] Abbreviation can_index := (indexable json_loads py_repr cfg orc).

#[local] Arguments PyStr.lower : simpl never.
#[local] Arguments item_get : simpl never.





End IngestThenIndex.

(** ** The raw-file indexer: index names and processed keys *)

Lemma split_nonempty sep s : PyStr.split sep s <> [].
Proof.
  destruct s as [| c s]; cbn [PyStr.split]; [discriminate |].
  destruct (Ascii.eqb c sep); [discriminate |]. destruct (PyStr.split sep s); discriminate.
Qed.

(** Splitting after a first piece that has no separator. *)
Lemma split_append sep (a b : string) :
  PyStr.contains_char sep a = false ->
  PyStr.split sep (a +:+ String sep b) = a :: PyStr.split sep b.
Proof.
  induction a as [| c a IH]; intros Ha.
  - rewrite append_nil. cbn [PyStr.split]. by rewrite Ascii.eqb_refl.
  - rewrite append_cons. cbn [PyStr.split PyStr.contains_char] in *.
    apply orb_false_iff in Ha as [Hc Ha]. rewrite Hc, IH by done. reflexivity.
Qed.

Lemma split_absent sep (a : string) :
  PyStr.contains_char sep a = false -> PyStr.split sep a = [a].
Proof.
  induction a as [| c a IH]; intros Ha; cbn [PyStr.split PyStr.contains_char] in *; [done |].
  apply orb_false_iff in Ha as [Hc Ha]. by rewrite Hc, IH.
Qed.

Lemma prefix_dash c s :
  String.prefix "-" (String c s) = Ascii.eqb c "-".
Proof.
  cbn [String.prefix]. destruct (ascii_dec "-" c) as [<- | Hne].
  - rewrite Ascii.eqb_refl. by destruct s.
  - symmetry. apply Ascii.eqb_neq. congruence.
Qed.

(** After [replace('-', '_')] no dash is left. *)
Lemma replace_dash_clean s :
  PyStr.contains_char "-" (PyStr.replace "-" "_" s) = false.
Proof.
  unfold PyStr.replace. induction s as [| c s IH]; [done |].
  cbn [PyStr.replace_aux]. rewrite prefix_dash.
  destruct (Ascii.eqb c "-") eqn:Hc.
  - cbn [String.length Nat.sub]. rewrite contains_char_append, IH. reflexivity.
  - cbn [PyStr.contains_char]. by rewrite Hc, IH.
Qed.

(** A text in which [old] does not occur is left as it is. *)
Lemma replace_absent old new s :
  PyStr.contains old s = false -> PyStr.replace old new s = s.
Proof.
  unfold PyStr.replace. induction s as [| c s IH]; [done |].
  cbn [PyStr.contains PyStr.replace_aux]. intros H.
  apply orb_false_iff in H as [Hp Hs]. rewrite Hp. by rewrite IH.
Qed.

Section RawNames.

Variable cfg : Config.

(** X19: the index a raw file goes to.  For a key [raw/<name>/<file>] the
    dataset is [<name>] in lower case, whatever the file is called; for a
    two-segment key [<dir>/<stem>.<ext>] it is the file's stem in lower
    case; and the index name, the dataset followed by the environment tag,
    never holds a dash. *)
Theorem raw_file_index_name :
  (forall name file,
     PyStr.contains_char "/" name = false ->
     let key := "raw/" +:+ name +:+ "/" +:+ file in
     RawIndexer.dataset_name_of key (PyStr.split "/" key) = PyStr.lower name) /\
  (forall dir stem ext,
     PyStr.contains_char "/" dir = false ->
     PyStr.contains_char "/" stem = false ->
     PyStr.contains_char "/" ext = false ->
     PyStr.contains_char "." ext = false ->
     PyStr.has_other_than "." stem = true ->
     let key := dir +:+ "/" +:+ stem +:+ "." +:+ ext in
     RawIndexer.dataset_name_of key (PyStr.split "/" key) = PyStr.lower stem) /\
  (forall dataset_name,
     PyStr.contains_char "-" (RawIndexer.index_name_of cfg dataset_name) = false).
Proof.
  split; [| split].
  - intros name file Hname key. unfold RawIndexer.dataset_name_of. subst key.
    change ("raw/" +:+ name +:+ "/" +:+ file) with ("raw" +:+ String "/" (name +:+ String "/" file)).
    rewrite split_append by done. rewrite split_append by done.
    destruct (PyStr.split "/" file) as [| p ps] eqn:Hsplit; [by apply split_nonempty in Hsplit |].
    reflexivity.
  - intros dir stem ext Hdir Hstem Hext Hdot Hother key.
    unfold RawIndexer.dataset_name_of. subst key.
    assert (Hfile : PyStr.contains_char "/" (stem +:+ "." +:+ ext) = false).
    { rewrite contains_char_append, Hstem. change ("." +:+ ext) with (String "." ext).
      cbn [PyStr.contains_char]. by rewrite Hext. }
    change ("/" +:+ stem +:+ "." +:+ ext) with (String "/" (stem +:+ "." +:+ ext)).
    rewrite split_append, split_absent by done.
    cbn [length Nat.leb andb].
    change (String "/" (stem +:+ "." +:+ ext)) with ("/" +:+ stem +:+ "." +:+ ext).
    by rewrite basename_join, splitext_root_join.
  - intros dataset_name. unfold RawIndexer.index_name_of. apply replace_dash_clean.
Qed.

End RawNames.

(** ** The raw-file indexer: one file through [process_file] *)

Section RawFiles.

Context {Json : Type}.
Variable pd : RawIndexer.Pandas.
Variable unquote_plus : string -> string.
Variable cfg : Config.
Variable orc : Oracles.

#[local] Abbreviation World := (World Json).
#[local] Abbreviation M := (M Json).
#[local] Abbreviation logged := (RawIndexer.logged (Json := Json)).
#[local] Abbreviation bulk := (RawIndexer.bulk (Json := Json) orc).
#[local] Abbreviation index_data := (RawIndexer.index_data (Json := Json) orc).
#[local] Abbreviation create_index_if_not_exists :=
  (RawIndexer.create_index_if_not_exists (Json := Json)).
#[local] Abbreviation read_file_content := (RawIndexer.read_file_content (Json := Json) pd).
#[local] Abbreviation process_file := (RawIndexer.process_file (Json := Json) pd cfg orc).
#[local] Abbreviation lambda_handler :=
  (RawIndexer.lambda_handler (Json := Json) pd unquote_plus cfg orc).

Lemma logged_ok {A} prefix (m : M A) w w' a :
  m w = (w', Ok a) -> logged prefix m w = (w', Ok a).
Proof. intros E. unfold RawIndexer.logged, try_except. by rewrite E. Qed.

Lemma logged_raise {A} prefix (m : M A) w w' e :
  m w = (w', Raise e) ->
  logged prefix m w = ((logger ERROR (prefix +:+ exn_str e) w').1, Raise e).
Proof. intros E. unfold RawIndexer.logged, try_except. by rewrite E. Qed.

(** The frame with its [processed_timestamp] column. *)
Definition stamped (t : string) (df : RawIndexer.DataFrame) : RawIndexer.DataFrame :=
  (fun row => <["processed_timestamp" := VStr t]> row) <$> df.

(** The index refuses every row. *)
Definition refuses (index_name : string) : Prop :=
  forall doc_id, is_2xx (es_put_status orc index_name doc_id) = false.

Lemma bulk_run index_name i records (w : World) :
  exists w' statuses,
    bulk index_name i records w = (w', Ok statuses) /\
    s3_objects w' = s3_objects w /\ table_items w' = table_items w /\
    (refuses index_name -> es_docs w' = es_docs w /\ trace w' = trace w).
Proof.
  revert i w. induction records as [| record records IH]; intros i w;
    cbn [RawIndexer.bulk].
  - exists w, []. by repeat split.
  - unfold bind at 1, requests_put.
    destruct (is_2xx (es_put_status orc index_name (pretty i))) eqn:Hst.
    + unfold bind at 1, perform, ret. cbn [apply_effect].
      set (w1 := mkWorld _ _ _ _ _ _ _).
      destruct (IH (S i) w1) as (w2 & statuses & E & S2 & T2 & _).
      unfold bind at 1. rewrite E. do 2 eexists. split; [reflexivity |].
      split; [exact S2 |]. split; [exact T2 |].
      intros Href. by rewrite Href in Hst.
    + unfold ret at 1.
      destruct (IH (S i) w) as (w2 & statuses & E & S2 & T2 & R2).
      unfold bind at 1. rewrite E. do 2 eexists. split; [reflexivity |].
      split; [done |]. split; [done |]. exact R2.
Qed.

Lemma for_each_logger {A} (l : list A) lvl msg (w : World) :
  exists w',
    for_each l (fun _ => logger lvl msg) w = (w', Ok tt) /\ untouched w w'.
Proof.
  revert w. induction l as [| x l IH]; intros w; cbn [for_each].
  - exists w. split; [done | reflexivity].
  - unfold bind, logger at 1. set (w1 := mkWorld _ _ _ _ _ _ _).
    destruct (IH w1) as (w2 & E & U). exists w2. split; [exact E |].
    etrans; [| exact U]. by repeat split.
Qed.

(** The run of [index_data]: the stamped frame and its length come back,
    whatever the index answered. *)
Lemma index_data_run index_name df (w : World) :
  exists w' t,
    index_data index_name df w = (w', Ok (stamped t df, length df)) /\
    s3_objects w' = s3_objects w /\ table_items w' = table_items w /\
    (refuses index_name -> es_docs w' = es_docs w /\ trace w' = trace w).
Proof.
  unfold RawIndexer.index_data.
  assert (Hlen : length (stamped (clock orc (ticks w)) df) = length df)
    by (unfold stamped; by rewrite length_fmap).
  match goal with
  | |- context [RawIndexer.logged ?p ?m w] =>
      assert (Hrun : exists w',
                 m w = (w', Ok (stamped (clock orc (ticks w)) df, length df)) /\
                 s3_objects w' = s3_objects w /\ table_items w' = table_items w /\
                 (refuses index_name -> es_docs w' = es_docs w /\ trace w' = trace w))
  end.
  { unfold bind at 1, now.
    fold (stamped (clock orc (ticks w)) df). rewrite <- Hlen.
    destruct (stamped (clock orc (ticks w)) df) as [| row rows].
    - eexists. split; [reflexivity |]. by repeat split.
    - destruct (bulk_run index_name 0 (row :: rows) (tick w))
        as (w1 & statuses & E1 & S1 & T1 & R1).
      unfold bind at 1. rewrite E1.
      destruct (for_each_logger (List.filter (fun status => negb (is_2xx status)) statuses)
                  ERROR "Error indexing document" w1) as (w2 & E2 & T2 & S2 & M2 & D2 & _).
      unfold bind at 1. rewrite E2.
      unfold bind, logger, ret. eexists. split; [reflexivity |]. cbn [s3_objects table_items es_docs trace].
      split; [by rewrite S2, S1 |]. split; [by rewrite M2, T1 |].
      intros Href. destruct (R1 Href) as [D1 Tr1]. by rewrite D2, T2, D1, Tr1. }
  destruct Hrun as (w' & E & Hs & Ht & Hr).
  exists w', (clock orc (ticks w)). split; [apply logged_ok; exact E |]. auto.
Qed.

(** X20: [index_data] never fails and reports the number of rows of the
    file, not the number of documents the index took: even when the index
    refuses every row, so that no document is stored, [records_indexed] is
    the row count. *)
Theorem index_data_counts_rows index_name df (w : World) :
  exists w' t,
    index_data index_name df w = (w', Ok (stamped t df, length df)) /\
    (refuses index_name -> es_docs w' = es_docs w /\ trace w' = trace w) /\
    s3_objects w' = s3_objects w /\ table_items w' = table_items w.
Proof.
  destruct (index_data_run index_name df w) as (w' & t & E & Hs & Ht & Hr).
  exists w', t. split; [exact E |]. split; [exact Hr |]. split; [exact Hs | exact Ht].
Qed.

(** Creating the index only adds the index, and only when it is new. *)
Lemma create_index_run index_name (w : World) :
  exists w',
    create_index_if_not_exists index_name w = (w', Ok tt) /\
    s3_objects w' = s3_objects w /\ table_items w' = table_items w /\
    es_docs w' = es_docs w /\
    trace w' =
      (trace w ++ if bool_decide (index_name ∈ es_indices w) then []
                  else [CreateIndex index_name])%list.
Proof.
  unfold RawIndexer.create_index_if_not_exists, RawIndexer.logged, try_except.
  destruct (bool_decide (index_name ∈ es_indices w)).
  - exists w. by rewrite app_nil_r.
  - unfold bind, logger, perform, ret. cbn [apply_effect]. eexists. by repeat split.
Qed.

(** The index a key is filed under. *)
Definition index_of (key : string) : string :=
  RawIndexer.index_name_of cfg (RawIndexer.dataset_name_of key (PyStr.split "/" key)).

Lemma get_opensearch_endpoint_found endpoint (w : World) :
  describe_domain orc (OPENSEARCH_DOMAIN_NAME cfg) = Some endpoint ->
  RawIndexer.get_opensearch_endpoint cfg orc w = (w, Ok ("https://" +:+ endpoint)).
Proof.
  intros H. unfold RawIndexer.get_opensearch_endpoint. rewrite H. by apply logged_ok.
Qed.

(** A record the handler passes on to [process_file]. *)
Definition processable (record : RawIndexer.EventRecord) : Prop :=
  RawIndexer.eventSource record = Some "aws:s3" /\
  PyStr.startswith "ObjectCreated:" (default "" (RawIndexer.eventName record)) = true /\
  PyStr.endswith "/" (unquote_plus (RawIndexer.object_key record)) = false /\
  (2 <= length (PyStr.split "/" (unquote_plus (RawIndexer.object_key record))))%nat.

(** X21: when the search domain cannot be found, the first record that
    reaches [process_file] ends the invocation: the handler answers 500 with
    the service's error, nothing has been written, and the records after it
    are not looked at. *)
Theorem missing_domain_is_500 record rest (w : World) :
  processable record ->
  describe_domain orc (OPENSEARCH_DOMAIN_NAME cfg) = None ->
  exists w',
    lambda_handler (record :: rest) w =
      (w', Ok (RawIndexer.mkResponse 500
                 ("Error: " +:+ exn_str (ClientError "ResourceNotFoundException")))) /\
    untouched w w'.
Proof.
  intros (Hsrc & Hname & Hdir & Hdeep) Hdomain.
  unfold RawIndexer.lambda_handler. unfold bind at 1, logger at 1.
  set (w0 := mkWorld _ _ _ _ _ _ _).
  assert (Hfile : exists w1,
             process_file (RawIndexer.bucket_name record)
               (unquote_plus (RawIndexer.object_key record))
               (logger INFO ("Processing file: s3://" +:+ RawIndexer.bucket_name record +:+ "/"
                             +:+ unquote_plus (RawIndexer.object_key record)) w0).1 =
               (w1, Raise (ClientError "ResourceNotFoundException")) /\
             untouched w w1).
  { unfold RawIndexer.process_file.
    apply Nat.ltb_ge in Hdeep. rewrite Hdeep.
    eexists. split.
    - erewrite logged_raise; [reflexivity |].
      unfold bind at 1, RawIndexer.get_opensearch_endpoint. rewrite Hdomain.
      erewrite logged_raise; reflexivity.
    - by repeat split. }
  destruct Hfile as (w1 & E1 & U1).
  unfold try_except, bind at 1. cbn [for_each].
  unfold bind at 1, RawIndexer.handle_record.
  rewrite Hsrc, Hname, bool_decide_eq_true_2 by done. cbn [andb].
  unfold bind at 1. rewrite Hdir.
  change ((logger INFO ("Processing file: s3://" +:+ RawIndexer.bucket_name record +:+ "/"
                        +:+ unquote_plus (RawIndexer.object_key record)) w0))
    with (((logger INFO ("Processing file: s3://" +:+ RawIndexer.bucket_name record +:+ "/"
                        +:+ unquote_plus (RawIndexer.object_key record)) w0).1, Ok tt)
          : World * Res unit).
  cbv iota beta. unfold bind at 1. rewrite E1.
  unfold bind, logger, ret. eexists. split; [reflexivity |].
  destruct U1 as (T & S & Mt & D & I). by repeat split.
Qed.

(** X22: a file of an unsupported type still costs an index: with the
    domain in place and the object readable, [process_file] creates the
    index of the key if it is new, then returns nothing, storing no document
    and no processed copy. *)
Theorem unsupported_file_only_creates_the_index bucket key endpoint content (w : World) :
  (2 <= length (PyStr.split "/" key))%nat ->
  describe_domain orc (OPENSEARCH_DOMAIN_NAME cfg) = Some endpoint ->
  RawIndexer.detect_file_type key = RawIndexer.unknown ->
  s3_objects w !! (bucket, key) = Some content ->
  exists w',
    process_file bucket key w = (w', Ok None) /\
    trace w' =
      (trace w ++ if bool_decide (index_of key ∈ es_indices w) then []
                  else [CreateIndex (index_of key)])%list /\
    s3_objects w' = s3_objects w /\ es_docs w' = es_docs w.
Proof.
  intros Hdeep Hdomain Htype Hblob.
  destruct (create_index_run (index_of key) w) as (w1 & E1 & S1 & T1 & D1 & Tr1).
  unfold RawIndexer.process_file.
  apply Nat.ltb_ge in Hdeep. rewrite Hdeep.
  eexists. split.
  - apply logged_ok.
    unfold bind at 1. rewrite (get_opensearch_endpoint_found endpoint) by done.
    unfold bind at 1. fold (index_of key). rewrite E1.
    unfold bind at 1, RawIndexer.read_file_content. rewrite Htype.
    erewrite logged_ok; cycle 1.
    { unfold bind at 1, s3_get_object. rewrite S1, Hblob.
      unfold bind, logger, ret. reflexivity. }
    reflexivity.
  - cbn [trace s3_objects es_docs]. by rewrite Tr1, S1, D1.
Qed.

Lemma put_marker_run bucket key body (w : World) :
  exists w',
    try_except (s3_put_object orc (Some bucket) key body)
      (fun e => logger WARNING ("Error creating directory: " +:+ exn_str e)) w = (w', Ok tt).
Proof.
  unfold try_except, s3_put_object. destruct (s3_put_ok orc bucket key).
  - unfold perform. by eexists.
  - unfold raise, logger. by eexists.
Qed.

(** X23: a file whose key holds no [raw/] is processed in place: the
    processed key is the key itself, so the copy with the added time-stamp
    column is written over the object that was just read. *)
Theorem processed_copy_overwrites_the_source bucket key endpoint content df (w : World) :
  (2 <= length (PyStr.split "/" key))%nat ->
  describe_domain orc (OPENSEARCH_DOMAIN_NAME cfg) = Some endpoint ->
  PyStr.endswith ".csv" key = true ->
  PyStr.contains "raw/" key = false ->
  s3_objects w !! (bucket, key) = Some content ->
  RawIndexer.read_csv pd content = Some df ->
  s3_put_ok orc bucket key = true ->
  exists w' t,
    process_file bucket key w =
      (w', Ok (Some (RawIndexer.mkProcessed key (index_of key) (length df) key))) /\
    s3_objects w' !! (bucket, key) = Some (RawIndexer.to_csv pd (stamped t df)).
Proof.
  intros Hdeep Hdomain Hcsv Hraw Hblob Hread Hput.
  destruct (create_index_run (index_of key) w) as (w1 & E1 & S1 & _).
  destruct (index_data_run (index_of key) df w1) as (w2 & t & E2 & _).
  set (directory := OsPath.dirname key).
  assert (Hmarker : exists w3,
             (if negb (String.eqb directory "") then
                try_except (s3_put_object orc (Some bucket) (directory +:+ "/") "")
                  (fun e => logger WARNING ("Error creating directory: " +:+ exn_str e))
              else ret tt) w2 = (w3, Ok tt)).
  { destruct (negb _); [apply put_marker_run | by eexists]. }
  destruct Hmarker as (w3 & E3).
  unfold RawIndexer.process_file.
  apply Nat.ltb_ge in Hdeep. rewrite Hdeep.
  rewrite (replace_absent "raw/" "processed/" key Hraw). fold directory.
  do 2 eexists. split.
  - apply logged_ok.
    unfold bind at 1. rewrite (get_opensearch_endpoint_found endpoint) by done.
    unfold bind at 1. fold (index_of key). rewrite E1.
    unfold bind at 1, RawIndexer.read_file_content, RawIndexer.detect_file_type.
    rewrite Hcsv.
    erewrite logged_ok; cycle 1.
    { unfold bind at 1, s3_get_object. rewrite S1, Hblob, Hread. reflexivity. }
    unfold bind at 1. rewrite E2. cbn [fst snd].
    unfold bind at 1. rewrite E3.
    unfold bind at 1, RawIndexer.save_processed. rewrite Hcsv.
    unfold s3_put_object. rewrite Hput. unfold perform.
    unfold bind, logger, ret. reflexivity.
  - cbn [s3_objects apply_effect]. by rewrite lookup_insert_eq.
Qed.

End RawFiles.

(** ** Worked instances *)

Import Fixture.

(** C2 at work: of the two [sales] records one has lost its blob; bulk
    indexing reports 2 selected and 1 indexed. *)
Lemma batch_indexing_witness :
  (forall index_name document_id, index_accepts cfg orc index_name document_id = true) /\
  (forall data_id, ddb_write_ok orc data_id = true) /\
  exists w',
    Indexer.bulk_index_by_type json_loads py_repr cfg orc (VStr "sales") mixed_world =
      (w', Ok (mkResponse 200 (BodyBulk true "Bulk indexing completed" 2 1))).
Proof.
  split; [intros; reflexivity |]. split; [intros; reflexivity |].
  destruct (batch_indexing_is_partial_failure_tolerant json_loads py_repr cfg orc mixed_world)
    as [Hbulk _]; [intros; reflexivity | intros; reflexivity |].
  destruct (Hbulk (VStr "sales")) as (w' & E & _).
  exists w'. rewrite E. vm_compute. reflexivity.
Defined.



(** C4 at work: a search for [dataType = sales] over the two-record table
    returns records of that type only. *)
Lemma search_metadata_witness :
  Query.search_metadata (Json := string) {[ "dataType" := VStr "sales" ]} mixed_world =
    (mixed_world,
     Ok (Query.RItems 2 (List.filter
                           (Query.eval_cond (Query.CEq "dataType" (VStr "sales")))
                           (all_items mixed_world)))) /\
  forall it,
    it ∈ List.filter (Query.eval_cond (Query.CEq "dataType" (VStr "sales")))
                     (all_items mixed_world) ->
    Query.item_lookup it "dataType" = Some (VStr "sales").
Proof.
  assert (E : Query.search_metadata (Json := string) {[ "dataType" := VStr "sales" ]}
                mixed_world =
              (mixed_world,
               Ok (Query.RItems 2 (List.filter
                                     (Query.eval_cond (Query.CEq "dataType" (VStr "sales")))
                                     (all_items mixed_world)))))
    by (vm_compute; reflexivity).
  split; [exact E |].
  intros it Hin.
  destruct (search_metadata_respects_criteria _ _ _ _ _ E) as (_ & _ & Hall).
  destruct (Hall it Hin) as (_ & (Hdt & _) & _).
  apply Hdt. reflexivity.
Defined.

(** C5 at work: an ingest into the empty world writes the blob and then the
    metadata entry. *)
Lemma blob_before_metadata_witness :
  reachable json_loads json_dumps sample_json py_repr cfg orc empty_world /\
  exists new,
    trace (Ingest.lambda_handler json_dumps sample_json py_repr cfg orc user_event
             empty_world).1 = new /\
    blob_first new /\ length new = 2%nat.
Proof.
  assert (Hreach : reachable json_loads json_dumps sample_json py_repr cfg orc empty_world)
    by (apply reachable_init; reflexivity).
  split; [exact Hreach |].
  destruct (blob_is_written_before_metadata json_loads json_dumps sample_json py_repr cfg orc
              empty_world user_event Hreach) as (new & Ht & Hshape & _).
  exists new. split; [exact Ht |]. split; [exact Hshape |].
  change (trace empty_world ++ new)%list with new in Ht. rewrite <- Ht.
  vm_compute. reflexivity.
Defined.



(** C7 (as the code has it) at work: record [r1] indexed twice leaves one
    document under [data-sales] / [r1]. *)
Lemma indexing_twice_witness :
  truthy (ES_ENDPOINT cfg) = true /\
  Indexer.index_by_id json_loads py_repr cfg orc "r1" sales_world =
    (indexed_once, Ok (mkResponse 200 (BodyMsg true "Successfully indexed data for ID: r1"))) /\
  Indexer.index_by_id json_loads py_repr cfg orc "r1" indexed_once =
    (indexed_twice, Ok (mkResponse 200 (BodyMsg true "Successfully indexed data for ID: r1"))) /\
  docs_for "data-sales" "r1" (es_docs indexed_twice) = 1%nat /\
  (es_docs indexed_twice).*1 = (es_docs indexed_once).*1 /\
  indexed_flag indexed_twice "r1" = Some (VBool true).
Proof.
  assert (E1 : Indexer.index_by_id json_loads py_repr cfg orc "r1" sales_world =
               (indexed_once,
                Ok (mkResponse 200 (BodyMsg true "Successfully indexed data for ID: r1"))))
    by (vm_compute; reflexivity).
  assert (E2 : Indexer.index_by_id json_loads py_repr cfg orc "r1" indexed_once =
               (indexed_twice,
                Ok (mkResponse 200 (BodyMsg true "Successfully indexed data for ID: r1"))))
    by (vm_compute; reflexivity).
  split; [reflexivity |]. split; [exact E1 |]. split; [exact E2 |].
  destruct (indexing_twice_is_idempotent json_loads py_repr cfg orc "r1" sales_world
              indexed_once indexed_twice _ _ E1 eq_refl E2 eq_refl)
    as (_ & Hset & _ & _ & Hflag).
  destruct (Hset eq_refl) as (_ & H2 & Hkeys).
  split; [exact H2 |]. split; [exact Hkeys | exact Hflag].
Defined.

(** C7 (as stated) fails: with the search endpoint unset, indexing [r1] twice
    answers 200 both times and sets [indexed = true], and the target index
    holds no document for [r1]. *)
Lemma indexing_twice_unset_endpoint_stores_nothing :
  ES_ENDPOINT cfg_no_endpoint = None /\
  Indexer.index_by_id json_loads py_repr cfg_no_endpoint orc "r1" sales_world =
    (flagged_once, Ok (mkResponse 200 (BodyMsg true "Successfully indexed data for ID: r1"))) /\
  Indexer.index_by_id json_loads py_repr cfg_no_endpoint orc "r1" flagged_once =
    (flagged_twice, Ok (mkResponse 200 (BodyMsg true "Successfully indexed data for ID: r1"))) /\
  indexed_flag flagged_once "r1" = Some (VBool true) /\
  indexed_flag flagged_twice "r1" = Some (VBool true) /\
  docs_for "data-sales" "r1" (es_docs flagged_once) = 0%nat /\
  docs_for "data-sales" "r1" (es_docs flagged_twice) = 0%nat /\
  es_docs flagged_twice = [].
Proof. repeat split; vm_compute; reflexivity. Qed.

(** C8 (as the code has it) at work: an unknown id gives the ordinary
    not-found result. *)
Lemma lookup_not_found_witness :
  "r9" <> "" /\ table_items sales_world !! "r9" = None /\
  Query.query_by_id (Some "r9") sales_world =
    (sales_world, Ok (Query.RFail "No item found with ID: r9")).
Proof.
  assert (Hne : "r9" <> "") by discriminate.
  split; [exact Hne |]. split; [reflexivity |].
  destruct (lookup_not_found_results json_loads py_repr orc) as [Habsent _].
  destruct (Habsent "r9" sales_world Hne eq_refl) as [Hq _]. exact Hq.
Defined.

(** C8 (as stated) fails: with the metadata of [r1] in place and its blob
    gone, [get_content] raises instead of returning a [success = false]
    result, and the handler answers 500. *)
Lemma get_content_missing_blob_raises :
  table_items lost_blob_world !! "r1" = Some (item_attrs sales_item) /\
  s3_objects lost_blob_world !! ("lake", "sales/2026-01-01/r1.json") = None /\
  (Query.get_content json_loads (Some "r1") lost_blob_world).2 =
    Raise (ClientError "NoSuchKey") /\
  (Query.lambda_handler json_loads py_repr orc
     (Query.mkEvent (Some {[ "type" := VStr "content"; "id" := VStr "r1" ]}) None)
     lost_blob_world).2 =
    Ok (Query.mkResponse 500 (Query.RFail "AWS error: NoSuchKey")).
Proof. repeat split; vm_compute; reflexivity. Qed.



(** C10 at work: the location stored for an ingested [user] payload reads
    back as the bucket and key the payload went to. *)
Lemma ingested_location_witness :
  user_run.2 = Ok (Ingest.mkResponse 200 true (Some "uuid-0")
                     (Some "s3://lake/user/2026-01-02/uuid-0.json")
                     "Data successfully ingested") /\
  S3_BUCKET cfg = Some "lake" /\
  PyStr.contains_char "/" "lake" = false /\
  exists attrs,
    table_items user_run.1 !! "uuid-0" = Some attrs /\
    parse_s3_location (mkItem "uuid-0" attrs) = Ok ("lake", "user/2026-01-02/uuid-0.json") /\
    s3_objects user_run.1 !! ("lake", "user/2026-01-02/uuid-0.json") = Some "{name}".
Proof.
  assert (E : user_run.2 = Ok (Ingest.mkResponse 200 true (Some "uuid-0")
                                 (Some "s3://lake/user/2026-01-02/uuid-0.json")
                                 "Data successfully ingested"))
    by (vm_compute; reflexivity).
  split; [exact E |]. split; [reflexivity |]. split; [reflexivity |].
  destruct (ingested_location_reads_back json_loads json_dumps sample_json py_repr cfg orc
              user_event empty_world _ "lake" E eq_refl eq_refl eq_refl)
    as (data_id & key & content & attrs & Hid & Hloc & Ht & Hlk & _ & Hparse & Hblob & _).
  simpl in Hid, Hloc. inversion Hid; subst data_id.
  assert (Hkey : key = "user/2026-01-02/uuid-0.json").
  { vm_compute in Hloc. by inversion Hloc. }
  subst key.
  assert (Hc : content = "{name}").
  { fold user_run in Hblob. vm_compute in Hblob. congruence. }
  subst content.
  exists attrs. by repeat split.
Defined.

(** ** Further worked instances *)

(** X2 at work: a search that gives [fromDate] alone returns the whole
    two-record table, unfiltered. *)
Lemma search_without_criteria_witness :
  ({[ "fromDate" := VStr "2026-01-01" ]} : gmap string Value) !! "dataType" = None /\
  ({[ "fromDate" := VStr "2026-01-01" ]} : gmap string Value) !! "toDate" = None /\
  exists items,
    Query.search_metadata (Json := string) {[ "fromDate" := VStr "2026-01-01" ]} mixed_world =
      (mixed_world, Ok (Query.RItems (length items) items)) /\
    length items = 2%nat.
Proof.
  split; [reflexivity |]. split; [reflexivity |].
  destruct (search_without_criteria_is_bounded (Json := string)
              {[ "fromDate" := VStr "2026-01-01" ]} mixed_world)
    as (items & E & Hitems & _); try reflexivity; [right; reflexivity |].
  exists items. split; [exact E |]. rewrite Hitems. vm_compute. reflexivity.
Defined.

(** X3 at work: a content request without an id. *)
Lemma query_missing_parameter_witness :
  Query.query_params_of (Query.mkEvent (Some {[ "type" := VStr "content" ]}) None) !! "type"
    = Some (VStr "content") /\
  Query.query_params_of (Query.mkEvent (Some {[ "type" := VStr "content" ]}) None) !! "id"
    = None /\
  (Query.lambda_handler json_loads py_repr orc
     (Query.mkEvent (Some {[ "type" := VStr "content" ]}) None) sales_world).2 =
    Ok (Query.mkResponse 500 (Query.RFail "Error processing query: ID parameter is required")).
Proof.
  split; [reflexivity |]. split; [reflexivity |].
  destruct (query_missing_parameter_is_500 json_loads py_repr orc
              (Query.mkEvent (Some {[ "type" := VStr "content" ]}) None) sales_world)
    as [Hid _].
  apply Hid; [right; reflexivity | reflexivity].
Defined.

(** X6 at work: the first of two blob records has no blob; the second is
    never reached. *)
Lemma records_stop_witness :
  s3_objects flat_key_world !! ("lake", "gone.json") = None /\
  exists w',
    Indexer.lambda_handler json_loads py_repr cfg orc
      (Indexer.EvRecords [Indexer.S3Record "lake" "gone.json";
                          Indexer.S3Record "lake" "abc.json"]) flat_key_world =
      (w', Ok (Indexer.error_response 500 "Indexing error: " (ClientError "NoSuchKey"))) /\
    trace w' = [] /\ es_docs w' = [].
Proof.
  split; [reflexivity |].
  destruct (records_stop_at_first_failure json_loads py_repr cfg orc "lake" "gone.json"
              [Indexer.S3Record "lake" "abc.json"] flat_key_world eq_refl)
    as (w' & E & Ht & _ & _ & Hd & _).
  exists w'. split; [exact E |]. split; [exact Ht | exact Hd].
Defined.

(** X7 at work: [r1] has lost its blob. *)
Lemma missing_blob_witness :
  table_items lost_blob_world !! "r1" = Some (item_attrs sales_item) /\
  parse_s3_location (mkItem "r1" (item_attrs sales_item)) =
    Ok ("lake", "sales/2026-01-01/r1.json") /\
  s3_objects lost_blob_world !! ("lake", "sales/2026-01-01/r1.json") = None /\
  (Indexer.lambda_handler json_loads py_repr cfg orc
     (Indexer.EvBody (Some {[ "id" := VStr "r1" ]})) lost_blob_world).2 =
    Ok (Indexer.error_response 400 "Invalid request: " (ClientError "NoSuchKey")) /\
  (Indexer.lambda_handler json_loads py_repr cfg orc
     (Indexer.EvDirect {[ "id" := VStr "r1" ]}) lost_blob_world).2 =
    Ok (Indexer.error_response 500 "Indexing error: " (ClientError "NoSuchKey")).
Proof.
  split; [reflexivity |]. split; [reflexivity |]. split; [reflexivity |].
  destruct (missing_blob_is_400_or_500 json_loads py_repr cfg orc "r1" (item_attrs sales_item)
              "lake" "sales/2026-01-01/r1.json" lost_blob_world eq_refl eq_refl eq_refl)
    as [Hapi Hdirect].
  split; [apply Hapi | apply Hdirect]; reflexivity.
Defined.

(** X9 at work: of the two [sales] records at most two are counted. *)
Lemma bulk_counts_witness :
  exists w' indexed,
    Indexer.bulk_index_by_type json_loads py_repr cfg orc (VStr "sales") mixed_world =
      (w', Ok (mkResponse 200 (BodyBulk true "Bulk indexing completed" 2 indexed))) /\
    (indexed <= 2)%nat.
Proof.
  destruct (bulk_counts_are_bounded json_loads py_repr cfg orc (VStr "sales") mixed_world)
    as (w' & indexed & E & Hle & _).
  exists w', indexed. split; [exact E | exact Hle].
Defined.

(** X10 at work: one record with a list for [dataType] stops reindex-all. *)
Lemma reindex_unhashable_witness :
  Exists (fun md => hashable (item_get md "dataType" (VStr "unknown")) = false)
         (all_items list_type_world) /\
  exists w',
    Indexer.lambda_handler json_loads py_repr cfg orc
      (Indexer.EvDirect {[ "reindexAll" := VBool true ]}) list_type_world =
      (w', Ok (Indexer.error_response 500 "Indexing error: " TypeError)) /\
    trace w' = [].
Proof.
  assert (Hex : Exists (fun md => hashable (item_get md "dataType" (VStr "unknown")) = false)
                       (all_items list_type_world)).
  { apply Exists_exists. exists (mkItem "r3" (<["dataType" := VList ["a"; "b"]]> ∅)).
    split; [vm_compute; left; reflexivity | reflexivity]. }
  split; [exact Hex |].
  destruct (reindex_all_aborts_on_unhashable_type json_loads py_repr cfg orc list_type_world Hex)
    as [_ Hhandler].
  destruct (Hhandler {[ "reindexAll" := VBool true ]} (VBool true))
    as (w' & E & Ht & _); try reflexivity.
  exists w'. split; [exact E | exact Ht].
Defined.

(** X11 at work: indexing [r1] by id keeps its location. *)
Lemma indexer_keeps_records_witness :
  table_items sales_world !! "r1" = Some (item_attrs sales_item) /\
  exists attrs',
    table_items (Indexer.lambda_handler json_loads py_repr cfg orc
                   (Indexer.EvDirect {[ "id" := VStr "r1" ]}) sales_world).1 !! "r1"
      = Some attrs' /\
    attrs' !! "s3Location" = Some (VStr "s3://lake/sales/2026-01-01/r1.json").
Proof.
  split; [reflexivity |].
  destruct (indexer_keeps_records json_loads py_repr cfg orc
              (Indexer.EvDirect {[ "id" := VStr "r1" ]}) sales_world "r1"
              (item_attrs sales_item) eq_refl)
    as (attrs' & Hlk & Hkeep & _).
  exists attrs'. split; [exact Hlk |].
  rewrite Hkeep by discriminate. reflexivity.
Defined.

(** X12 at work: after bulk indexing [sales] over the two-record table,
    [r1], whose blob is in place, is marked and has its one document. *)
Lemma bulk_settles_witness :
  truthy (ES_ENDPOINT cfg) = true /\
  sales_item ∈ selected (VStr "sales") mixed_world /\
  indexable json_loads py_repr cfg orc (s3_objects mixed_world) (VStr "sales") sales_item
    = true /\
  indexed_flag (Indexer.bulk_index_by_type json_loads py_repr cfg orc (VStr "sales")
                  mixed_world).1 "r1" = Some (VBool true) /\
  docs_for (data_index py_repr (VStr "sales")) "r1"
    (es_docs (Indexer.bulk_index_by_type json_loads py_repr cfg orc (VStr "sales")
                mixed_world).1) = 1%nat.
Proof.
  assert (Hin : sales_item ∈ selected (VStr "sales") mixed_world).
  { apply list_elem_of_In. vm_compute. repeat (first [left; reflexivity | right]). }
  split; [reflexivity |]. split; [exact Hin |]. split; [reflexivity |].
  exact (bulk_indexing_settles_records json_loads py_repr cfg orc (VStr "sales") mixed_world
           sales_item eq_refl Hin eq_refl).
Defined.

(** X13 at work: the blob event for [abc.json] leaves an entry [abc] that
    index-by-id cannot use. *)
Lemma stub_record_witness :
  OsPath.splitext_root (OsPath.basename "abc.json") <> "" /\
  table_items flat_key_world !! OsPath.splitext_root (OsPath.basename "abc.json") = None /\
  s3_objects flat_key_world !! ("lake", "abc.json") = Some "{}" /\
  json_loads "{}" = Some "{}" /\
  (Indexer.index_by_id json_loads py_repr cfg orc "abc"
     (Indexer.index_s3_object json_loads py_repr cfg orc "lake" "abc.json" flat_key_world).1).2
    = Raise (KeyError "s3Location").
Proof.
  assert (Hne : OsPath.splitext_root (OsPath.basename "abc.json") <> "")
    by (vm_compute; discriminate).
  split; [exact Hne |]. split; [reflexivity |]. split; [reflexivity |].
  split; [reflexivity |].
  destruct (blob_event_leaves_a_stub_record json_loads py_repr cfg orc "lake" "abc.json"
              flat_key_world "{}" "{}" Hne eq_refl eq_refl eq_refl eq_refl eq_refl)
    as (_ & Hid & _).
  exact Hid.
Defined.

(** X14 at work: the key of an ingested [user] payload. *)
Lemma ingested_key_witness :
  PyStr.contains_char "/" "uuid-0" = false /\
  PyStr.has_other_than "." "uuid-0" = true /\
  Ingest.s3_key_of py_repr (VStr "user") "2026-01-02T00:00:00" "uuid-0" =
    "user/2026-01-02/uuid-0.json" /\
  OsPath.splitext_root (OsPath.basename "user/2026-01-02/uuid-0.json") = "uuid-0".
Proof.
  split; [reflexivity |]. split; [reflexivity |]. split; [reflexivity |].
  exact (ingested_key_names_its_record py_repr (VStr "user") "2026-01-02T00:00:00" "uuid-0"
           eq_refl eq_refl).
Defined.

(** X15 at work: the entry stored for the ingested [user] payload. *)
Lemma ingest_metadata_witness :
  user_run.2 = Ok (Ingest.mkResponse 200 true (Some "uuid-0")
                     (Some "s3://lake/user/2026-01-02/uuid-0.json")
                     "Data successfully ingested") /\
  exists attrs,
    table_items user_run.1 !! "uuid-0" = Some attrs /\
    attrs !! "dataType" = Some (VStr "user") /\
    attrs !! "source" = Some (VStr "api") /\
    attrs !! "owner" = Some (VStr "system") /\
    attrs !! "sizeBytes" = Some (VNum 6) /\
    attrs !! "tags" = None.
Proof.
  assert (E : user_run.2 = Ok (Ingest.mkResponse 200 true (Some "uuid-0")
                                 (Some "s3://lake/user/2026-01-02/uuid-0.json")
                                 "Data successfully ingested"))
    by (vm_compute; reflexivity).
  split; [exact E |].
  destruct (ingest_metadata_describes_the_blob json_dumps sample_json py_repr cfg orc
              user_event empty_world _ E eq_refl)
    as (body & bucket & key & data_id & attrs & content & Hbody & _ & Hid & _ & Hlk & _
        & Hcontent & Hdt & Hsrc & Hown & Hsize & _ & Htags & _).
  simpl in Hid, Hbody. inversion Hid; subst data_id. inversion Hbody; subst body.
  rewrite (Hcontent "{name}" eq_refl) in Hsize.
  exists attrs. split; [exact Hlk |]. split; [exact Hdt |]. split; [exact Hsrc |].
  split; [exact Hown |]. split; [exact Hsize | exact Htags].
Defined.



(** X19 at work: a file uploaded under [raw/sales/] goes to the [sales]
    dataset. *)
Lemma raw_file_index_name_witness :
  PyStr.contains_char "/" "sales" = false /\
  RawIndexer.dataset_name_of "raw/sales/sales_20260101_000000.csv"
    (PyStr.split "/" "raw/sales/sales_20260101_000000.csv") = PyStr.lower "sales" /\
  PyStr.contains_char "-" (RawIndexer.index_name_of cfg "web-logs") = false.
Proof.
  destruct (raw_file_index_name cfg) as (Hraw & _ & Hclean).
  split; [reflexivity |]. split.
  - exact (Hraw "sales" "sales_20260101_000000.csv" eq_refl).
  - apply Hclean.
Defined.

(** X20 at work: the index refuses the one row of the file, and one row is
    reported. *)
Lemma index_data_counts_witness :
  refuses orc_refusing "sales_dev" /\
  exists w' t,
    RawIndexer.index_data (Json := string) orc_refusing "sales_dev" [{[ "a" := VNum 1 ]}]
      empty_world =
      (w', Ok (stamped t [{[ "a" := VNum 1 ]}], 1%nat)) /\
    es_docs w' = [].
Proof.
  assert (Href : refuses orc_refusing "sales_dev") by (intros doc_id; reflexivity).
  split; [exact Href |].
  destruct (index_data_counts_rows (Json := string) orc_refusing "sales_dev"
              [{[ "a" := VNum 1 ]}] empty_world)
    as (w' & t & E & Hquiet & _).
  destruct (Hquiet Href) as [Hdocs _].
  exists w', t. split; [exact E | exact Hdocs].
Defined.

(** X21 at work: no search domain, one raw file. *)
Lemma missing_domain_witness :
  processable unquote_plus raw_record /\
  describe_domain orc_no_domain (OPENSEARCH_DOMAIN_NAME cfg) = None /\
  exists w',
    RawIndexer.lambda_handler (Json := string) pandas unquote_plus cfg orc_no_domain
      [raw_record; raw_record] empty_world =
      (w', Ok (RawIndexer.mkResponse 500
                 ("Error: " +:+ exn_str (ClientError "ResourceNotFoundException")))) /\
    trace w' = [].
Proof.
  assert (Hrec : processable unquote_plus raw_record).
  { split; [reflexivity |]. split; [reflexivity |]. split; [reflexivity |].
    vm_compute. lia. }
  split; [exact Hrec |]. split; [reflexivity |].
  destruct (missing_domain_is_500 (Json := string) pandas unquote_plus cfg orc_no_domain
              raw_record [raw_record] empty_world Hrec eq_refl)
    as (w' & E & Ht & _).
  exists w'. split; [exact E | exact Ht].
Defined.

(** X22 at work: a text file creates the index [notes_dev] and nothing
    else. *)
Lemma unsupported_file_witness :
  (2 <= length (PyStr.split "/" "inbox/notes.txt"))%nat /\
  describe_domain orc (OPENSEARCH_DOMAIN_NAME cfg) = Some "os.example.com" /\
  RawIndexer.detect_file_type "inbox/notes.txt" = RawIndexer.unknown /\
  s3_objects inbox_world !! ("lake", "inbox/notes.txt") = Some "hello" /\
  exists w',
    RawIndexer.process_file pandas cfg orc "lake" "inbox/notes.txt" inbox_world = (w', Ok None) /\
    trace w' = [CreateIndex "notes_dev"].
Proof.
  assert (Hdeep : (2 <= length (PyStr.split "/" "inbox/notes.txt"))%nat)
    by (vm_compute; lia).
  split; [exact Hdeep |]. split; [reflexivity |]. split; [reflexivity |].
  split; [reflexivity |].
  destruct (unsupported_file_only_creates_the_index (Json := string) pandas cfg orc "lake"
              "inbox/notes.txt" "os.example.com" "hello" inbox_world Hdeep eq_refl eq_refl
              eq_refl)
    as (w' & E & Ht & _).
  exists w'. split; [exact E |]. rewrite Ht. vm_compute. reflexivity.
Defined.

(** X23 at work: [inbox/a.csv] is replaced by its processed copy. *)
Lemma processed_copy_witness :
  (2 <= length (PyStr.split "/" "inbox/a.csv"))%nat /\
  describe_domain orc (OPENSEARCH_DOMAIN_NAME cfg) = Some "os.example.com" /\
  PyStr.endswith ".csv" "inbox/a.csv" = true /\
  PyStr.contains "raw/" "inbox/a.csv" = false /\
  s3_objects inbox_world !! ("lake", "inbox/a.csv") = Some "a" /\
  RawIndexer.read_csv one_row_pandas "a" = Some [{[ "a" := VNum 1 ]}] /\
  s3_put_ok orc "lake" "inbox/a.csv" = true /\
  exists w' t,
    RawIndexer.process_file one_row_pandas cfg orc "lake" "inbox/a.csv" inbox_world =
      (w', Ok (Some (RawIndexer.mkProcessed "inbox/a.csv" (index_of cfg "inbox/a.csv") 1
                       "inbox/a.csv"))) /\
    s3_objects w' !! ("lake", "inbox/a.csv") =
      Some (RawIndexer.to_csv one_row_pandas (stamped t [{[ "a" := VNum 1 ]}])).
Proof.
  assert (Hdeep : (2 <= length (PyStr.split "/" "inbox/a.csv"))%nat) by (vm_compute; lia).
  split; [exact Hdeep |]. split; [reflexivity |]. split; [reflexivity |].
  split; [reflexivity |]. split; [reflexivity |]. split; [reflexivity |].
  split; [reflexivity |].
  destruct (processed_copy_overwrites_the_source (Json := string) one_row_pandas cfg orc "lake"
              "inbox/a.csv" "os.example.com" "a" [{[ "a" := VNum 1 ]}] inbox_world Hdeep
              eq_refl eq_refl eq_refl eq_refl eq_refl eq_refl)
    as (w' & t & E & Hblob).
  exists w', t. split; [exact E | exact Hblob].
Defined.
